(** * netopeer2: ietf-netconf-server callbacks (src/server/netconf_server.c)

    A shallow embedding of the sysrepo change callbacks, the host-key and
    public-key callbacks and the authorized-keys operational provider.

    The callbacks talk to three collaborators that live outside the file:
    sysrepo (change iterators, sessions, subtrees), libnetconf2 (the live
    server, reached only through its [nc_server_*] setters) and libc/libssh
    (allocation, the account database, files, keys).  The embedding keeps the
    callbacks as they are written and turns every collaborator call into an
    explicit effect: a call is appended to a trace together with the value the
    collaborator returned, and that value is read from an environment, so that
    every theorem holds for every behaviour of the collaborators. *)

From Stdlib Require Import ZArith List String Ascii Bool Lia Arith.
From Stdlib Require Import DecimalString.
Import ListNotations.

Local Open Scope string_scope.
Local Open Scope Z_scope.

(* ------------------------------------------------------------------ *)
(** ** Data model *)

(** [sr_change_oper_t] of sysrepo.h. *)
Inductive sr_change_oper_t :=
| SR_OP_CREATED
| SR_OP_MODIFIED
| SR_OP_DELETED
| SR_OP_MOVED.

(** The [sr_error_t] codes of sysrepo.h.  The source names four of them
    ([SR_ERR_OK], [SR_ERR_NOMEM], [SR_ERR_NOT_FOUND], [SR_ERR_INTERNAL]);
    the others stand for the hard errors a sysrepo call may report. *)
Inductive sr_error_t :=
| SR_ERR_OK
| SR_ERR_INVAL_ARG
| SR_ERR_LY
| SR_ERR_SYS
| SR_ERR_NOMEM
| SR_ERR_NOT_FOUND
| SR_ERR_EXISTS
| SR_ERR_INTERNAL
| SR_ERR_UNSUPPORTED.

Definition sr_error_eq_dec (a b : sr_error_t) : {a = b} + {a <> b}.
Proof. decide equality. Defined.

(** [struct lyd_node] / [struct lyd_node_leaf_list] of libyang, restricted to
    the members the callbacks read: [schema->name], the three views of a leaf
    value ([value_str], [value.uint8]/[value.uint16], [value.ident->name]) and
    the [parent], [child] (first child) and [next] (next sibling) links.  A
    NULL link is [None]. *)
#[warnings="-register-all"]
Inductive lyd_node := Lyd {
  schema_name : string;
  value_str : string;
  value_uint : Z;
  value_ident : string;
  parent : option lyd_node;
  child : option lyd_node;
  next : option lyd_node
}.

(** One result of [sr_get_change_tree_next]. *)
Record sr_change := {
  ch_op : sr_change_oper_t;
  ch_node : lyd_node;
  ch_prev_val : string;
  ch_prev_list : string;
  ch_prev_dflt : bool
}.

(** A change iterator: its handle, the changes it still has to deliver and the
    code [sr_get_change_tree_next] returns once they are delivered
    ([SR_ERR_NOT_FOUND] when it is exhausted, another code on a hard error). *)
Record sr_change_iter_t := {
  it_id : nat;
  it_changes : list sr_change;
  it_end : sr_error_t
}.

(** What sysrepo holds for one xpath: the code of [sr_get_changes_iter] and
    the content of the iterator it creates. *)
Record sr_changes := {
  cs_open : sr_error_t;
  cs_changes : list sr_change;
  cs_end : sr_error_t
}.

(** libnetconf2 enumerations used by the callbacks. *)
Inductive NC_TRANSPORT_IMPL := NC_TI_LIBSSH.
Inductive NC_CH_CONN_TYPE := NC_CH_PERSIST | NC_CH_PERIOD.
Inductive NC_CH_START_WITH := NC_CH_FIRST_LISTED | NC_CH_LAST_CONNECTED | NC_CH_RANDOM.
Inductive NC_SSH_KEY_TYPE := NC_SSH_KEY_UNKNOWN | NC_SSH_KEY_DSA | NC_SSH_KEY_RSA | NC_SSH_KEY_ECDSA.

(** [NC_SSH_AUTH_TYPE] of libnetconf2 (session_server.h): one bit per method. *)
Definition NC_SSH_AUTH_PUBLICKEY : Z := 1.
Definition NC_SSH_AUTH_PASSWORD : Z := 2.
Definition NC_SSH_AUTH_INTERACTIVE : Z := 4.

(** The libnetconf2 functions the callbacks call, one constructor per
    function, with the arguments of the call. *)
Inductive nc_call :=
| nc_server_set_idle_timeout (timeout : Z)
| nc_server_add_endpt (name : string) (ti : NC_TRANSPORT_IMPL)
| nc_server_del_endpt (name : string) (ti : NC_TRANSPORT_IMPL)
| nc_server_endpt_set_address (name : string) (address : string)
| nc_server_endpt_set_port (name : string) (port : Z)
| nc_server_endpt_enable_keepalives (name : string) (enable : Z)
| nc_server_endpt_set_keepalives (name : string) (idle_time max_probes probe_interval : Z)
| nc_server_ssh_endpt_add_hostkey (name : string) (key : string) (idx : Z)
| nc_server_ssh_endpt_del_hostkey (name : string) (key : string) (idx : Z)
| nc_server_ssh_endpt_mov_hostkey (name : string) (key : string) (key_after : string)
| nc_server_ssh_endpt_get_auth_methods (name : string)
| nc_server_ssh_endpt_set_auth_methods (name : string) (auth : Z)
| nc_server_ssh_endpt_set_auth_timeout (name : string) (timeout : Z)
| nc_server_ssh_endpt_set_auth_attempts (name : string) (attempts : Z)
| nc_server_ch_add_client (client : string)
| nc_server_ch_del_client (client : string)
| nc_connect_ch_client_dispatch (client : string)
| nc_server_ch_client_add_endpt (client name : string) (ti : NC_TRANSPORT_IMPL)
| nc_server_ch_client_del_endpt (client name : string) (ti : NC_TRANSPORT_IMPL)
| nc_server_ch_client_endpt_set_address (client name : string) (address : string)
| nc_server_ch_client_endpt_set_port (client name : string) (port : Z)
| nc_server_ch_client_endpt_enable_keepalives (client name : string) (enable : Z)
| nc_server_ch_client_endpt_set_keepalives (client name : string) (idle_time max_probes probe_interval : Z)
| nc_server_ssh_ch_client_endpt_add_hostkey (client name : string) (key : string) (idx : Z)
| nc_server_ssh_ch_client_endpt_del_hostkey (client name : string) (key : string) (idx : Z)
| nc_server_ssh_ch_client_endpt_mov_hostkey (client name : string) (key : string) (key_after : string)
| nc_server_ssh_ch_client_endpt_get_auth_methods (client name : string)
| nc_server_ssh_ch_client_endpt_set_auth_methods (client name : string) (auth : Z)
| nc_server_ssh_ch_client_endpt_set_auth_timeout (client name : string) (timeout : Z)
| nc_server_ssh_ch_client_endpt_set_auth_attempts (client name : string) (attempts : Z)
| nc_server_ch_client_set_conn_type (client : string) (type : NC_CH_CONN_TYPE)
| nc_server_ch_client_periodic_set_period (client : string) (period : Z)
| nc_server_ch_client_periodic_set_anchor_time (client : string) (anchor : Z)
| nc_server_ch_client_periodic_set_idle_timeout (client : string) (timeout : Z)
| nc_server_ch_client_set_start_with (client : string) (start_with : NC_CH_START_WITH)
| nc_server_ch_client_set_max_attempts (client : string) (attempts : Z).

(** [struct passwd]: the two members read. *)
Record passwd := {
  pw_name : string;
  pw_dir : string
}.

(** An open [FILE *]: the bytes not read yet, and whether reading them ends in
    an I/O error ([ferror]) rather than at end of file. *)
Record FILE := {
  f_content : string;
  f_error : bool
}.

(** A libssh key: its type and its public and private material. *)
Record ssh_key := {
  key_type : string;
  key_public : string;
  key_private : option string
}.

(** [errno] values. *)
Definition ENOENT : Z := 2.
Definition EACCES : Z := 13.

(** Return codes of libssh. *)
Definition SSH_OK : Z := 0.
Definition SSH_ERROR : Z := -1.
Definition SSH_EOF : Z := -127.

(** One entry of the [authorized-key] list built by the operational provider;
    a leaf that was not created is [None]. *)
Record authorized_key := {
  ak_name : option string;
  ak_algorithm : option string;
  ak_key_data : option string
}.

(** One entry of the [user] list: its [name] leaf and its keys, oldest first.
    [u_name] is [None] when the leaf could not be created. *)
Record user_entry := {
  u_name : option string;
  u_keys : list authorized_key
}.

(* ------------------------------------------------------------------ *)
(** ** The collaborators *)

(** Everything the callbacks obtain from outside. *)
Record environment := {
  (** sysrepo: the changes under an xpath *)
  e_changes : string -> sr_changes;
  (** libnetconf2: the value a call returns, given the calls made so far *)
  e_nc : list (nc_call * Z) -> nc_call -> Z;
  (** libc: whether the n-th allocation of the run succeeds *)
  e_alloc : nat -> bool;
  (** libnetconf2 [nc_datetime2time] *)
  e_datetime2time : string -> Z;
  (** sysrepo: the code of [sr_session_start] *)
  e_session_start : sr_error_t;
  (** sysrepo: the code and the node of [sr_get_subtree] *)
  e_subtree : string -> sr_error_t * option lyd_node;
  (** libc: the account database, in [getpwent] order *)
  e_passwd : list passwd;
  (** libc: [fopen(path, "r")], an [errno] or the file *)
  e_fopen : string -> Z + FILE;
  (** libssh: the public keys a key file holds, [None] when it cannot be read *)
  e_pubkeys : string -> option (list ssh_key)
}.

(** The observable state of a run. *)
Record world := {
  (** calls made to libnetconf2 with their results, oldest first *)
  w_calls : list (nc_call * Z);
  (** handles of the change iterators obtained and not yet freed *)
  w_iters : list nat;
  (** next fresh iterator handle *)
  w_next_iter : nat;
  (** number of allocations attempted *)
  w_allocs : nat;
  (** sysrepo sessions started and not yet stopped *)
  w_sessions : nat;
  (** subtrees fetched by [sr_get_subtree] and not yet freed *)
  w_trees : nat;
  (** the [user] entries created under the [users] container, oldest first *)
  w_users : list user_entry
}.

Definition world0 : world :=
  {| w_calls := []; w_iters := []; w_next_iter := O; w_allocs := O;
     w_sessions := O; w_trees := O; w_users := [] |}.

(** Behaviour that C leaves undefined, or that aborts the process. *)
Inductive fault :=
| NullDeref
| BufferOverflow
| AssertFailed
| OutOfFuel.

(** The outcome of running a piece of code: it returns a value, or it stops at a
    fault; in both cases the state reached is kept. *)
Inductive res (A : Type) :=
| Done (a : A) (w : world)
| Crash (f : fault) (w : world).
Arguments Done {A} a w.
Arguments Crash {A} f w.

Definition M (A : Type) : Type := world -> res A.

Definition ret {A} (a : A) : M A := fun w => Done a w.

Definition bind {A B} (m : M A) (k : A -> M B) : M B :=
  fun w => match m w with
           | Done a w' => k a w'
           | Crash f w' => Crash f w'
           end.

Definition crash {A} (f : fault) : M A := fun w => Crash f w.

Notation "x <- m ;; k" := (bind m (fun x => k))
  (at level 61, m at next level, right associativity).
Notation "m ;; k" := (bind m (fun _ => k))
  (at level 61, right associativity).

(** Dereference of a pointer that may be NULL. *)
Definition deref {A} (p : option A) : M A :=
  match p with
  | Some a => ret a
  | None => crash NullDeref
  end.

Definition world_of {A} (r : res A) : world :=
  match r with Done _ w => w | Crash _ w => w end.

Definition value_of {A} (r : res A) : option A :=
  match r with Done a _ => Some a | Crash _ _ => None end.

(** [int] truth value of a return code. *)
Definition nonzero (rc : Z) : bool := negb (rc =? 0).

(* ------------------------------------------------------------------ *)
(** ** Flag-set reconciler *)

(** [strcmp(a, b) == 0]. *)
Definition streq (a b : string) : bool := String.eqb a b.

(** [np2srv_ssh_update_auth_method]: [auth |= BIT] is [Z.lor], and
    [auth &= ~BIT] is [Z.land] with [Z.lnot]; both stay in the range of [int]. *)
Definition np2srv_ssh_update_auth_method (node : lyd_node) (op : sr_change_oper_t)
    (cur_auth : Z) : Z :=
  let auth := cur_auth in
  if streq (schema_name node) "publickey" then
    match op with
    | SR_OP_CREATED => Z.lor auth NC_SSH_AUTH_PUBLICKEY
    | SR_OP_DELETED => Z.land auth (Z.lnot NC_SSH_AUTH_PUBLICKEY)
    | _ => auth
    end
  else if streq (schema_name node) "passsword" then
    match op with
    | SR_OP_CREATED => Z.lor auth NC_SSH_AUTH_PASSWORD
    | SR_OP_DELETED => Z.land auth (Z.lnot NC_SSH_AUTH_PASSWORD)
    | _ => auth
    end
  else if streq (schema_name node) "hostbased" || streq (schema_name node) "none" then
    auth
  else if streq (schema_name node) "other" then
    let leaf := node in
    if streq (value_str leaf) "interactive" then
      match op with
      | SR_OP_CREATED => Z.lor auth NC_SSH_AUTH_INTERACTIVE
      | SR_OP_DELETED => Z.land auth (Z.lnot NC_SSH_AUTH_INTERACTIVE)
      | _ => auth
      end
    else auth
  else auth.

(** The mask after a sequence of flag events, each applied to the mask the
    previous one left, as the two [auth_methods] callbacks do when the live
    server returns what was last set. *)
Definition update_auth_methods (events : list (lyd_node * sr_change_oper_t)) (cur_auth : Z) : Z :=
  fold_left (fun auth ev => np2srv_ssh_update_auth_method (fst ev) (snd ev) auth) events cur_auth.

(** A flag leaf with the given schema name and value. *)
Definition flag_leaf (name value : string) : lyd_node :=
  {| schema_name := name; value_str := value; value_uint := 0; value_ident := "";
     parent := None; child := None; next := None |}.

(* ------------------------------------------------------------------ *)
(** ** Effects *)

Section Callbacks.

Variable E : environment.

Definition set_calls (w : world) (l : list (nc_call * Z)) : world :=
  {| w_calls := l; w_iters := w_iters w; w_next_iter := w_next_iter w;
     w_allocs := w_allocs w; w_sessions := w_sessions w; w_trees := w_trees w;
     w_users := w_users w |}.

Definition set_iters (w : world) (l : list nat) (n : nat) : world :=
  {| w_calls := w_calls w; w_iters := l; w_next_iter := n;
     w_allocs := w_allocs w; w_sessions := w_sessions w; w_trees := w_trees w;
     w_users := w_users w |}.

Definition set_allocs (w : world) (n : nat) : world :=
  {| w_calls := w_calls w; w_iters := w_iters w; w_next_iter := w_next_iter w;
     w_allocs := n; w_sessions := w_sessions w; w_trees := w_trees w;
     w_users := w_users w |}.

Definition set_sessions (w : world) (n : nat) : world :=
  {| w_calls := w_calls w; w_iters := w_iters w; w_next_iter := w_next_iter w;
     w_allocs := w_allocs w; w_sessions := n; w_trees := w_trees w;
     w_users := w_users w |}.

Definition set_trees (w : world) (n : nat) : world :=
  {| w_calls := w_calls w; w_iters := w_iters w; w_next_iter := w_next_iter w;
     w_allocs := w_allocs w; w_sessions := w_sessions w; w_trees := n;
     w_users := w_users w |}.

Definition set_users (w : world) (l : list user_entry) : world :=
  {| w_calls := w_calls w; w_iters := w_iters w; w_next_iter := w_next_iter w;
     w_allocs := w_allocs w; w_sessions := w_sessions w; w_trees := w_trees w;
     w_users := l |}.

(** A call to libnetconf2 that returns an [int]. *)
Definition nc (c : nc_call) : M Z :=
  fun w => let rc := e_nc E (w_calls w) c in
           Done rc (set_calls w (w_calls w ++ [(c, rc)])).

(** A call to a libnetconf2 function that returns [void]. *)
Definition nc_void (c : nc_call) : M unit :=
  fun w => Done tt (set_calls w (w_calls w ++ [(c, 0)])).

(** One allocation attempt. *)
Definition alloc : M bool :=
  fun w => Done (e_alloc E (w_allocs w)) (set_allocs w (S (w_allocs w))).

(** [asprintf(&p, fmt, ...)]: the formatted string, or [None] for [-1]. *)
Definition asprintf (s : string) : M (option string) :=
  ok <- alloc ;; ret (if ok : bool then Some s else None).

(** [strdup] and [strndup] after the copy is cut: the copy, or NULL. *)
Definition strdup (s : string) : M (option string) :=
  ok <- alloc ;; ret (if ok : bool then Some s else None).

(** [sr_get_changes_iter]: on [SR_ERR_OK] a fresh iterator is handed out. *)
Definition sr_get_changes_iter (xpath : string) : M (sr_error_t * sr_change_iter_t) :=
  fun w =>
    let cs := e_changes E xpath in
    let iter := {| it_id := w_next_iter w; it_changes := cs_changes cs; it_end := cs_end cs |} in
    if sr_error_eq_dec (cs_open cs) SR_ERR_OK
    then Done (SR_ERR_OK, iter) (set_iters w (w_iters w ++ [w_next_iter w]) (S (w_next_iter w)))
    else Done (cs_open cs, iter) w.

(** [sr_free_change_iter]. *)
Definition sr_free_change_iter (iter : sr_change_iter_t) : M unit :=
  fun w => Done tt (set_iters w (remove Nat.eq_dec (it_id iter) (w_iters w)) (w_next_iter w)).

(** How one turn of a [while] body ends: it falls through to the next turn, or
    it executes a [return]. *)
Inductive flow :=
| Next
| Return (rc : sr_error_t).

(** [while ((rc = sr_get_change_tree_next(...)) == SR_ERR_OK) { body }]:
    the body runs on each change in delivery order until one returns. *)
Fixpoint while_changes (body : sr_change -> M flow) (changes : list sr_change) : M flow :=
  match changes with
  | [] => ret Next
  | c :: rest =>
      f <- body c ;;
      match f with
      | Next => while_changes body rest
      | Return rc => ret (Return rc)
      end
  end.

(** The loop followed by the epilogue every scanning callback shares:
<<
    sr_free_change_iter(iter);
    if (rc != SR_ERR_NOT_FOUND) { return rc; }
    return SR_ERR_OK;
>>
    where [rc] is the code that ended the loop. *)
Definition scan_changes (iter : sr_change_iter_t) (body : sr_change -> M flow) : M sr_error_t :=
  f <- while_changes body (it_changes iter) ;;
  match f with
  | Return rc => ret rc
  | Next =>
      let rc := it_end iter in
      sr_free_change_iter iter ;;
      if sr_error_eq_dec rc SR_ERR_NOT_FOUND then ret SR_ERR_OK else ret rc
  end.

(** [node->parent->...->parent], [n] links up. *)
Fixpoint ancestor (n : nat) (node : lyd_node) : M lyd_node :=
  match n with
  | O => ret node
  | S k => p <- deref (parent node) ;; ancestor k p
  end.

(** [node->child] read as a leaf and its [value_str]: the key of a list entry
    is its first child. *)
Definition key_of (node : lyd_node) : M string :=
  k <- deref (child node) ;; ret (value_str k).

(** The [if (rc) { sr_free_change_iter(iter); return SR_ERR_INTERNAL; }] that
    closes most loop bodies. *)
Definition check_rc (iter : sr_change_iter_t) (rc : Z) : M flow :=
  if nonzero rc
  then sr_free_change_iter iter ;; ret (Return SR_ERR_INTERNAL)
  else ret Next.

(** The prologue shared by the callbacks that scan the direct children of
    their subtree:
<<
    if (asprintf(&xpath2, "%s/ *", xpath) == -1) { EMEM; return SR_ERR_NOMEM; }
    rc = sr_get_changes_iter(session, xpath2, &iter);
    free(xpath2);
    if (rc != SR_ERR_OK) { return rc; }
>>
    (the format is ["%s/"] followed by a star) and then the loop and its
    epilogue. *)
Definition scan_children (xpath : string)
    (body : sr_change_iter_t -> sr_change -> M flow) : M sr_error_t :=
  xpath2 <- asprintf (xpath ++ "/*") ;;
  match xpath2 with
  | None => ret SR_ERR_NOMEM
  | Some xpath2 =>
      r <- sr_get_changes_iter xpath2 ;;
      let '(rc, iter) := r in
      if sr_error_eq_dec rc SR_ERR_OK
      then scan_changes iter (body iter)
      else ret rc
  end.

(** The prologue of the callbacks that scan their own subtree. *)
Definition scan_subtree (xpath : string)
    (body : sr_change_iter_t -> sr_change -> M flow) : M sr_error_t :=
  r <- sr_get_changes_iter xpath ;;
  let '(rc, iter) := r in
  if sr_error_eq_dec rc SR_ERR_OK
  then scan_changes iter (body iter)
  else ret rc.

(* ------------------------------------------------------------------ *)
(** ** Reconciliation callbacks *)

(** Body of the loop of [np2srv_idle_timeout_cb]. *)
Definition np2srv_idle_timeout_change (c : sr_change) : M flow :=
  match ch_op c with
  | SR_OP_CREATED | SR_OP_MODIFIED =>
      nc_void (nc_server_set_idle_timeout (value_uint (ch_node c))) ;; ret Next
  | _ => ret Next
  end.

(** /ietf-netconf-server:netconf-server/listen/idle-timeout *)
Definition np2srv_idle_timeout_cb (xpath : string) : M sr_error_t :=
  scan_subtree xpath (fun _ => np2srv_idle_timeout_change).

(** Body of the loop of [np2srv_endpt_ssh_cb]. *)
Definition np2srv_endpt_ssh_change (iter : sr_change_iter_t) (c : sr_change) : M flow :=
  let node := ch_node c in
  endpt_name <- (p <- ancestor 1 node ;; key_of p) ;;
  rc <- match ch_op c with
        | SR_OP_CREATED =>
            rc <- nc (nc_server_add_endpt endpt_name NC_TI_LIBSSH) ;;
            nc (nc_server_ssh_endpt_set_auth_methods endpt_name 0) ;;
            ret rc
        | SR_OP_DELETED => nc (nc_server_del_endpt endpt_name NC_TI_LIBSSH)
        | _ => ret 0
        end ;;
  check_rc iter rc.

(** /ietf-netconf-server:netconf-server/listen/endpoint/ssh *)
Definition np2srv_endpt_ssh_cb (xpath : string) : M sr_error_t :=
  scan_subtree xpath np2srv_endpt_ssh_change.

(** Body of the loop of [np2srv_tcp_keepalives]: it only updates the three
    locals [idle_time], [max_probes] and [probe_interval]. *)
Definition np2srv_tcp_keepalives_change (acc : Z * Z * Z) (c : sr_change) : Z * Z * Z :=
  let '(idle_time, max_probes, probe_interval) := acc in
  let node := ch_node c in
  if streq (schema_name node) "idle-time" then
    match ch_op c with
    | SR_OP_DELETED => (1, max_probes, probe_interval)
    | _ => (value_uint node, max_probes, probe_interval)
    end
  else if streq (schema_name node) "max-probes" then
    match ch_op c with
    | SR_OP_DELETED => (idle_time, 10, probe_interval)
    | _ => (idle_time, value_uint node, probe_interval)
    end
  else if streq (schema_name node) "probe-interval" then
    match ch_op c with
    | SR_OP_DELETED => (idle_time, max_probes, 5)
    | _ => (idle_time, max_probes, value_uint node)
    end
  else acc.

(** [np2srv_tcp_keepalives]; [client_name] is [None] for NULL. *)
Definition np2srv_tcp_keepalives (client_name : option string) (endpt_name : string)
    (xpath : string) : M sr_error_t :=
  r <- sr_get_changes_iter xpath ;;
  let '(rc, iter) := r in
  if sr_error_eq_dec rc SR_ERR_OK then
    let '(idle_time, max_probes, probe_interval) :=
      fold_left np2srv_tcp_keepalives_change (it_changes iter) (-1, -1, -1) in
    let rc := it_end iter in
    sr_free_change_iter iter ;;
    if sr_error_eq_dec rc SR_ERR_NOT_FOUND then
      (* set new keepalive parameters *)
      rc <- match client_name with
            | None =>
                nc (nc_server_endpt_set_keepalives endpt_name idle_time max_probes probe_interval)
            | Some client =>
                nc (nc_server_ch_client_endpt_set_keepalives client endpt_name
                      idle_time max_probes probe_interval)
            end ;;
      if nonzero rc then ret SR_ERR_INTERNAL else ret SR_ERR_OK
    else ret rc
  else ret rc.

(** Body of the loop of [np2srv_endpt_tcp_params_cb]. *)
Definition np2srv_endpt_tcp_params_change (xpath : string) (iter : sr_change_iter_t)
    (c : sr_change) : M flow :=
  let node := ch_node c in
  (* find name *)
  endpt_name <- (p <- ancestor 3 node ;; key_of p) ;;
  if streq (schema_name node) "local-address" then
    match ch_op c with
    | SR_OP_CREATED | SR_OP_MODIFIED =>
        rc <- nc (nc_server_endpt_set_address endpt_name (value_str node)) ;;
        check_rc iter rc
    | _ => ret Next
    end
  else if streq (schema_name node) "local-port" then
    match ch_op c with
    | SR_OP_CREATED | SR_OP_MODIFIED =>
        rc <- nc (nc_server_endpt_set_port endpt_name (value_uint node)) ;;
        check_rc iter rc
    | _ => ret Next
    end
  else if streq (schema_name node) "keepalives" then
    rc <- match ch_op c with
          | SR_OP_CREATED => nc (nc_server_endpt_enable_keepalives endpt_name 1)
          | SR_OP_DELETED => nc (nc_server_endpt_enable_keepalives endpt_name 0)
          | _ => ret 0
          end ;;
    if nonzero rc then sr_free_change_iter iter ;; ret (Return SR_ERR_INTERNAL)
    else
      (* set specific parameters *)
      xpath2 <- asprintf (xpath ++ "/keepalives/*") ;;
      match xpath2 with
      | None => ret (Return SR_ERR_NOMEM)
      | Some xpath2 =>
          rc <- np2srv_tcp_keepalives None endpt_name xpath2 ;;
          if sr_error_eq_dec rc SR_ERR_OK then ret Next
          else sr_free_change_iter iter ;; ret (Return rc)
      end
  else ret Next.

(** /ietf-netconf-server:netconf-server/listen/endpoint/ssh/tcp-server-parameters *)
Definition np2srv_endpt_tcp_params_cb (xpath : string) : M sr_error_t :=
  scan_children xpath (np2srv_endpt_tcp_params_change xpath).

(** Body of the loop of [np2srv_endpt_ssh_hostkey_cb]. *)
Definition np2srv_endpt_ssh_hostkey_change (iter : sr_change_iter_t) (c : sr_change) : M flow :=
  let node := ch_node c in
  (* find name *)
  endpt_name <- (p <- ancestor 4 node ;; key_of p) ;;
  rc <- match ch_op c with
        | SR_OP_CREATED =>
            key <- key_of node ;; nc (nc_server_ssh_endpt_add_hostkey endpt_name key (-1))
        | SR_OP_DELETED =>
            key <- key_of node ;; nc (nc_server_ssh_endpt_del_hostkey endpt_name key (-1))
        | SR_OP_MOVED =>
            key <- key_of node ;;
            nc (nc_server_ssh_endpt_mov_hostkey endpt_name key (ch_prev_val c))
        | SR_OP_MODIFIED => ret 0
        end ;;
  check_rc iter rc.

(** /ietf-netconf-server:netconf-server/listen/endpoint/ssh/ssh-server-parameters/server-identity/host-key *)
Definition np2srv_endpt_ssh_hostkey_cb (xpath : string) : M sr_error_t :=
  scan_subtree xpath np2srv_endpt_ssh_hostkey_change.

(** Body of the loop of [np2srv_endpt_ssh_auth_methods_cb]. *)
Definition np2srv_endpt_ssh_auth_methods_change (iter : sr_change_iter_t) (c : sr_change) : M flow :=
  let node := ch_node c in
  (* find name *)
  endpt_name <- (p <- ancestor 5 node ;; key_of p) ;;
  (* current methods *)
  auth <- nc (nc_server_ssh_endpt_get_auth_methods endpt_name) ;;
  let auth := np2srv_ssh_update_auth_method node (ch_op c) auth in
  (* updated methods *)
  rc <- nc (nc_server_ssh_endpt_set_auth_methods endpt_name auth) ;;
  check_rc iter rc.

(** /ietf-netconf-server:netconf-server/listen/endpoint/ssh/ssh-server-parameters/client-authentication/supported-authentication-methods *)
Definition np2srv_endpt_ssh_auth_methods_cb (xpath : string) : M sr_error_t :=
  scan_children xpath np2srv_endpt_ssh_auth_methods_change.

(** Body of the loop of [np2srv_endpt_ssh_keepalives_cb]. *)
Definition np2srv_endpt_ssh_keepalives_change (iter : sr_change_iter_t) (c : sr_change) : M flow :=
  let node := ch_node c in
  (* find name *)
  endpt_name <- (p <- ancestor 4 node ;; key_of p) ;;
  rc <- (if streq (schema_name node) "max-wait" then
           match ch_op c with
           | SR_OP_DELETED => (* set default *)
               nc (nc_server_ssh_endpt_set_auth_timeout endpt_name 30)
           | _ => nc (nc_server_ssh_endpt_set_auth_timeout endpt_name (value_uint node))
           end
         else if streq (schema_name node) "max-attempts" then
           match ch_op c with
           | SR_OP_DELETED => (* set default *)
               nc (nc_server_ssh_endpt_set_auth_attempts endpt_name 3)
           | _ => nc (nc_server_ssh_endpt_set_auth_attempts endpt_name (value_uint node))
           end
         else ret 0) ;;
  check_rc iter rc.

(** /ietf-netconf-server:netconf-server/listen/endpoint/ssh/ssh-server-parameters/keepalives *)
Definition np2srv_endpt_ssh_keepalives_cb (xpath : string) : M sr_error_t :=
  scan_children xpath np2srv_endpt_ssh_keepalives_change.

(** Body of the loop of [np2srv_ch_client_cb]. *)
Definition np2srv_ch_client_change (iter : sr_change_iter_t) (c : sr_change) : M flow :=
  let node := ch_node c in
  (* get name *)
  client_name <- key_of node ;;
  rc <- match ch_op c with
        | SR_OP_CREATED =>
            rc <- nc (nc_server_ch_add_client client_name) ;;
            if nonzero rc then ret rc
            else nc (nc_connect_ch_client_dispatch client_name)
        | SR_OP_DELETED => nc (nc_server_ch_del_client client_name)
        | _ => ret 0
        end ;;
  check_rc iter rc.

(** /ietf-netconf-server:netconf-server/call-home/netconf-client *)
Definition np2srv_ch_client_cb (xpath : string) : M sr_error_t :=
  scan_subtree xpath np2srv_ch_client_change.

(** Body of the loop of [np2srv_ch_client_endpt_ssh_cb]. *)
Definition np2srv_ch_client_endpt_ssh_change (iter : sr_change_iter_t) (c : sr_change) : M flow :=
  let node := ch_node c in
  (* get names *)
  endpt_name <- (p <- ancestor 1 node ;; key_of p) ;;
  client_name <- (p <- ancestor 3 node ;; key_of p) ;;
  rc <- match ch_op c with
        | SR_OP_CREATED =>
            rc <- nc (nc_server_ch_client_add_endpt client_name endpt_name NC_TI_LIBSSH) ;;
            (* turn off all auth methods by default *)
            nc (nc_server_ssh_ch_client_endpt_set_auth_methods client_name endpt_name 0) ;;
            ret rc
        | SR_OP_DELETED =>
            nc (nc_server_ch_client_del_endpt client_name endpt_name NC_TI_LIBSSH)
        | _ => ret 0
        end ;;
  check_rc iter rc.

(** /ietf-netconf-server:netconf-server/call-home/netconf-client/endpoints/endpoint/ssh *)
Definition np2srv_ch_client_endpt_ssh_cb (xpath : string) : M sr_error_t :=
  scan_subtree xpath np2srv_ch_client_endpt_ssh_change.

(** Body of the loop of [np2srv_ch_client_endpt_tcp_params_cb]. *)
Definition np2srv_ch_client_endpt_tcp_params_change (xpath : string) (iter : sr_change_iter_t)
    (c : sr_change) : M flow :=
  let node := ch_node c in
  (* find names *)
  endpt_name <- (p <- ancestor 3 node ;; key_of p) ;;
  client_name <- (p <- ancestor 5 node ;; key_of p) ;;
  if streq (schema_name node) "remote-address" then
    match ch_op c with
    | SR_OP_CREATED | SR_OP_MODIFIED =>
        rc <- nc (nc_server_ch_client_endpt_set_address client_name endpt_name (value_str node)) ;;
        check_rc iter rc
    | _ => ret Next
    end
  else if streq (schema_name node) "remote-port" then
    match ch_op c with
    | SR_OP_CREATED | SR_OP_MODIFIED =>
        rc <- nc (nc_server_ch_client_endpt_set_port client_name endpt_name (value_uint node)) ;;
        check_rc iter rc
    | _ => ret Next
    end
  else if streq (schema_name node) "keepalives" then
    rc <- match ch_op c with
          | SR_OP_CREATED =>
              nc (nc_server_ch_client_endpt_enable_keepalives client_name endpt_name 1)
          | SR_OP_DELETED =>
              nc (nc_server_ch_client_endpt_enable_keepalives client_name endpt_name 0)
          | _ => ret 0
          end ;;
    if nonzero rc then sr_free_change_iter iter ;; ret (Return SR_ERR_INTERNAL)
    else
      (* set specific parameters *)
      xpath2 <- asprintf (xpath ++ "/keepalives/*") ;;
      match xpath2 with
      | None => ret (Return SR_ERR_NOMEM)
      | Some xpath2 =>
          rc <- np2srv_tcp_keepalives (Some client_name) endpt_name xpath2 ;;
          if sr_error_eq_dec rc SR_ERR_OK then ret Next
          else sr_free_change_iter iter ;; ret (Return rc)
      end
  else ret Next.

(** /ietf-netconf-server:netconf-server/call-home/netconf-client/endpoints/endpoint/ssh/tcp-client-parameters *)
Definition np2srv_ch_client_endpt_tcp_params_cb (xpath : string) : M sr_error_t :=
  scan_children xpath (np2srv_ch_client_endpt_tcp_params_change xpath).

(** Body of the loop of [np2srv_ch_endpt_ssh_hostkey_cb]. *)
Definition np2srv_ch_endpt_ssh_hostkey_change (iter : sr_change_iter_t) (c : sr_change) : M flow :=
  let node := ch_node c in
  (* find name *)
  endpt_name <- (p <- ancestor 4 node ;; key_of p) ;;
  client_name <- (p <- ancestor 6 node ;; key_of p) ;;
  rc <- match ch_op c with
        | SR_OP_CREATED =>
            key <- key_of node ;;
            nc (nc_server_ssh_ch_client_endpt_add_hostkey client_name endpt_name key (-1))
        | SR_OP_DELETED =>
            key <- key_of node ;;
            nc (nc_server_ssh_ch_client_endpt_del_hostkey client_name endpt_name key (-1))
        | SR_OP_MOVED =>
            key <- key_of node ;;
            nc (nc_server_ssh_ch_client_endpt_mov_hostkey client_name endpt_name key (ch_prev_val c))
        | SR_OP_MODIFIED => ret 0
        end ;;
  check_rc iter rc.

(** /ietf-netconf-server:netconf-server/call-home/netconf-client/endpoints/endpoint/ssh/ssh-server-parameters/server-identity/host-key *)
Definition np2srv_ch_endpt_ssh_hostkey_cb (xpath : string) : M sr_error_t :=
  scan_subtree xpath np2srv_ch_endpt_ssh_hostkey_change.

(** Body of the loop of [np2srv_ch_endpt_ssh_auth_methods_cb]. *)
Definition np2srv_ch_endpt_ssh_auth_methods_change (iter : sr_change_iter_t) (c : sr_change) : M flow :=
  let node := ch_node c in
  (* find names *)
  endpt_name <- (p <- ancestor 5 node ;; key_of p) ;;
  client_name <- (p <- ancestor 7 node ;; key_of p) ;;
  (* current methods *)
  auth <- nc (nc_server_ssh_ch_client_endpt_get_auth_methods client_name endpt_name) ;;
  let auth := np2srv_ssh_update_auth_method node (ch_op c) auth in
  (* updated methods *)
  rc <- nc (nc_server_ssh_ch_client_endpt_set_auth_methods client_name endpt_name auth) ;;
  check_rc iter rc.

(** /ietf-netconf-server:netconf-server/call-home/netconf-client/endpoints/endpoint/ssh/ssh-server-parameters/client-authentication/supported-authentication-methods *)
Definition np2srv_ch_endpt_ssh_auth_methods_cb (xpath : string) : M sr_error_t :=
  scan_children xpath np2srv_ch_endpt_ssh_auth_methods_change.

(** Body of the loop of [np2srv_ch_endpt_ssh_keepalives_cb]. *)
Definition np2srv_ch_endpt_ssh_keepalives_change (iter : sr_change_iter_t) (c : sr_change) : M flow :=
  let node := ch_node c in
  (* find names *)
  endpt_name <- (p <- ancestor 4 node ;; key_of p) ;;
  client_name <- (p <- ancestor 6 node ;; key_of p) ;;
  rc <- (if streq (schema_name node) "max-wait" then
           match ch_op c with
           | SR_OP_DELETED => (* set default *)
               nc (nc_server_ssh_ch_client_endpt_set_auth_timeout client_name endpt_name 30)
           | _ => nc (nc_server_ssh_ch_client_endpt_set_auth_timeout client_name endpt_name
                        (value_uint node))
           end
         else if streq (schema_name node) "max-attempts" then
           match ch_op c with
           | SR_OP_DELETED => (* set default *)
               nc (nc_server_ssh_ch_client_endpt_set_auth_attempts client_name endpt_name 3)
           | _ => nc (nc_server_ssh_ch_client_endpt_set_auth_attempts client_name endpt_name
                        (value_uint node))
           end
         else ret 0) ;;
  check_rc iter rc.

(** /ietf-netconf-server:netconf-server/call-home/netconf-client/endpoints/endpoint/ssh/ssh-server-parameters/keepalives *)
Definition np2srv_ch_endpt_ssh_keepalives_cb (xpath : string) : M sr_error_t :=
  scan_children xpath np2srv_ch_endpt_ssh_keepalives_change.

(** Body of the loop of [np2srv_ch_periodic_connection_params]. *)
Definition np2srv_ch_periodic_connection_change (client_name : string)
    (iter : sr_change_iter_t) (c : sr_change) : M flow :=
  let node := ch_node c in
  rc <- (if streq (schema_name node) "period" then
           match ch_op c with
           | SR_OP_DELETED => (* set default *)
               nc (nc_server_ch_client_periodic_set_period client_name 60)
           | _ => nc (nc_server_ch_client_periodic_set_period client_name (value_uint node))
           end
         else if streq (schema_name node) "anchor-time" then
           match ch_op c with
           | SR_OP_DELETED => (* set default *)
               nc (nc_server_ch_client_periodic_set_anchor_time client_name 0)
           | _ => nc (nc_server_ch_client_periodic_set_anchor_time client_name
                        (e_datetime2time E (value_str node)))
           end
         else if streq (schema_name node) "idle-timeout" then
           match ch_op c with
           | SR_OP_DELETED => (* set default *)
               nc (nc_server_ch_client_periodic_set_idle_timeout client_name 120)
           | _ => nc (nc_server_ch_client_periodic_set_idle_timeout client_name (value_uint node))
           end
         else ret 0) ;;
  check_rc iter rc.

(** [np2srv_ch_periodic_connection_params]. *)
Definition np2srv_ch_periodic_connection_params (client_name : string) (xpath : string)
    : M sr_error_t :=
  scan_subtree xpath (np2srv_ch_periodic_connection_change client_name).

(** Body of the loop of [np2srv_ch_connection_type_cb]. *)
Definition np2srv_ch_connection_type_change (xpath : string) (iter : sr_change_iter_t)
    (c : sr_change) : M flow :=
  let node := ch_node c in
  (* find names *)
  client_name <- (p <- ancestor 2 node ;; key_of p) ;;
  match ch_op c with
  | SR_OP_CREATED =>
      (* connection type *)
      if streq (schema_name node) "persistent" then
        rc <- nc (nc_server_ch_client_set_conn_type client_name NC_CH_PERSIST) ;;
        check_rc iter rc
      else if streq (schema_name node) "periodic" then
        rc <- nc (nc_server_ch_client_set_conn_type client_name NC_CH_PERIOD) ;;
        check_rc iter rc
      else ret Next
  | SR_OP_MODIFIED =>
      (* periodic connection type params *)
      if negb (streq (schema_name node) "periodic") then crash AssertFailed
      else
        xpath2 <- asprintf (xpath ++ "/periodic/*") ;;
        match xpath2 with
        | None => ret (Return SR_ERR_NOMEM)
        | Some xpath2 =>
            rc <- np2srv_ch_periodic_connection_params client_name xpath2 ;;
            if sr_error_eq_dec rc SR_ERR_OK then ret Next
            else ret (Return rc)
        end
  | _ => ret Next
  end.

(** /ietf-netconf-server:netconf-server/call-home/netconf-client/connection-type *)
Definition np2srv_ch_connection_type_cb (xpath : string) : M sr_error_t :=
  scan_children xpath (np2srv_ch_connection_type_change xpath).

(** Body of the loop of [np2srv_ch_reconnect_strategy_cb]. *)
Definition np2srv_ch_reconnect_strategy_change (iter : sr_change_iter_t) (c : sr_change) : M flow :=
  let node := ch_node c in
  (* find name *)
  client_name <- (p <- ancestor 2 node ;; key_of p) ;;
  rc <- (if streq (schema_name node) "start-with" then
           match ch_op c with
           | SR_OP_DELETED => (* set default *)
               nc (nc_server_ch_client_set_start_with client_name NC_CH_FIRST_LISTED)
           | _ =>
               let str := value_str node in
               if streq str "first-listed" then
                 nc (nc_server_ch_client_set_start_with client_name NC_CH_FIRST_LISTED)
               else if streq str "last-connected" then
                 nc (nc_server_ch_client_set_start_with client_name NC_CH_LAST_CONNECTED)
               else if streq str "random-selection" then
                 nc (nc_server_ch_client_set_start_with client_name NC_CH_RANDOM)
               else ret 0
           end
         else if streq (schema_name node) "max-attempts" then
           match ch_op c with
           | SR_OP_DELETED => (* set default *)
               nc (nc_server_ch_client_set_max_attempts client_name 3)
           | _ => nc (nc_server_ch_client_set_max_attempts client_name (value_uint node))
           end
         else ret 0) ;;
  check_rc iter rc.

(** /ietf-netconf-server:netconf-server/call-home/netconf-client/reconnect-strategy *)
Definition np2srv_ch_reconnect_strategy_cb (xpath : string) : M sr_error_t :=
  scan_children xpath np2srv_ch_reconnect_strategy_change.

(* ------------------------------------------------------------------ *)
(** ** Key-material resolver *)

(** [sr_session_start]. *)
Definition sr_session_start : M sr_error_t :=
  fun w =>
    if sr_error_eq_dec (e_session_start E) SR_ERR_OK
    then Done SR_ERR_OK (set_sessions w (S (w_sessions w)))
    else Done (e_session_start E) w.

(** [sr_session_stop]. *)
Definition sr_session_stop : M unit :=
  fun w => Done tt (set_sessions w (pred (w_sessions w))).

(** [sr_get_subtree]: the code, and what it stores in [data], which the caller
    initialised to NULL and which stays NULL on an error. *)
Definition sr_get_subtree (xpath : string) : M (sr_error_t * option lyd_node) :=
  fun w =>
    let '(r, d) := e_subtree E xpath in
    if sr_error_eq_dec r SR_ERR_OK then
      match d with
      | Some n => Done (r, Some n) (set_trees w (S (w_trees w)))
      | None => Done (r, None) w
      end
    else Done (r, None) w.

(** [lyd_free_withsiblings]: the fetched fragment is released when the node
    given is its root. *)
Definition lyd_free_withsiblings (node : lyd_node) : M unit :=
  fun w =>
    match parent node with
    | None => Done tt (set_trees w (pred (w_trees w)))
    | Some _ => Done tt w
    end.

(** [while (data->parent) { data = data->parent; }] once [data] is known to
    point to a node. *)
Fixpoint root_of (data : lyd_node) : lyd_node :=
  match data with
  | Lyd _ _ _ _ (Some p) _ _ => root_of p
  | Lyd _ _ _ _ None _ _ => data
  end.

(** [LY_TREE_FOR(first, node) { ... }] of [np2srv_hostkey_cb], from the node
    [node] on: the last [algorithm] and the last [private-key] sibling win. *)
Fixpoint hostkey_find_nodes (node : lyd_node) (alg privkey : option lyd_node)
    : option lyd_node * option lyd_node :=
  let '(alg, privkey) :=
    if streq (schema_name node) "algorithm" then (Some node, privkey)
    else if streq (schema_name node) "private-key" then (alg, Some node)
    else (alg, privkey) in
  match node with
  | Lyd _ _ _ _ _ _ (Some n) => hostkey_find_nodes n alg privkey
  | Lyd _ _ _ _ _ _ None => (alg, privkey)
  end.

(** What [np2srv_hostkey_cb] hands back: its return value and the two output
    parameters, [None] when no key data, respectively no key type, was stored. *)
Record hostkey_result := {
  hk_rc : Z;
  hk_privkey_data : option string;
  hk_privkey_type : option NC_SSH_KEY_TYPE
}.

(** The [cleanup:] label of [np2srv_hostkey_cb]. *)
Definition np2srv_hostkey_cleanup (data : option lyd_node) (result : hostkey_result)
    : M hostkey_result :=
  d <- deref data ;;
  lyd_free_withsiblings (root_of d) ;;
  sr_session_stop ;;
  ret result.

(** The end of [np2srv_hostkey_cb] once [*privkey_type] is stored: the key
    data is duplicated, and [rc] becomes 0 when that worked. *)
Definition hostkey_set_data (data : option lyd_node) (privkey : lyd_node)
    (type : NC_SSH_KEY_TYPE) : M hostkey_result :=
  (* set data *)
  copy <- strdup (value_str privkey) ;;
  match copy with
  | None =>
      np2srv_hostkey_cleanup data
        {| hk_rc := -1; hk_privkey_data := None; hk_privkey_type := Some type |}
  | Some str =>
      (* success *)
      np2srv_hostkey_cleanup data
        {| hk_rc := 0; hk_privkey_data := Some str; hk_privkey_type := Some type |}
  end.

Definition hostkey_xpath (name : string) : string :=
  "/ietf-netconf-server:netconf-server//endpoint/ssh/ssh-server-parameters/"
  ++ "server-identity/host-key[name='" ++ name ++ "']/public-key/local-definition".

(** [np2srv_hostkey_cb]. *)
Definition np2srv_hostkey_cb (name : string) : M hostkey_result :=
  let failed := {| hk_rc := -1; hk_privkey_data := None; hk_privkey_type := None |} in
  r <- sr_session_start ;;
  if sr_error_eq_dec r SR_ERR_OK then
    (* get hostkey data from sysrepo *)
    xpath <- asprintf (hostkey_xpath name) ;;
    match xpath with
    | None => np2srv_hostkey_cleanup None failed
    | Some xpath =>
        rd <- sr_get_subtree xpath ;;
        let '(r, data) := rd in
        if sr_error_eq_dec r SR_ERR_OK then
          match data with
          | None => np2srv_hostkey_cleanup data failed
          | Some d =>
              (* find the nodes *)
              let '(alg, privkey) :=
                match child d with
                | Some first => hostkey_find_nodes first None None
                | None => (None, None)
                end in
              match alg, privkey with
              | Some alg, Some privkey =>
                  (* set algorithm *)
                  if prefix "rsa" (value_ident alg) then
                    hostkey_set_data data privkey NC_SSH_KEY_RSA
                  else if prefix "secp" (value_ident alg) then
                    hostkey_set_data data privkey NC_SSH_KEY_ECDSA
                  else np2srv_hostkey_cleanup data failed
              | _, _ => np2srv_hostkey_cleanup data failed
              end
          end
        else np2srv_hostkey_cleanup data failed
    end
  else ret failed.

(* ------------------------------------------------------------------ *)
(** ** Public-key authentication decision *)

(** [getpwnam]: the first account with that name. *)
Definition getpwnam (username : string) : option passwd :=
  find (fun pwd => streq (pw_name pwd) username) (e_passwd E).

(** Modelled from the spec: libssh's [ssh_pki_import_pubkey_file] is outside
    the repository; it imports only the first key found in the file, and its
    code is not [SSH_OK] when the file cannot be read or holds no key. *)
Definition ssh_pki_import_pubkey_file (path : string) : Z * option ssh_key :=
  match e_pubkeys E path with
  | None => (SSH_ERROR, None)
  | Some [] => (SSH_EOF, None)
  | Some (k :: _) => (SSH_OK, Some k)
  end.

(** Modelled from the spec: libssh's [ssh_key_cmp] with [SSH_KEY_CMP_PUBLIC]
    is outside the repository; it returns 0 when the public-key material of
    the two keys is equal byte for byte, and 1 otherwise. *)
Definition ssh_key_cmp_public (k1 k2 : ssh_key) : Z :=
  if streq (key_type k1) (key_type k2) && streq (key_public k1) (key_public k2)
  then 0 else 1.

(** [np2srv_pubkey_auth_cb]; [username] is what [nc_session_get_username]
    returns for the session. *)
Definition np2srv_pubkey_auth_cb (username : string) (key : ssh_key) : M Z :=
  match getpwnam username with
  | None => ret 1
  | Some pwd =>
      (* check any authorized keys *)
      path <- asprintf (pw_dir pwd ++ "/.ssh/authorized_keys") ;;
      match path with
      | None => ret 1
      | Some path =>
          let '(r, pub_key) := ssh_pki_import_pubkey_file path in
          if negb (r =? SSH_OK) then ret 1
          else
            pub_key <- deref pub_key ;;
            if ssh_key_cmp_public key pub_key =? 0 then ret 0 else ret 1
      end
  end.

(* ------------------------------------------------------------------ *)
(** ** Authorized-key enumerator *)

(** A [char *] into a line is the C string that starts there, that is a
    suffix of the line; NULL is [None].  Lines hold no NUL byte. *)

(** [strchr(s, c)]. *)
Fixpoint strchr (s : string) (c : ascii) : option string :=
  match s with
  | EmptyString => None
  | String a tl => if Ascii.eqb a c then Some s else strchr tl c
  end.

(** [strchr(ptr, c)] where [ptr] may be NULL. *)
Definition strchr_ptr (ptr : option string) (c : ascii) : M (option string) :=
  s <- deref ptr ;; ret (strchr s c).

(** [++ptr]. *)
Definition incr (ptr : string) : string :=
  match ptr with
  | EmptyString => EmptyString
  | String _ tl => tl
  end.

(** [p - q] for [p] at or after [q] in the same string. *)
Definition ptrdiff (p q : string) : nat := (String.length q - String.length p)%nat.

(** [strndup(s, n)] before the allocation. *)
Definition strn (s : string) (n : nat) : string := substring 0 n s.

Definition space : ascii := " "%char.
Definition newline : ascii := "010"%char.
Definition hash : ascii := "#"%char.

(** The lines [getline] delivers for a file content, each with its newline
    when it has one. *)
Fixpoint file_lines (content : string) : list string :=
  match content with
  | EmptyString => []
  | String a tl =>
      if Ascii.eqb a newline then String a EmptyString :: file_lines tl
      else match file_lines tl with
           | [] => [String a EmptyString]
           | l :: ls => String a l :: ls
           end
  end.

(** The search for the algorithm token:
<<
    while (strncmp(ptr, "ssh-dss", 7) && strncmp(ptr, "ssh-rsa", 7) && strncmp(ptr, "ecdsa", 5)) {
        ptr = strchr(ptr, ' ');
        if (!ptr) { break; }
        ++ptr;
    }
>>
    [fuel] bounds the number of turns. *)
Fixpoint find_algorithm (fuel : nat) (ptr : string) : M (option string) :=
  match fuel with
  | O => crash OutOfFuel
  | S fuel =>
      if negb (prefix "ssh-dss" ptr) && negb (prefix "ssh-rsa" ptr) && negb (prefix "ecdsa" ptr)
      then
        match strchr ptr space with
        | None => ret None
        | Some ptr => find_algorithm fuel (incr ptr)
        end
      else ret (Some ptr)
  end.

(** The node a [lyd_new] or [lyd_new_leaf] call extends is the entry created
    last: [update_last f l] applies [f] to it. *)
Fixpoint update_last {A} (f : A -> A) (l : list A) : list A :=
  match l with
  | [] => []
  | [a] => [f a]
  | a :: rest => a :: update_last f rest
  end.

(** [lyd_new(users, NULL, "user")]. *)
Definition lyd_new_user : M bool :=
  ok <- alloc ;;
  if ok : bool then
    (fun w => Done true (set_users w (w_users w ++ [{| u_name := None; u_keys := [] |}])))
  else ret false.

(** [lyd_new_leaf(user, NULL, "name", value)]. *)
Definition lyd_new_leaf_user (value : string) : M bool :=
  ok <- alloc ;;
  if ok : bool then
    (fun w => Done true (set_users w
       (update_last (fun u => {| u_name := Some value; u_keys := u_keys u |}) (w_users w))))
  else ret false.

(** [lyd_new(user, NULL, "authorized-key")]. *)
Definition lyd_new_authkey : M bool :=
  ok <- alloc ;;
  if ok : bool then
    (fun w => Done true (set_users w
       (update_last (fun u => {| u_name := u_name u;
                                 u_keys := u_keys u ++ [{| ak_name := None; ak_algorithm := None;
                                                           ak_key_data := None |}] |})
                    (w_users w))))
  else ret false.

(** The leaf [leaf] of an [authorized-key] entry set to [value]. *)
Definition set_leaf (leaf value : string) (k : authorized_key) : authorized_key :=
  if streq leaf "name" then
    {| ak_name := Some value; ak_algorithm := ak_algorithm k; ak_key_data := ak_key_data k |}
  else if streq leaf "algorithm" then
    {| ak_name := ak_name k; ak_algorithm := Some value; ak_key_data := ak_key_data k |}
  else if streq leaf "key-data" then
    {| ak_name := ak_name k; ak_algorithm := ak_algorithm k; ak_key_data := Some value |}
  else k.

(** [lyd_new_leaf(authkey, NULL, leaf, value)]. *)
Definition lyd_new_leaf_authkey (leaf value : string) : M bool :=
  ok <- alloc ;;
  if ok : bool then
    (fun w => Done true (set_users w
       (update_last (fun u => {| u_name := u_name u;
                                 u_keys := update_last (set_leaf leaf value) (u_keys u) |})
                    (w_users w))))
  else ret false.

(** [sprintf(name, "key%d", idx)] into [char name[size]]: the characters and
    the closing NUL must fit. *)
Definition sprintf_key (size : nat) (idx : Z) : M string :=
  let name := "key" ++ NilZero.string_of_int (Z.to_int idx) in
  if (String.length name + 1 <=? size)%nat then ret name else crash BufferOverflow.

(** [np2srv_user_add_auth_key]; the result is the return value and the value
    left in [*key_idx], a [uint8_t]. *)
Definition np2srv_user_add_auth_key (alg : string) (alg_len : nat) (key : string)
    (key_len : nat) (key_idx : Z) : M (Z * Z) :=
  authkey <- lyd_new_authkey ;;
  if negb authkey then ret (-1, key_idx)
  else
    (* name *)
    name <- sprintf_key 6 key_idx ;;
    let key_idx := (key_idx + 1) mod 256 in
    leaf <- lyd_new_leaf_authkey "name" name ;;
    if negb leaf then ret (-1, key_idx)
    else
      (* algorithm *)
      str <- strdup (strn alg alg_len) ;;
      match str with
      | None => ret (-1, key_idx)
      | Some str =>
          lyd_new_leaf_authkey "algorithm" str ;;
          (* key-data *)
          str <- strdup (strn key key_len) ;;
          match str with
          | None => ret (-1, key_idx)
          | Some str =>
              lyd_new_leaf_authkey "key-data" str ;;
              ret (0, key_idx)
          end
      end.

(** One turn of the [getline] loop of [np2srv_endpt_ssh_auth_users_oper_cb]:
    the code of [np2srv_user_add_auth_key], or 0 for a line that is skipped,
    and the value of [key_idx] afterwards. *)
Definition authorized_keys_line (line : string) (key_idx : Z) : M (Z * Z) :=
  match line with
  | EmptyString => ret (0, key_idx)
  | String c _ =>
      if Ascii.eqb c hash then ret (0, key_idx)
      else
        (* find algorithm *)
        ptr <- find_algorithm (S (String.length line)) line ;;
        match ptr with
        | None => (* unrecognized line *) ret (0, key_idx)
        | Some alg =>
            (* find data *)
            match strchr alg space with
            | None => (* unrecognized line *) ret (0, key_idx)
            | Some ptr =>
                let data := incr ptr in
                let ptr := strchr data space in
                ptr <- match ptr with
                       | Some ptr => ret ptr
                       | None =>
                           ptr <- strchr_ptr ptr newline ;;
                           match ptr with
                           | Some ptr => ret ptr
                           | None => ret EmptyString
                           end
                       end ;;
                (* create new authorized key *)
                sp <- deref (strchr alg space) ;;
                np2srv_user_add_auth_key alg (ptrdiff sp alg) data (ptrdiff ptr data) key_idx
            end
        end
  end.

(** The [getline] loop; [false] stands for [goto cleanup]. *)
Fixpoint authorized_keys_lines (lines : list string) (key_idx : Z) : M bool :=
  match lines with
  | [] => ret true
  | line :: rest =>
      r <- authorized_keys_line line key_idx ;;
      let '(rc, key_idx) := r in
      if nonzero rc then ret false else authorized_keys_lines rest key_idx
  end.

(** The [getpwent] loop. *)
Fixpoint users_loop (accounts : list passwd) : M sr_error_t :=
  match accounts with
  | [] => (* success *) ret SR_ERR_OK
  | pwd :: rest =>
      (* create user with name *)
      user <- lyd_new_user ;;
      if negb user then ret SR_ERR_INTERNAL
      else
        lyd_new_leaf_user (pw_name pwd) ;;
        (* check any authorized keys *)
        path <- asprintf (pw_dir pwd ++ "/.ssh/authorized_keys") ;;
        match path with
        | None => ret SR_ERR_INTERNAL
        | Some path =>
            match e_fopen E path with
            | inl errno =>
                if negb (errno =? ENOENT) then ret SR_ERR_INTERNAL
                else users_loop rest
            | inr f =>
                (* create authorized keys *)
                ok <- authorized_keys_lines (file_lines (f_content f)) 1 ;;
                if negb ok then ret SR_ERR_INTERNAL
                else if f_error f then ret SR_ERR_INTERNAL
                else users_loop rest
            end
        end
  end.

(** [np2srv_endpt_ssh_auth_users_oper_cb]. *)
Definition np2srv_endpt_ssh_auth_users_oper_cb : M sr_error_t :=
  users <- alloc ;;
  if negb users then ret SR_ERR_INTERNAL
  else users_loop (e_passwd E).

End Callbacks.

(* ------------------------------------------------------------------ *)
(** ** Reading a run *)

(** The Tree Context Resolver as a function: [depth] parent links up, then the
    value of the first child. *)
Fixpoint nth_parent (depth : nat) (node : lyd_node) : option lyd_node :=
  match depth with
  | O => Some node
  | S k => match parent node with
           | Some p => nth_parent k p
           | None => None
           end
  end.

Definition resolve_key (depth : nat) (node : lyd_node) : option string :=
  match nth_parent depth node with
  | Some p => match child p with
              | Some k => Some (value_str k)
              | None => None
              end
  | None => None
  end.

(** The calls a piece of code adds to the trace of [w]. *)
Definition new_calls {A} (m : M A) (w : world) : list (nc_call * Z) :=
  skipn (List.length (w_calls w)) (w_calls (world_of (m w))).

(** Every call of a trace returned 0. *)
Definition all_succeeded (calls : list (nc_call * Z)) : Prop :=
  Forall (fun c => snd c = 0) calls.

(** The idle timeout the live server holds after a trace when it held
    [before]: [nc_server_set_idle_timeout] stores its argument. *)
Definition live_idle_timeout (before : Z) (calls : list (nc_call * Z)) : Z :=
  fold_left (fun v c => match fst c with
                        | nc_server_set_idle_timeout t => t
                        | _ => v
                        end) calls before.

(** Trees of the shape the schema gives.  [entry key above] is a list entry
    whose first child is its key leaf; [wrap n top] puts [n] containers above
    a node whose parent is [top]; [leaf_at n e name value num] is a node with
    [n - 1] containers between it and the list entry [e]. *)
Definition key_leaf (key : string) : lyd_node :=
  {| schema_name := "name"; value_str := key; value_uint := 0; value_ident := "";
     parent := None; child := None; next := None |}.

Definition entry (key : string) (above : option lyd_node) : lyd_node :=
  {| schema_name := "entry"; value_str := ""; value_uint := 0; value_ident := "";
     parent := above; child := Some (key_leaf key); next := None |}.

Fixpoint wrap (n : nat) (top : option lyd_node) : option lyd_node :=
  match n with
  | O => top
  | S k => Some {| schema_name := "container"; value_str := ""; value_uint := 0;
                   value_ident := ""; parent := wrap k top; child := None; next := None |}
  end.

Definition leaf_at (n : nat) (e : lyd_node) (name value : string) (num : Z) : lyd_node :=
  {| schema_name := name; value_str := value; value_uint := num; value_ident := "";
     parent := wrap (pred n) (Some e); child := None; next := None |}.

Definition change_of (op : sr_change_oper_t) (node : lyd_node) : sr_change :=
  {| ch_op := op; ch_node := node; ch_prev_val := ""; ch_prev_list := ""; ch_prev_dflt := false |}.

(** Collaborators that never fail and have nothing to report. *)
Definition quiet : environment :=
  {| e_changes := fun _ => {| cs_open := SR_ERR_OK; cs_changes := []; cs_end := SR_ERR_NOT_FOUND |};
     e_nc := fun _ _ => 0;
     e_alloc := fun _ => true;
     e_datetime2time := fun _ => 0;
     e_session_start := SR_ERR_OK;
     e_subtree := fun _ => (SR_ERR_OK, None);
     e_passwd := [];
     e_fopen := fun _ => inl ENOENT;
     e_pubkeys := fun _ => None |}.

(** [quiet] with the given changes under every xpath. *)
Definition with_changes (changes : list sr_change) (E : environment) : environment :=
  {| e_changes := fun _ => {| cs_open := SR_ERR_OK; cs_changes := changes;
                              cs_end := SR_ERR_NOT_FOUND |};
     e_nc := e_nc E; e_alloc := e_alloc E; e_datetime2time := e_datetime2time E;
     e_session_start := e_session_start E; e_subtree := e_subtree E;
     e_passwd := e_passwd E; e_fopen := e_fopen E; e_pubkeys := e_pubkeys E |}.

(** An iterator handle for the examples. *)
Definition iter0 : sr_change_iter_t :=
  {| it_id := O; it_changes := []; it_end := SR_ERR_NOT_FOUND |}.

(** The mapping of algorithm identity names to key types, as the design
    gives it: names that begin with [rsa] are RSA keys, names that begin with
    [secp] are ECDSA keys, any other name is not recognised. *)
Definition key_type_of_identity (ident : string) : option NC_SSH_KEY_TYPE :=
  if prefix "rsa" ident then Some NC_SSH_KEY_RSA
  else if prefix "secp" ident then Some NC_SSH_KEY_ECDSA
  else None.

(** The [algorithm] and [private-key] children of a fetched host-key node. *)
Definition hostkey_leaves (d : lyd_node) : option lyd_node * option lyd_node :=
  match child d with
  | Some first => hostkey_find_nodes first None None
  | None => (None, None)
  end.

(** A host-key subtree as sysrepo returns it: the [local-definition] node
    below its [public-key] container, with the two leaves. *)
Definition hostkey_subtree (ident key : string) : lyd_node :=
  {| schema_name := "local-definition"; value_str := ""; value_uint := 0; value_ident := "";
     parent := Some {| schema_name := "public-key"; value_str := ""; value_uint := 0;
                       value_ident := ""; parent := None; child := None; next := None |};
     child := Some {| schema_name := "algorithm"; value_str := "ct:" ++ ident; value_uint := 0;
                      value_ident := ident; parent := None; child := None;
                      next := Some {| schema_name := "private-key"; value_str := key;
                                      value_uint := 0; value_ident := ""; parent := None;
                                      child := None; next := None |} |};
     next := None |}.

(** [quiet] with the given answer of [sr_get_subtree]. *)
Definition with_subtree (r : sr_error_t) (d : option lyd_node) (E : environment) : environment :=
  {| e_changes := e_changes E; e_nc := e_nc E; e_alloc := e_alloc E;
     e_datetime2time := e_datetime2time E; e_session_start := e_session_start E;
     e_subtree := fun _ => (r, d);
     e_passwd := e_passwd E; e_fopen := e_fopen E; e_pubkeys := e_pubkeys E |}.

(** [E] with the changes [cs] under the xpath [xpath]. *)
Definition with_changes_at (xpath : string) (cs : sr_changes) (E : environment) : environment :=
  {| e_changes := fun x => if streq x xpath then cs else e_changes E x;
     e_nc := e_nc E; e_alloc := e_alloc E; e_datetime2time := e_datetime2time E;
     e_session_start := e_session_start E; e_subtree := e_subtree E;
     e_passwd := e_passwd E; e_fopen := e_fopen E; e_pubkeys := e_pubkeys E |}.

(** [E] where the allocation number [n] fails. *)
Definition failing_alloc (n : nat) (E : environment) : environment :=
  {| e_changes := e_changes E; e_nc := e_nc E;
     e_alloc := fun k => if Nat.eqb k n then false else e_alloc E k;
     e_datetime2time := e_datetime2time E;
     e_session_start := e_session_start E; e_subtree := e_subtree E;
     e_passwd := e_passwd E; e_fopen := e_fopen E; e_pubkeys := e_pubkeys E |}.

(** The TCP parameters of the endpoint [ep1] get keepalives. *)
Definition keepalives_created : sr_change :=
  change_of SR_OP_CREATED (leaf_at 3 (entry "ep1" None) "keepalives" "" 0).

Definition tcp_params_xpath : string :=
  "/ietf-netconf-server:netconf-server/listen/endpoint/ssh/tcp-server-parameters".

(** The path of an account's key file. *)
Definition authorized_keys_path (pwd : passwd) : string :=
  pw_dir pwd ++ "/.ssh/authorized_keys".

(** An account, two keys, and collaborators where the account's key file
    holds the two keys in this order. *)
Definition alice : passwd := {| pw_name := "alice"; pw_dir := "/home/alice" |}.

Definition key_a : ssh_key :=
  {| key_type := "ssh-rsa"; key_public := "AAAAB3NzaC1yc2EA"; key_private := None |}.

Definition key_b : ssh_key :=
  {| key_type := "ssh-rsa"; key_public := "AAAAB3NzaC1yc2EB"; key_private := None |}.

Definition alice_two_keys : environment :=
  {| e_changes := e_changes quiet; e_nc := e_nc quiet; e_alloc := e_alloc quiet;
     e_datetime2time := e_datetime2time quiet; e_session_start := e_session_start quiet;
     e_subtree := e_subtree quiet;
     e_passwd := [alice];
     e_fopen := e_fopen quiet;
     e_pubkeys := fun path => if streq path "/home/alice/.ssh/authorized_keys"
                              then Some [key_a; key_b] else None |}.

(** The name [sprintf] formats for the counter value [idx], and whether it
    fits, with its closing NUL, in a buffer of [size] bytes. *)
Definition key_name (idx : Z) : string := "key" ++ NilZero.string_of_int (Z.to_int idx).

Definition name_fits (size : nat) (idx : Z) : bool :=
  (String.length (key_name idx) + 1 <=? size)%nat.

(** The [user] list with the key [k] added to its last entry. *)
Definition add_key (k : authorized_key) (users : list user_entry) : list user_entry :=
  update_last (fun u => {| u_name := u_name u; u_keys := u_keys u ++ [k] |}) users.

Definition full_key (name alg data : string) : authorized_key :=
  {| ak_name := Some name; ak_algorithm := Some alg; ak_key_data := Some data |}.

(** The state after [n] more allocations, with the [user] list [users]. *)
Definition after (n : nat) (users : list user_entry) (w : world) : world :=
  set_users (set_allocs w (n + w_allocs w)) users.

(** No allocation fails. *)
Definition never_fails (E : environment) : Prop := forall n, e_alloc E n = true.

(** Lines that hold no key: the empty line, a comment, and a line of spaces
    with or without its newline. *)
Definition is_blank_char (c : ascii) : bool := Ascii.eqb c space || Ascii.eqb c newline.

Fixpoint blank (s : string) : bool :=
  match s with
  | EmptyString => true
  | String c tl => is_blank_char c && blank tl
  end.

Definition comment_or_blank (line : string) : bool :=
  match line with
  | EmptyString => true
  | String c _ => Ascii.eqb c hash || blank line
  end.

(** The key file of the example: a comment, an empty line and one RSA key
    with a comment field. *)
Definition example_key_file : string :=
  "# comment" ++ String newline (String newline
  ("ssh-rsa AAAAB3Nz... user@host" ++ String newline EmptyString)).

(** [quiet] with the accounts [accounts] and the answer [r] of every [fopen]. *)
Definition with_accounts (accounts : list passwd) (r : Z + FILE) (E : environment)
    : environment :=
  {| e_changes := e_changes E; e_nc := e_nc E; e_alloc := e_alloc E;
     e_datetime2time := e_datetime2time E; e_session_start := e_session_start E;
     e_subtree := e_subtree E;
     e_passwd := accounts; e_fopen := fun _ => r; e_pubkeys := e_pubkeys E |}.

(** The key line of the example, and what follows its algorithm token. *)
Definition example_key_line : string :=
  "ssh-rsa AAAAB3Nz... user@host" ++ String newline EmptyString.

Definition example_key_data : string :=
  "AAAAB3Nz... user@host" ++ String newline EmptyString.

(** The [user] entry of the account [pwd] with the keys [keys]. *)
Definition user_of (pwd : passwd) (keys : list authorized_key) : user_entry :=
  {| u_name := Some (pw_name pwd); u_keys := keys |}.

(** What one turn of the [getline] loop does with a line, read off the code:
    the line is skipped, or it is a key line and [np2srv_user_add_auth_key] is
    called with these arguments, or the turn stops at a fault. *)
Inductive line_class :=
| LineSkip
| LineKey (alg : string) (alg_len : nat) (data : string) (key_len : nat)
| LineFault (f : fault).

Definition classify (line : string) : line_class :=
  match line with
  | EmptyString => LineSkip
  | String c _ =>
      if Ascii.eqb c hash then LineSkip
      else
        match find_algorithm (S (String.length line)) line world0 with
        | Crash f _ => LineFault f
        | Done None _ => LineSkip
        | Done (Some alg) _ =>
            match strchr alg space with
            | None => LineSkip
            | Some sp =>
                let data := incr sp in
                match strchr data space with
                | Some ptr => LineKey alg (ptrdiff sp alg) data (ptrdiff ptr data)
                | None => LineFault NullDeref
                end
            end
        end
  end.

Definition is_key (c : line_class) : bool :=
  match c with LineKey _ _ _ _ => true | _ => false end.

Definition is_fault (c : line_class) : bool :=
  match c with LineFault _ => true | _ => false end.

(** The number of recognized keys of a key file, and whether none of its
    lines stops at a fault of its own. *)
Definition recognized_keys (lines : list string) : nat :=
  List.length (filter is_key (map classify lines)).

Definition no_line_fault (lines : list string) : bool :=
  forallb (fun l => negb (is_fault (classify l))) lines.

(** The names of [n] keys in a row, the first formatted from the counter
    value [idx]; the keys of an account start at 1. *)
Fixpoint key_names_from (idx : Z) (n : nat) : list (option string) :=
  match n with
  | O => []
  | S k => Some (key_name idx) :: key_names_from (idx + 1) k
  end.

Definition key_names (n : nat) : list (option string) := key_names_from 1 n.

(** The last [user] entry with the keys [ks] added. *)
Definition with_keys (u : user_entry) (ks : list authorized_key) : user_entry :=
  {| u_name := u_name u; u_keys := u_keys u ++ ks |}.

(** A key file of [n] key lines. *)
Definition key_lines (n : nat) : list string := repeat example_key_line n.

(** Alice's entry before her key file is read. *)
Definition alice_entry : world := set_users world0 [user_of alice []].

(** *** Mutations in event order

    [call_of] gives the live-state mutation a callback makes for a change, if
    it makes one; [calls_of] lists the mutations of a run of changes in event
    order. *)
Definition calls_of (call_of : sr_change -> option nc_call) (changes : list sr_change)
    : list nc_call :=
  flat_map (fun c => match call_of c with
                     | Some call => [call]
                     | None => []
                     end) changes.

(** The outcome [r] of a callback started in [w] on the changes [changes] of
    an iterator that ends with [fin]: the callback returns; the calls it made
    are the mutations of the first [n] changes, in event order, and nothing
    of a later change; all of them succeeded but possibly the last; either
    the last one, the mutation of the [n]-th change, failed and the callback
    returns [SR_ERR_INTERNAL], or all changes were handled and the callback
    returns [SR_ERR_OK] for an exhausted iterator and the iterator's error
    otherwise; so it returns [SR_ERR_OK] exactly when the iterator was
    exhausted and every call succeeded. *)
Definition applied_in_order (call_of : sr_change -> option nc_call)
    (changes : list sr_change) (fin : sr_error_t) (w : world) (r : res sr_error_t) : Prop :=
  exists rc w' n log,
    r = Done rc w' /\
    w_calls w' = (w_calls w ++ log)%list /\
    (n <= List.length changes)%nat /\
    map fst log = calls_of call_of (firstn n changes) /\
    ((rc = SR_ERR_INTERNAL /\
      exists c call rc' log',
        (1 <= n)%nat /\ nth_error changes (pred n) = Some c /\ call_of c = Some call /\
        log = (log' ++ [(call, rc')])%list /\ rc' <> 0 /\ all_succeeded log') \/
     (n = List.length changes /\ all_succeeded log /\
      rc = if sr_error_eq_dec fin SR_ERR_NOT_FOUND then SR_ERR_OK else fin)) /\
    (rc = SR_ERR_OK <-> fin = SR_ERR_NOT_FOUND /\ all_succeeded log).

(** The mutation of the host-key callback of a listening endpoint. *)
Definition hostkey_call (c : sr_change) : option nc_call :=
  match resolve_key 4 (ch_node c), resolve_key 0 (ch_node c) with
  | Some endpt, Some key =>
      match ch_op c with
      | SR_OP_CREATED => Some (nc_server_ssh_endpt_add_hostkey endpt key (-1))
      | SR_OP_DELETED => Some (nc_server_ssh_endpt_del_hostkey endpt key (-1))
      | SR_OP_MOVED => Some (nc_server_ssh_endpt_mov_hostkey endpt key (ch_prev_val c))
      | SR_OP_MODIFIED => None
      end
  | _, _ => None
  end.

(** The mutation of the host-key callback of a call-home endpoint. *)
Definition ch_hostkey_call (c : sr_change) : option nc_call :=
  match resolve_key 4 (ch_node c), resolve_key 6 (ch_node c), resolve_key 0 (ch_node c) with
  | Some endpt, Some client, Some key =>
      match ch_op c with
      | SR_OP_CREATED => Some (nc_server_ssh_ch_client_endpt_add_hostkey client endpt key (-1))
      | SR_OP_DELETED => Some (nc_server_ssh_ch_client_endpt_del_hostkey client endpt key (-1))
      | SR_OP_MOVED =>
          Some (nc_server_ssh_ch_client_endpt_mov_hostkey client endpt key (ch_prev_val c))
      | SR_OP_MODIFIED => None
      end
  | _, _, _ => None
  end.

(** The mutation of the idle-timeout callback. *)
Definition idle_timeout_call (c : sr_change) : option nc_call :=
  match ch_op c with
  | SR_OP_CREATED | SR_OP_MODIFIED => Some (nc_server_set_idle_timeout (value_uint (ch_node c)))
  | _ => None
  end.

(** The mutation of the callback for the authentication timeout and attempts
    of a listening endpoint. *)
Definition auth_params_call (c : sr_change) : option nc_call :=
  match resolve_key 4 (ch_node c) with
  | Some endpt =>
      if streq (schema_name (ch_node c)) "max-wait" then
        Some (nc_server_ssh_endpt_set_auth_timeout endpt
                match ch_op c with SR_OP_DELETED => 30 | _ => value_uint (ch_node c) end)
      else if streq (schema_name (ch_node c)) "max-attempts" then
        Some (nc_server_ssh_endpt_set_auth_attempts endpt
                match ch_op c with SR_OP_DELETED => 3 | _ => value_uint (ch_node c) end)
      else None
  | None => None
  end.

(** The ancestors the callbacks walk to are there. *)
Definition resolves (depth : nat) (c : sr_change) : bool :=
  match resolve_key depth (ch_node c) with Some _ => true | None => false end.

(** What the scanner needs from a loop body: on a change without mutation it
    does nothing and goes on; on a change with the mutation [call] it makes
    that call and nothing else, goes on when the call returned 0 and returns
    [SR_ERR_INTERNAL] otherwise. *)
Definition fail_stop (body : sr_change -> M flow) (call_of : sr_change -> option nc_call)
    (changes : list sr_change) : Prop :=
  forall c w, In c changes ->
    match call_of c with
    | None => body c w = Done Next w
    | Some call =>
        exists rc w1,
          w_calls w1 = (w_calls w ++ [(call, rc)])%list /\
          ((rc = 0 /\ body c w = Done Next w1) \/
           (rc <> 0 /\ body c w = Done (Return SR_ERR_INTERNAL) w1))
    end.

(** Three host keys are created for the endpoint [ep1], in this order; the
    live server refuses [k2]. *)
Definition hostkey_created (key : string) : sr_change :=
  change_of SR_OP_CREATED
    {| schema_name := "host-key"; value_str := ""; value_uint := 0; value_ident := "";
       parent := wrap 3 (Some (entry "ep1" None));
       child := Some (key_leaf key); next := None |}.

Definition three_hostkeys : list sr_change :=
  [hostkey_created "k1"; hostkey_created "k2"; hostkey_created "k3"].

Definition refuses_k2 (E : environment) : environment :=
  {| e_changes := e_changes E;
     e_nc := fun _ call =>
               match call with
               | nc_server_ssh_endpt_add_hostkey _ key _ => if streq key "k2" then -1 else 0
               | _ => 0
               end;
     e_alloc := e_alloc E; e_datetime2time := e_datetime2time E;
     e_session_start := e_session_start E; e_subtree := e_subtree E;
     e_passwd := e_passwd E; e_fopen := e_fopen E; e_pubkeys := e_pubkeys E |}.

Definition hostkey_xpath_listen : string :=
  "/ietf-netconf-server:netconf-server/listen/endpoint/ssh/ssh-server-parameters/"
  ++ "server-identity/host-key".

(** The call that sets the keepalive parameters of an endpoint of the
    listening side ([None]) or of a call-home client. *)
Definition set_keepalives_call (client_name : option string) (endpt : string)
    (idle_time max_probes probe_interval : Z) : nc_call :=
  match client_name with
  | None => nc_server_endpt_set_keepalives endpt idle_time max_probes probe_interval
  | Some client =>
      nc_server_ch_client_endpt_set_keepalives client endpt idle_time max_probes probe_interval
  end.

(** The idle timeout of the listening side is deleted; the leaf held 100. *)
Definition idle_timeout_deleted : sr_change :=
  change_of SR_OP_DELETED
    {| schema_name := "idle-timeout"; value_str := "100"; value_uint := 100;
       value_ident := ""; parent := None; child := None; next := None |}.

Definition idle_timeout_xpath : string :=
  "/ietf-netconf-server:netconf-server/listen/idle-timeout".

(** The authentication timeout of the endpoint [ep1] is deleted. *)
Definition max_wait_deleted : sr_change :=
  change_of SR_OP_DELETED (leaf_at 4 (entry "ep1" None) "max-wait" "45" 45).

(** The mutation of the callback for the authentication timeout and attempts
    of a call-home endpoint. *)
Definition ch_auth_params_call (c : sr_change) : option nc_call :=
  match resolve_key 4 (ch_node c), resolve_key 6 (ch_node c) with
  | Some endpt, Some client =>
      if streq (schema_name (ch_node c)) "max-wait" then
        Some (nc_server_ssh_ch_client_endpt_set_auth_timeout client endpt
                match ch_op c with SR_OP_DELETED => 30 | _ => value_uint (ch_node c) end)
      else if streq (schema_name (ch_node c)) "max-attempts" then
        Some (nc_server_ssh_ch_client_endpt_set_auth_attempts client endpt
                match ch_op c with SR_OP_DELETED => 3 | _ => value_uint (ch_node c) end)
      else None
  | _, _ => None
  end.

(** The mutation of the scan of the parameters of a periodic connection. *)
Definition periodic_call (E : environment) (client : string) (c : sr_change) : option nc_call :=
  if streq (schema_name (ch_node c)) "period" then
    Some (nc_server_ch_client_periodic_set_period client
            match ch_op c with SR_OP_DELETED => 60 | _ => value_uint (ch_node c) end)
  else if streq (schema_name (ch_node c)) "anchor-time" then
    Some (nc_server_ch_client_periodic_set_anchor_time client
            match ch_op c with
            | SR_OP_DELETED => 0
            | _ => e_datetime2time E (value_str (ch_node c))
            end)
  else if streq (schema_name (ch_node c)) "idle-timeout" then
    Some (nc_server_ch_client_periodic_set_idle_timeout client
            match ch_op c with SR_OP_DELETED => 120 | _ => value_uint (ch_node c) end)
  else None.

(** The mutation of the callback for the reconnect strategy. *)
Definition reconnect_call (c : sr_change) : option nc_call :=
  match resolve_key 2 (ch_node c) with
  | Some client =>
      if streq (schema_name (ch_node c)) "start-with" then
        match ch_op c with
        | SR_OP_DELETED => Some (nc_server_ch_client_set_start_with client NC_CH_FIRST_LISTED)
        | _ =>
            if streq (value_str (ch_node c)) "first-listed" then
              Some (nc_server_ch_client_set_start_with client NC_CH_FIRST_LISTED)
            else if streq (value_str (ch_node c)) "last-connected" then
              Some (nc_server_ch_client_set_start_with client NC_CH_LAST_CONNECTED)
            else if streq (value_str (ch_node c)) "random-selection" then
              Some (nc_server_ch_client_set_start_with client NC_CH_RANDOM)
            else None
        end
      else if streq (schema_name (ch_node c)) "max-attempts" then
        Some (nc_server_ch_client_set_max_attempts client
                match ch_op c with SR_OP_DELETED => 3 | _ => value_uint (ch_node c) end)
      else None
  | None => None
  end.

(** The [ssh] node of the endpoint [name] of the listening side is created. *)
Definition endpt_ssh_created (name : string) : sr_change :=
  change_of SR_OP_CREATED (leaf_at 1 (entry name None) "ssh" "" 0).

Definition endpt_ssh_xpath : string :=
  "/ietf-netconf-server:netconf-server/listen/endpoint/ssh".

(** *** Callbacks that make several calls for a change

    For these the calls of one change form a turn.  [decisive] tells which
    calls are mutations whose code the callback reads.  A turn is fine when
    every decisive call of it returned 0, and failed when one did not. *)
Definition turn_ok (decisive : nc_call -> bool) (elog : list (nc_call * Z)) : Prop :=
  Forall (fun e => decisive (fst e) = true -> snd e = 0) elog.

Definition turn_failed (decisive : nc_call -> bool) (elog : list (nc_call * Z)) : Prop :=
  Exists (fun e => decisive (fst e) = true /\ snd e <> 0) elog.

(** What the scanner needs from such a loop body: it returns; it goes on only
    after a fine turn; after a failed turn it returns [SR_ERR_INTERNAL]; and
    when it returns after a fine turn, for want of memory or because a nested
    scan could not read its changes, the code is not [SR_ERR_OK]. *)
Definition turn_outcome (decisive : nc_call -> bool) (f : flow) (elog : list (nc_call * Z))
    : Prop :=
  (f = Next /\ turn_ok decisive elog) \/
  (f = Return SR_ERR_INTERNAL /\ turn_failed decisive elog) \/
  (exists rc, f = Return rc /\ rc <> SR_ERR_OK /\ turn_ok decisive elog).

Definition fail_stop_turn (body : sr_change -> M flow) (decisive : nc_call -> bool)
    (changes : list sr_change) : Prop :=
  forall c w, In c changes ->
    exists f w1 elog,
      body c w = Done f w1 /\
      w_calls w1 = (w_calls w ++ elog)%list /\
      turn_outcome decisive f elog.

(** [elogs] are the turns of the first changes in event order: the calls the
    body makes on the first change, then those it makes on the second, and so
    on, one turn for a change and nothing of a later change. *)
Definition turns_of (body : sr_change_iter_t -> sr_change -> M flow)
    (changes : list sr_change) (elogs : list (list (nc_call * Z))) : Prop :=
  Forall2 (fun c elog => exists iter w0, new_calls (body iter c) w0 = elog)
    (firstn (List.length elogs) changes) elogs.

(** The outcome [r] of such a callback: it returns; the calls it made are
    those of the turns [elogs], one turn for each of the first changes in
    event order, and nothing of a later change; every turn but the last was
    fine; [ended] tells whether the loop ran until the iterator ended.  If it
    did not, the last turn made the callback return, with [SR_ERR_INTERNAL]
    when the turn failed, and never with [SR_ERR_OK]; if it did, every change
    had its turn, all fine, and the code is [SR_ERR_OK] for an exhausted
    iterator and the iterator's error otherwise.  So the callback returns
    [SR_ERR_OK] exactly when the iterator ended, exhausted, and every decisive
    call returned 0. *)
Definition scanned_in_order (body : sr_change_iter_t -> sr_change -> M flow)
    (decisive : nc_call -> bool) (changes : list sr_change)
    (fin : sr_error_t) (w : world) (r : res sr_error_t) : Prop :=
  exists rc w' elogs ended,
    r = Done rc w' /\
    w_calls w' = (w_calls w ++ List.concat elogs)%list /\
    (List.length elogs <= List.length changes)%nat /\
    turns_of body changes elogs /\
    Forall (turn_ok decisive) (removelast elogs) /\
    ((ended = false /\ elogs <> [] /\ rc <> SR_ERR_OK /\
      ((turn_failed decisive (last elogs []) /\ rc = SR_ERR_INTERNAL) \/
       turn_ok decisive (last elogs []))) \/
     (ended = true /\ List.length elogs = List.length changes /\
      Forall (turn_ok decisive) elogs /\
      rc = if sr_error_eq_dec fin SR_ERR_NOT_FOUND then SR_ERR_OK else fin)) /\
    (rc = SR_ERR_OK <->
     ended = true /\ fin = SR_ERR_NOT_FOUND /\ Forall (turn_ok decisive) elogs).

(** Every call is a mutation whose code is read. *)
Definition all_decisive (call : nc_call) : bool := true.

(** In the callbacks that create and delete endpoints the code of the call
    that sets the authentication methods is not read. *)
Definition lifecycle_decisive (call : nc_call) : bool :=
  match call with
  | nc_server_ssh_endpt_set_auth_methods _ _ => false
  | nc_server_ssh_ch_client_endpt_set_auth_methods _ _ _ => false
  | _ => true
  end.

(** In the callbacks for the authentication methods the call that reads the
    current methods is no mutation. *)
Definition auth_methods_decisive (call : nc_call) : bool :=
  match call with
  | nc_server_ssh_endpt_get_auth_methods _ => false
  | nc_server_ssh_ch_client_endpt_get_auth_methods _ _ => false
  | _ => true
  end.

(** A Modified change of the connection type is one of [periodic], as the
    assertion of the callback demands. *)
Definition modified_is_periodic (c : sr_change) : bool :=
  match ch_op c with
  | SR_OP_MODIFIED => streq (schema_name (ch_node c)) "periodic"
  | _ => true
  end.

(** sysrepo never ends an iterator with [SR_ERR_OK]. *)
Definition iterators_end (E : environment) : Prop :=
  forall xpath, cs_end (e_changes E xpath) <> SR_ERR_OK.

(** The live server adds every endpoint and refuses to turn the
    authentication methods of an endpoint off. *)
Definition refuses_deny_all (E : environment) : environment :=
  {| e_changes := e_changes E;
     e_nc := fun _ call =>
               match call with
               | nc_server_ssh_endpt_set_auth_methods _ _ => -1
               | _ => 0
               end;
     e_alloc := e_alloc E; e_datetime2time := e_datetime2time E;
     e_session_start := e_session_start E; e_subtree := e_subtree E;
     e_passwd := e_passwd E; e_fopen := e_fopen E; e_pubkeys := e_pubkeys E |}.

(** *** The iterator of a scan

    What the scanner needs from a loop body to give its iterator back: the
    body returns; when it goes on the open iterators are as they were; when it
    makes the callback return it has freed [iter]. *)
Definition tidy_body (iter : sr_change_iter_t) (body : sr_change -> M flow)
    (changes : list sr_change) : Prop :=
  forall c w, In c changes ->
    exists f w1,
      body c w = Done f w1 /\
      w_iters w1 = match f with
                   | Next => w_iters w
                   | Return _ => remove Nat.eq_dec (it_id iter) (w_iters w)
                   end.

(** A run from [w] returns and leaves open the iterators that were open
    before it, no other. *)
Definition gives_back {A} (m : M A) (w : world) : Prop :=
  exists a w', m w = Done a w' /\ w_iters w' = w_iters w.

(** *** The idle timeout after a scan

    The changes of the idle timeout that carry a value, and the value of the
    last of them in a change set, if there is one. *)
Definition carries_idle_timeout (c : sr_change) : bool :=
  match ch_op c with
  | SR_OP_CREATED | SR_OP_MODIFIED => true
  | _ => false
  end.

Definition last_idle_timeout (changes : list sr_change) : option Z :=
  match find carries_idle_timeout (rev changes) with
  | Some c => Some (value_uint (ch_node c))
  | None => None
  end.

(** Collaborators that hold an ECDSA host key, and what the resolver hands
    back for it. *)
Definition ecdsa_hostkey : environment :=
  with_subtree SR_ERR_OK (Some (hostkey_subtree "secp256r1" "MHcC")) quiet.

Definition ecdsa_result : hostkey_result :=
  {| hk_rc := 0; hk_privkey_data := Some "MHcC"; hk_privkey_type := Some NC_SSH_KEY_ECDSA |}.

(** *** The user list as a function of the accounts

    The keys the lines of a key file give, the first named from the counter
    value [idx]: a key line gives the key with the next name, the characters
    of the algorithm token and those of the data token; any other line gives
    nothing. *)
Fixpoint keys_of_lines (lines : list string) (idx : Z) : list authorized_key :=
  match lines with
  | [] => []
  | l :: rest =>
      match classify l with
      | LineKey alg alg_len data key_len =>
          full_key (key_name idx) (strn alg alg_len) (strn data key_len)
          :: keys_of_lines rest (idx + 1)
      | _ => keys_of_lines rest idx
      end
  end.

(** The keys of an account: those of its key file, none without a file. *)
Definition keys_of_account (E : environment) (pwd : passwd) : list authorized_key :=
  match e_fopen E (authorized_keys_path pwd) with
  | inr f => keys_of_lines (file_lines (f_content f)) 1
  | inl _ => []
  end.

(** An account the enumerator reads to its end: it has no key file, or a key
    file that is read without error, where no line stops at a fault of its
    own and at most 99 keys are recognized. *)
Definition readable_account (E : environment) (pwd : passwd) : bool :=
  match e_fopen E (authorized_keys_path pwd) with
  | inl errno => errno =? ENOENT
  | inr f =>
      negb (f_error f) && no_line_fault (file_lines (f_content f))
      && (recognized_keys (file_lines (f_content f)) <=? 99)%nat
  end.

(** Two accounts: alice with the key file of the example, bob without one. *)
Definition bob : passwd := {| pw_name := "bob"; pw_dir := "/home/bob" |}.

Definition alice_and_bob : environment :=
  {| e_changes := e_changes quiet; e_nc := e_nc quiet; e_alloc := e_alloc quiet;
     e_datetime2time := e_datetime2time quiet; e_session_start := e_session_start quiet;
     e_subtree := e_subtree quiet;
     e_passwd := [alice; bob];
     e_fopen := fun path => if streq path "/home/alice/.ssh/authorized_keys"
                            then inr {| f_content := example_key_file; f_error := false |}
                            else inl ENOENT;
     e_pubkeys := e_pubkeys quiet |}.

(** *** Key lines

    A token that begins with one of the three key types the enumerator looks
    for, the option fields that may come before the key type, each followed
    by a space, and a line that begins with the comment sign. *)
Definition is_key_type (token : string) : bool :=
  prefix "ssh-dss" token || prefix "ssh-rsa" token || prefix "ecdsa" token.

Fixpoint options (fields : list string) : string :=
  match fields with
  | [] => EmptyString
  | f :: rest => f ++ String space (options rest)
  end.

Definition is_comment (line : string) : bool :=
  match line with
  | EmptyString => false
  | String c _ => Ascii.eqb c hash
  end.

(** A field of a key line: it holds no space. *)
Definition is_field (s : string) : bool :=
  match strchr s space with
  | None => true
  | Some _ => false
  end.

(** *** Changes of the connection type of the client [cl1] *)
Definition conn_type_change (op : sr_change_oper_t) (name : string) : sr_change :=
  change_of op (leaf_at 2 (entry "cl1" None) name "" 0).

Definition conn_type_xpath : string :=
  "/ietf-netconf-server:netconf-server/call-home/netconf-client/connection-type".

(** A change whose node hangs in no tree. *)
Definition orphan_change : sr_change :=
  change_of SR_OP_CREATED
    {| schema_name := "ssh"; value_str := ""; value_uint := 0; value_ident := "";
       parent := None; child := None; next := None |}.

(** *** Keepalive parameters

    The value a scan of keepalive changes leaves for the parameter [name]
    whose default is [dflt]: that of the last change of the parameter, the
    default when that change deletes it, and -1 when no change names it. *)
Definition keepalive_param (name : string) (dflt : Z) (changes : list sr_change) : Z :=
  match find (fun c => streq (schema_name (ch_node c)) name) (rev changes) with
  | None => -1
  | Some c => match ch_op c with
              | SR_OP_DELETED => dflt
              | _ => value_uint (ch_node c)
              end
  end.

(** The call that turns the keepalives of an endpoint on or off. *)
Definition enable_keepalives_call (client_name : option string) (endpt : string) (enable : Z)
    : nc_call :=
  match client_name with
  | None => nc_server_endpt_enable_keepalives endpt enable
  | Some client => nc_server_ch_client_endpt_enable_keepalives client endpt enable
  end.

(** Changes below the keepalives of the endpoint [ep1]: the idle time is set
    to 7 and then deleted, the probe interval is set to 9. *)
Definition keepalive_leaf (op : sr_change_oper_t) (name : string) (num : Z) : sr_change :=
  change_of op (leaf_at 4 (entry "ep1" None) name "" num).

Definition keepalive_changes : list sr_change :=
  [keepalive_leaf SR_OP_CREATED "idle-time" 7;
   keepalive_leaf SR_OP_MODIFIED "probe-interval" 9;
   keepalive_leaf SR_OP_DELETED "idle-time" 7].

(** What a turn [m] on a [keepalives] node does from [w]: when the call that
    turns the keepalives on or off fails, the turn makes the callback return
    [SR_ERR_INTERNAL] with that one call made, nothing allocated and no
    iterator opened; when it returns 0, the path of the nested scan is
    allocated and the nested iterator opens and ends exhausted, the turn
    makes that call and then the one call that sets the parameters, and it
    goes on exactly when the second call returned 0. *)
Definition enables_then_sets (E : environment) (client_name : option string)
    (endpt xpath : string) (flag : Z) (m : M flow) (w : world) : Prop :=
  (e_nc E (w_calls w) (enable_keepalives_call client_name endpt flag) <> 0 ->
   exists w',
     m w = Done (Return SR_ERR_INTERNAL) w' /\
     w_calls w' =
     (w_calls w ++ [(enable_keepalives_call client_name endpt flag,
                     e_nc E (w_calls w) (enable_keepalives_call client_name endpt flag))])%list /\
     w_allocs w' = w_allocs w /\ w_next_iter w' = w_next_iter w) /\
  (e_nc E (w_calls w) (enable_keepalives_call client_name endpt flag) = 0 ->
   e_alloc E (w_allocs w) = true ->
   cs_open (e_changes E (xpath ++ "/keepalives/*")) = SR_ERR_OK ->
   cs_end (e_changes E (xpath ++ "/keepalives/*")) = SR_ERR_NOT_FOUND ->
   exists rc w',
     m w = Done (if rc =? 0 then Next else Return SR_ERR_INTERNAL) w' /\
     w_calls w' =
     (w_calls w ++
      [(enable_keepalives_call client_name endpt flag, 0);
       (set_keepalives_call client_name endpt
          (keepalive_param "idle-time" 1 (cs_changes (e_changes E (xpath ++ "/keepalives/*"))))
          (keepalive_param "max-probes" 10 (cs_changes (e_changes E (xpath ++ "/keepalives/*"))))
          (keepalive_param "probe-interval" 5
             (cs_changes (e_changes E (xpath ++ "/keepalives/*")))), rc)])%list).

(** The keepalives of the endpoint [ep1] are deleted, and below them the
    changes [keepalive_changes]. *)
Definition keepalives_deleted_change : sr_change :=
  change_of SR_OP_DELETED (leaf_at 3 (entry "ep1" None) "keepalives" "" 0).

(** *** The authentication methods after a scan

    The mask of the listening endpoint [endpt] after a trace when it was
    [before]: a call of [nc_server_ssh_endpt_set_auth_methods] for the
    endpoint that returned 0 stores its argument. *)
Definition live_auth_methods (endpt : string) (before : Z) (calls : list (nc_call * Z)) : Z :=
  fold_left (fun v c => match fst c with
                        | nc_server_ssh_endpt_set_auth_methods e auth =>
                            if streq e endpt && (snd c =? 0) then auth else v
                        | _ => v
                        end) calls before.

(** The change is one of the endpoint [endpt], found 5 levels up. *)
Definition of_endpoint (endpt : string) (c : sr_change) : bool :=
  match resolve_key 5 (ch_node c) with
  | Some e => streq e endpt
  | None => false
  end.

(** The flag events of a change set. *)
Definition flag_events (changes : list sr_change) : list (lyd_node * sr_change_oper_t) :=
  map (fun c => (ch_node c, ch_op c)) changes.

(** A live server that stores the mask it is given and answers with the mask
    it holds, [init] at the start. *)
Definition storing_server (init : Z) (E : environment) : environment :=
  {| e_changes := e_changes E;
     e_nc := fun log call =>
               match call with
               | nc_server_ssh_endpt_get_auth_methods e => live_auth_methods e init log
               | _ => 0
               end;
     e_alloc := e_alloc E; e_datetime2time := e_datetime2time E;
     e_session_start := e_session_start E; e_subtree := e_subtree E;
     e_passwd := e_passwd E; e_fopen := e_fopen E; e_pubkeys := e_pubkeys E |}.

(** The methods [publickey], [password] and [interactive] are created for
    the endpoint [ep1]. *)
Definition method_created (name value : string) : sr_change :=
  change_of SR_OP_CREATED (leaf_at 5 (entry "ep1" None) name value 0).

Definition three_methods : list sr_change :=
  [method_created "publickey" ""; method_created "password" "";
   method_created "other" "interactive"].

Definition auth_methods_xpath : string :=
  "/ietf-netconf-server:netconf-server/listen/endpoint/ssh/ssh-server-parameters/"
  ++ "client-authentication/supported-authentication-methods".

(** *** A scan that cannot start

    The run from [w] returns [rc] and has made no call and opened no
    iterator. *)
Definition returns_untouched {A} (m : M A) (w : world) (rc : A) : Prop :=
  exists w', m w = Done rc w' /\ w_calls w' = w_calls w /\ w_iters w' = w_iters w /\
             w_next_iter w' = w_next_iter w.

(** [E] whose iterators cannot be obtained: [sr_get_changes_iter] answers
    [rc] for every xpath. *)
Definition closed_changes (rc : sr_error_t) (E : environment) : environment :=
  {| e_changes := fun _ => {| cs_open := rc; cs_changes := three_hostkeys;
                              cs_end := SR_ERR_NOT_FOUND |};
     e_nc := e_nc E; e_alloc := e_alloc E; e_datetime2time := e_datetime2time E;
     e_session_start := e_session_start E; e_subtree := e_subtree E;
     e_passwd := e_passwd E; e_fopen := e_fopen E; e_pubkeys := e_pubkeys E |}.

(** The same for the endpoint [endpt] of the call-home client [client],
    found 5 and 7 levels up. *)
Definition live_ch_auth_methods (client endpt : string) (before : Z)
    (calls : list (nc_call * Z)) : Z :=
  fold_left (fun v c => match fst c with
                        | nc_server_ssh_ch_client_endpt_set_auth_methods cl e auth =>
                            if streq cl client && streq e endpt && (snd c =? 0) then auth else v
                        | _ => v
                        end) calls before.

Definition of_ch_endpoint (client endpt : string) (c : sr_change) : bool :=
  match resolve_key 5 (ch_node c), resolve_key 7 (ch_node c) with
  | Some e, Some cl => streq e endpt && streq cl client
  | _, _ => false
  end.

Definition storing_ch_server (init : Z) (E : environment) : environment :=
  {| e_changes := e_changes E;
     e_nc := fun log call =>
               match call with
               | nc_server_ssh_ch_client_endpt_get_auth_methods cl e =>
                   live_ch_auth_methods cl e init log
               | _ => 0
               end;
     e_alloc := e_alloc E; e_datetime2time := e_datetime2time E;
     e_session_start := e_session_start E; e_subtree := e_subtree E;
     e_passwd := e_passwd E; e_fopen := e_fopen E; e_pubkeys := e_pubkeys E |}.

(** The method [publickey] is deleted and [interactive] created for the
    endpoint [ep1] of the client [cl1]. *)
Definition ch_method_change (op : sr_change_oper_t) (name value : string) : sr_change :=
  change_of op (leaf_at 5 (entry "ep1" (wrap 1 (Some (entry "cl1" None)))) name value 0).

Definition two_ch_methods : list sr_change :=
  [ch_method_change SR_OP_DELETED "publickey" "";
   ch_method_change SR_OP_CREATED "other" "interactive"].

(** Changes below the periodic connection of the client [cl1]: the period is
    set to 30 and the anchor time is deleted. *)
Definition periodic_leaf (op : sr_change_oper_t) (name : string) (num : Z) : sr_change :=
  change_of op (leaf_at 3 (entry "cl1" None) name "" num).

Definition periodic_changes : list sr_change :=
  [periodic_leaf SR_OP_CREATED "period" 30; periodic_leaf SR_OP_DELETED "anchor-time" 0].

(* ------------------------------------------------------------------ *)
(** ** Flag-set reconciler: results *)

(** The three bits are distinct single bits. *)
Lemma auth_bits_distinct :
  Z.land NC_SSH_AUTH_PUBLICKEY NC_SSH_AUTH_PASSWORD = 0 /\
  Z.land NC_SSH_AUTH_PUBLICKEY NC_SSH_AUTH_INTERACTIVE = 0 /\
  Z.land NC_SSH_AUTH_PASSWORD NC_SSH_AUTH_INTERACTIVE = 0.
Proof. repeat split; reflexivity. Qed.

(** A [publickey] leaf: Created sets bit 0, Deleted clears it, the other bits
    are kept. *)
Lemma update_auth_method_publickey (value : string) (cur : Z) (i : Z) :
  0 <= i ->
  Z.testbit (np2srv_ssh_update_auth_method (flag_leaf "publickey" value) SR_OP_CREATED cur) i
    = (Z.testbit cur i || (i =? 0)) /\
  Z.testbit (np2srv_ssh_update_auth_method (flag_leaf "publickey" value) SR_OP_DELETED cur) i
    = (Z.testbit cur i && negb (i =? 0)).
Proof.
  intros Hi. unfold np2srv_ssh_update_auth_method. simpl.
  unfold NC_SSH_AUTH_PUBLICKEY. change 1 with (2 ^ 0). split.
  - rewrite Z.lor_spec, Z.pow2_bits_eqb, (Z.eqb_sym i) by lia. reflexivity.
  - rewrite Z.land_spec, Z.lnot_spec, Z.pow2_bits_eqb, (Z.eqb_sym i) by lia. reflexivity.
Qed.

(** An [other] leaf whose value is [interactive]: Created sets bit 2, Deleted
    clears it. *)
Lemma update_auth_method_interactive (cur : Z) (i : Z) :
  0 <= i ->
  Z.testbit (np2srv_ssh_update_auth_method (flag_leaf "other" "interactive") SR_OP_CREATED cur) i
    = (Z.testbit cur i || (i =? 2)) /\
  Z.testbit (np2srv_ssh_update_auth_method (flag_leaf "other" "interactive") SR_OP_DELETED cur) i
    = (Z.testbit cur i && negb (i =? 2)).
Proof.
  intros Hi. unfold np2srv_ssh_update_auth_method. simpl.
  unfold NC_SSH_AUTH_INTERACTIVE. change 4 with (2 ^ 2). split.
  - rewrite Z.lor_spec, Z.pow2_bits_eqb, (Z.eqb_sym i) by lia. reflexivity.
  - rewrite Z.land_spec, Z.lnot_spec, Z.pow2_bits_eqb, (Z.eqb_sym i) by lia. reflexivity.
Qed.

(** A leaf the function does not act on leaves the mask as it is: [hostbased],
    [none], and [other] with a value that is not [interactive]. *)
Lemma update_auth_method_unsupported (op : sr_change_oper_t) (cur : Z) (value : string) :
  np2srv_ssh_update_auth_method (flag_leaf "hostbased" value) op cur = cur /\
  np2srv_ssh_update_auth_method (flag_leaf "none" value) op cur = cur /\
  (streq value "interactive" = false ->
   np2srv_ssh_update_auth_method (flag_leaf "other" value) op cur = cur).
Proof.
  repeat split; try reflexivity.
  intros Hv. unfold np2srv_ssh_update_auth_method. simpl. rewrite Hv. reflexivity.
Qed.


(* ------------------------------------------------------------------ *)
(** ** Running the monad *)

Local Open Scope list_scope.

(** Projections of an updated state. *)
Ltac wsimpl :=
  cbn [w_calls w_iters w_next_iter w_allocs w_sessions w_trees w_users
       set_calls set_iters set_allocs set_sessions set_trees set_users].

(** Comparison of literal names. *)
Ltac streq_eval := cbv [streq String.eqb Ascii.eqb Bool.eqb].

Lemma bind_run {A B} (m : M A) (k : A -> M B) (w : world) :
  bind m k w = match m w with
               | Done a w' => k a w'
               | Crash f w' => Crash f w'
               end.
Proof. reflexivity. Qed.

Lemma bind_done {A B} (m : M A) (k : A -> M B) (w w' : world) (a : A) :
  m w = Done a w' -> bind m k w = k a w'.
Proof. intros H. unfold bind. rewrite H. reflexivity. Qed.

Lemma bind_crash {A B} (m : M A) (k : A -> M B) (w w' : world) (f : fault) :
  m w = Crash f w' -> bind m k w = Crash f w'.
Proof. intros H. unfold bind. rewrite H. reflexivity. Qed.

(** The ancestor walk of a callback is the resolver [resolve_key]; a chain
    that is too short is a NULL dereference. *)
Lemma resolve_run (depth : nat) (node : lyd_node) (w : world) :
  (p <- ancestor depth node ;; key_of p) w =
  match resolve_key depth node with
  | Some key => Done key w
  | None => Crash NullDeref w
  end.
Proof.
  revert node. induction depth as [|k IH]; intros node.
  - unfold resolve_key. simpl. unfold bind, ret, key_of, bind. simpl.
    destruct (child node); reflexivity.
  - unfold resolve_key. simpl. specialize (IH).
    destruct (parent node) as [p|] eqn:Hp.
    + specialize (IH p). unfold resolve_key in IH. rewrite <- IH.
      unfold bind. simpl. reflexivity.
    + unfold bind. simpl. reflexivity.
Qed.

Lemma key_of_run (node : lyd_node) (w : world) :
  key_of node w = match resolve_key 0 node with
                  | Some key => Done key w
                  | None => Crash NullDeref w
                  end.
Proof. unfold key_of, resolve_key, bind. simpl. destruct (child node); reflexivity. Qed.

Lemma nc_run (E : environment) (c : nc_call) (w : world) :
  nc E c w = Done (e_nc E (w_calls w) c)
                  (set_calls w (w_calls w ++ [(c, e_nc E (w_calls w) c)])).
Proof. reflexivity. Qed.

Lemma skipn_app_length {A} (l l' : list A) : skipn (List.length l) (l ++ l') = l'.
Proof. induction l as [|a l IH]; simpl; [reflexivity | exact IH]. Qed.

Lemma new_calls_app {A} (m : M A) (w : world) (l : list (nc_call * Z)) :
  w_calls (world_of (m w)) = w_calls w ++ l -> new_calls m w = l.
Proof. intros H. unfold new_calls. rewrite H. apply skipn_app_length. Qed.

Lemma check_rc_calls (iter : sr_change_iter_t) (rc : Z) (w : world) :
  w_calls (world_of (check_rc iter rc w)) = w_calls w.
Proof. unfold check_rc. destruct (nonzero rc); reflexivity. Qed.

Lemma check_rc_run (iter : sr_change_iter_t) (rc : Z) (w : world) :
  check_rc iter rc w =
  if nonzero rc
  then Done (Return SR_ERR_INTERNAL)
            (set_iters w (remove Nat.eq_dec (it_id iter) (w_iters w)) (w_next_iter w))
  else Done Next w.
Proof. unfold check_rc. destruct (nonzero rc); reflexivity. Qed.

(* ------------------------------------------------------------------ *)
(** ** Lifecycle reconciler: results *)

Lemma endpt_ssh_change_calls (E : environment) (iter : sr_change_iter_t) (c : sr_change)
    (w : world) (name : string) :
  resolve_key 1 (ch_node c) = Some name ->
  map fst (new_calls (np2srv_endpt_ssh_change E iter c) w) =
  match ch_op c with
  | SR_OP_CREATED => [nc_server_add_endpt name NC_TI_LIBSSH;
                      nc_server_ssh_endpt_set_auth_methods name 0]
  | SR_OP_DELETED => [nc_server_del_endpt name NC_TI_LIBSSH]
  | _ => []
  end.
Proof.
  intros Hk. unfold new_calls, np2srv_endpt_ssh_change.
  rewrite bind_run, resolve_run, Hk.
  destruct (ch_op c); rewrite bind_run.
  - rewrite (bind_run (nc E _)), nc_run, bind_run, nc_run. unfold ret.
    rewrite check_rc_calls. simpl w_calls. rewrite <- app_assoc, skipn_app_length. reflexivity.
  - unfold ret. rewrite check_rc_calls, skipn_all. reflexivity.
  - rewrite nc_run, check_rc_calls. simpl w_calls. rewrite skipn_app_length. reflexivity.
  - unfold ret. rewrite check_rc_calls, skipn_all. reflexivity.
Qed.

Lemma ch_client_endpt_ssh_change_calls (E : environment) (iter : sr_change_iter_t)
    (c : sr_change) (w : world) (name client : string) :
  resolve_key 1 (ch_node c) = Some name ->
  resolve_key 3 (ch_node c) = Some client ->
  map fst (new_calls (np2srv_ch_client_endpt_ssh_change E iter c) w) =
  match ch_op c with
  | SR_OP_CREATED => [nc_server_ch_client_add_endpt client name NC_TI_LIBSSH;
                      nc_server_ssh_ch_client_endpt_set_auth_methods client name 0]
  | SR_OP_DELETED => [nc_server_ch_client_del_endpt client name NC_TI_LIBSSH]
  | _ => []
  end.
Proof.
  intros Hk Hc. unfold new_calls, np2srv_ch_client_endpt_ssh_change.
  rewrite bind_run, resolve_run, Hk, bind_run, resolve_run, Hc.
  destruct (ch_op c); rewrite bind_run.
  - rewrite (bind_run (nc E _)), nc_run, bind_run, nc_run. unfold ret.
    rewrite check_rc_calls. simpl w_calls. rewrite <- app_assoc, skipn_app_length. reflexivity.
  - unfold ret. rewrite check_rc_calls, skipn_all. reflexivity.
  - rewrite nc_run, check_rc_calls. simpl w_calls. rewrite skipn_app_length. reflexivity.
  - unfold ret. rewrite check_rc_calls, skipn_all. reflexivity.
Qed.

Lemma ch_client_change_calls (E : environment) (iter : sr_change_iter_t) (c : sr_change)
    (w : world) (client : string) :
  resolve_key 0 (ch_node c) = Some client ->
  map fst (new_calls (np2srv_ch_client_change E iter c) w) =
  match ch_op c with
  | SR_OP_CREATED =>
      if e_nc E (w_calls w) (nc_server_ch_add_client client) =? 0
      then [nc_server_ch_add_client client; nc_connect_ch_client_dispatch client]
      else [nc_server_ch_add_client client]
  | SR_OP_DELETED => [nc_server_ch_del_client client]
  | _ => []
  end.
Proof.
  intros Hk. unfold new_calls, np2srv_ch_client_change.
  rewrite bind_run, key_of_run, Hk.
  destruct (ch_op c); rewrite bind_run.
  - rewrite (bind_run (nc E _)), nc_run. unfold nonzero.
    destruct (e_nc E (w_calls w) (nc_server_ch_add_client client) =? 0); cbn [negb].
    + rewrite nc_run, check_rc_calls. simpl w_calls.
      rewrite <- app_assoc, skipn_app_length. reflexivity.
    + unfold ret. rewrite check_rc_calls. simpl w_calls. rewrite skipn_app_length. reflexivity.
  - unfold ret. rewrite check_rc_calls, skipn_all. reflexivity.
  - rewrite nc_run, check_rc_calls. simpl w_calls. rewrite skipn_app_length. reflexivity.
  - unfold ret. rewrite check_rc_calls, skipn_all. reflexivity.
Qed.



(** The whole callback on the creation of two endpoints: each is added and
    then denied all methods, in delivery order, and the iterator is freed. *)
Example endpt_ssh_cb_example :
  let r := np2srv_endpt_ssh_cb (with_changes [endpt_ssh_created "ep1"; endpt_ssh_created "ep2"] quiet)
             endpt_ssh_xpath world0 in
  value_of r = Some SR_ERR_OK /\
  map fst (w_calls (world_of r)) =
  [nc_server_add_endpt "ep1" NC_TI_LIBSSH; nc_server_ssh_endpt_set_auth_methods "ep1" 0;
   nc_server_add_endpt "ep2" NC_TI_LIBSSH; nc_server_ssh_endpt_set_auth_methods "ep2" 0] /\
  w_iters (world_of r) = [].
Proof. repeat split. Qed.

(* ------------------------------------------------------------------ *)
(** ** Key-material resolver: results *)

Lemma alloc_run (E : environment) (w : world) :
  alloc E w = Done (e_alloc E (w_allocs w)) (set_allocs w (S (w_allocs w))).
Proof. reflexivity. Qed.

Lemma asprintf_run (E : environment) (s : string) (w : world) :
  asprintf E s w = Done (if e_alloc E (w_allocs w) then Some s else None)
                        (set_allocs w (S (w_allocs w))).
Proof. reflexivity. Qed.

Lemma strdup_run (E : environment) (s : string) (w : world) :
  strdup E s w = Done (if e_alloc E (w_allocs w) then Some s else None)
                      (set_allocs w (S (w_allocs w))).
Proof. reflexivity. Qed.

(** The walk up ends at a node without parent. *)
Lemma root_of_is_root (d : lyd_node) : parent (root_of d) = None.
Proof.
  revert d. fix IH 1. intros d.
  destruct d as [n v u i p c x]. destruct p as [p|].
  - simpl. apply IH.
  - reflexivity.
Qed.

(** The cleanup with a fetched subtree: the fragment is freed from its root
    and the session is stopped. *)
Lemma hostkey_cleanup_present (d : lyd_node) (result : hostkey_result) (w : world) :
  np2srv_hostkey_cleanup (Some d) result w =
  Done result (set_sessions (set_trees w (pred (w_trees w))) (pred (w_sessions w))).
Proof.
  unfold np2srv_hostkey_cleanup. unfold bind, deref, ret, lyd_free_withsiblings.
  rewrite root_of_is_root. reflexivity.
Qed.

(** The cleanup without a subtree reads [data->parent] through NULL. *)
Lemma hostkey_cleanup_absent (result : hostkey_result) (w : world) :
  np2srv_hostkey_cleanup None result w = Crash NullDeref w.
Proof. reflexivity. Qed.

(** The run of [np2srv_hostkey_cb] up to the fetch of the subtree. *)
Lemma hostkey_cb_fetch (E : environment) (name : string) (w : world) :
  e_session_start E = SR_ERR_OK ->
  e_alloc E (w_allocs w) = true ->
  np2srv_hostkey_cb E name w =
  let w1 := set_allocs (set_sessions w (S (w_sessions w))) (S (w_allocs w)) in
  let failed := {| hk_rc := -1; hk_privkey_data := None; hk_privkey_type := None |} in
  match e_subtree E (hostkey_xpath name) with
  | (SR_ERR_OK, Some d) =>
      let w2 := set_trees w1 (S (w_trees w1)) in
      match hostkey_leaves d with
      | (Some alg, Some privkey) =>
          match key_type_of_identity (value_ident alg) with
          | Some type => hostkey_set_data E (Some d) privkey type w2
          | None => np2srv_hostkey_cleanup (Some d) failed w2
          end
      | _ => np2srv_hostkey_cleanup (Some d) failed w2
      end
  | _ => Crash NullDeref w1
  end.
Proof.
  intros Hs Ha. unfold np2srv_hostkey_cb.
  rewrite bind_run. unfold sr_session_start. rewrite Hs. simpl.
  rewrite bind_run, asprintf_run. wsimpl. rewrite Ha.
  rewrite bind_run. unfold sr_get_subtree.
  destruct (e_subtree E (hostkey_xpath name)) as [r d].
  destruct (sr_error_eq_dec r SR_ERR_OK) as [->|Hr].
  - destruct d as [d|]; [|reflexivity].
    simpl. unfold hostkey_leaves, key_type_of_identity.
    destruct (child d) as [first|]; [|reflexivity].
    destruct (hostkey_find_nodes first None None) as [[alg|] [privkey|]]; try reflexivity.
    destruct (prefix "rsa" (value_ident alg)); [reflexivity|].
    destruct (prefix "secp" (value_ident alg)); reflexivity.
  - simpl. destruct (sr_error_eq_dec r SR_ERR_OK) as [Heq|_]; [contradiction|].
    destruct r; try reflexivity. contradiction.
Qed.

(** C3 (the code misses it): when the session was started and the subtree
    is not there, because the path could not be allocated, because
    [sr_get_subtree] failed or because it found no data, the run reaches
    [cleanup:] with [data == NULL] and stops at the read of [data->parent];
    nothing is released on this path: the session stays started. *)
Theorem hostkey_cleanup_reads_null (E : environment) (name : string) (w : world) :
  e_session_start E = SR_ERR_OK ->
  e_alloc E (w_allocs w) = false \/
  fst (e_subtree E (hostkey_xpath name)) <> SR_ERR_OK \/
  snd (e_subtree E (hostkey_xpath name)) = None ->
  exists w', np2srv_hostkey_cb E name w = Crash NullDeref w' /\
             w_sessions w' = S (w_sessions w).
Proof.
  intros Hs Hcase.
  destruct (e_alloc E (w_allocs w)) eqn:Ha.
  - rewrite (hostkey_cb_fetch E name w Hs Ha).
    destruct (e_subtree E (hostkey_xpath name)) as [r d]. simpl in Hcase.
    destruct Hcase as [Hf|[Hr|Hd]]; [discriminate| |].
    + exists (set_allocs (set_sessions w (S (w_sessions w))) (S (w_allocs w))).
      split; [|reflexivity]. destruct r; try reflexivity. contradiction.
    + subst d. exists (set_allocs (set_sessions w (S (w_sessions w))) (S (w_allocs w))).
      split; [|reflexivity]. destruct r; reflexivity.
  - unfold np2srv_hostkey_cb.
    rewrite bind_run. unfold sr_session_start. rewrite Hs. simpl.
    rewrite bind_run, asprintf_run. wsimpl. rewrite Ha.
    eexists. split; reflexivity.
Qed.

Lemma hostkey_cleanup_reads_null_witness :
  exists w', np2srv_hostkey_cb quiet "key1" world0 = Crash NullDeref w' /\
             w_sessions w' = S (w_sessions world0).
Proof.
  apply (hostkey_cleanup_reads_null quiet "key1" world0).
  - reflexivity.
  - right. right. reflexivity.
Defined.

(** With the subtree fetched, every path returns after freeing the fragment
    and stopping the session, and the result follows the mapping of the
    identity name: the key type and a copy of the private key with code 0, or
    code -1 without key data when a leaf is missing, the name is not
    recognised or the copy cannot be allocated. *)
Lemma hostkey_cb_present (E : environment) (name : string) (w : world) (d : lyd_node) :
  e_session_start E = SR_ERR_OK ->
  e_alloc E (w_allocs w) = true ->
  e_subtree E (hostkey_xpath name) = (SR_ERR_OK, Some d) ->
  exists w',
    np2srv_hostkey_cb E name w =
    Done match hostkey_leaves d with
         | (Some alg, Some privkey) =>
             match key_type_of_identity (value_ident alg) with
             | Some type =>
                 if e_alloc E (S (w_allocs w))
                 then {| hk_rc := 0; hk_privkey_data := Some (value_str privkey);
                         hk_privkey_type := Some type |}
                 else {| hk_rc := -1; hk_privkey_data := None; hk_privkey_type := Some type |}
             | None => {| hk_rc := -1; hk_privkey_data := None; hk_privkey_type := None |}
             end
         | _ => {| hk_rc := -1; hk_privkey_data := None; hk_privkey_type := None |}
         end w' /\
    w_sessions w' = w_sessions w /\ w_trees w' = w_trees w.
Proof.
  intros Hs Ha Hd. rewrite (hostkey_cb_fetch E name w Hs Ha), Hd. cbv zeta.
  destruct (hostkey_leaves d) as [[alg|] [privkey|]];
    try (rewrite hostkey_cleanup_present; eexists; split; [reflexivity|split; reflexivity]).
  destruct (key_type_of_identity (value_ident alg)) as [type|];
    try (rewrite hostkey_cleanup_present; eexists; split; [reflexivity|split; reflexivity]).
  unfold hostkey_set_data. rewrite bind_run, strdup_run. wsimpl.
  destruct (e_alloc E (S (w_allocs w)));
    rewrite hostkey_cleanup_present; eexists; split; [reflexivity|split; reflexivity | reflexivity | split; reflexivity].
Qed.

(** C7 (the code misses it): for a host key whose subtree is absent,
    [sr_get_subtree] succeeding without data, the callback does not return
    the error -1: the run stops in the cleanup at the read through the NULL
    [data] and no result is handed back. *)
Theorem hostkey_absent_subtree_no_result (E : environment) (name : string) (w : world) :
  e_session_start E = SR_ERR_OK ->
  e_alloc E (w_allocs w) = true ->
  e_subtree E (hostkey_xpath name) = (SR_ERR_OK, None) ->
  value_of (np2srv_hostkey_cb E name w) = None /\
  (forall w', np2srv_hostkey_cb E name w <>
              Done {| hk_rc := -1; hk_privkey_data := None; hk_privkey_type := None |} w').
Proof.
  intros Hs Ha Hd. rewrite (hostkey_cb_fetch E name w Hs Ha), Hd. cbv zeta.
  split; [reflexivity | intros w'; discriminate].
Qed.

Lemma hostkey_absent_subtree_no_result_witness :
  value_of (np2srv_hostkey_cb quiet "key1" world0) = None /\
  (forall w', np2srv_hostkey_cb quiet "key1" world0 <>
              Done {| hk_rc := -1; hk_privkey_data := None; hk_privkey_type := None |} w').
Proof.
  apply (hostkey_absent_subtree_no_result quiet "key1" world0); reflexivity.
Defined.

(** Resolution of present host keys: [rsa2048] is an RSA key, [secp256r1] an
    ECDSA key, and [ed25519] is not recognised. *)
Example hostkey_cb_examples :
  value_of (np2srv_hostkey_cb (with_subtree SR_ERR_OK (Some (hostkey_subtree "rsa2048" "MIIE")) quiet)
              "key1" world0) =
  Some {| hk_rc := 0; hk_privkey_data := Some "MIIE"; hk_privkey_type := Some NC_SSH_KEY_RSA |} /\
  value_of (np2srv_hostkey_cb (with_subtree SR_ERR_OK (Some (hostkey_subtree "secp256r1" "MHcC")) quiet)
              "key1" world0) =
  Some {| hk_rc := 0; hk_privkey_data := Some "MHcC"; hk_privkey_type := Some NC_SSH_KEY_ECDSA |} /\
  value_of (np2srv_hostkey_cb (with_subtree SR_ERR_OK (Some (hostkey_subtree "ed25519" "MC4C")) quiet)
              "key1" world0) =
  Some {| hk_rc := -1; hk_privkey_data := None; hk_privkey_type := None |}.
Proof. repeat split. Qed.

(* ------------------------------------------------------------------ *)
(** ** Change-set scanner: the iterator on the exit paths *)

(** C4 (the code misses it): in [np2srv_endpt_tcp_params_cb], when the
    iterator is open, the first change creates [keepalives], enabling them
    succeeds and the path of the nested scan cannot be allocated, the callback
    returns [SR_ERR_NOMEM] and the iterator it obtained is still among the
    iterators not freed. *)
Theorem tcp_params_leaks_iterator (E : environment) (xpath : string) (w : world)
    (c : sr_change) (rest : list sr_change) (fin : sr_error_t) (name : string) :
  e_alloc E (w_allocs w) = true ->
  e_changes E (xpath ++ "/*")%string =
    {| cs_open := SR_ERR_OK; cs_changes := c :: rest; cs_end := fin |} ->
  schema_name (ch_node c) = "keepalives" ->
  ch_op c = SR_OP_CREATED ->
  resolve_key 3 (ch_node c) = Some name ->
  e_nc E (w_calls w) (nc_server_endpt_enable_keepalives name 1) = 0 ->
  e_alloc E (S (w_allocs w)) = false ->
  exists w', np2srv_endpt_tcp_params_cb E xpath w = Done SR_ERR_NOMEM w' /\
             w_iters w' = w_iters w ++ [w_next_iter w].
Proof.
  intros Ha Hch Hn Hop Hk Hrc Ha2.
  unfold np2srv_endpt_tcp_params_cb, scan_children.
  rewrite bind_run, asprintf_run, Ha, bind_run.
  unfold sr_get_changes_iter. rewrite Hch. cbn [cs_open cs_changes cs_end].
  destruct (sr_error_eq_dec SR_ERR_OK SR_ERR_OK) as [_|Hne]; [|contradiction].
  destruct (sr_error_eq_dec SR_ERR_OK SR_ERR_OK) as [_|Hne]; [|contradiction].
  unfold scan_changes. rewrite bind_run. cbn [it_changes while_changes].
  rewrite bind_run. unfold np2srv_endpt_tcp_params_change at 1.
  rewrite bind_run, resolve_run, Hk, Hn, Hop. streq_eval.
  rewrite bind_run, nc_run. wsimpl. rewrite Hrc. cbn [nonzero Z.eqb negb].
  rewrite bind_run, asprintf_run. wsimpl. rewrite Ha2.
  unfold ret. eexists. split; reflexivity.
Qed.

Lemma tcp_params_leaks_iterator_witness :
  exists w',
    np2srv_endpt_tcp_params_cb (failing_alloc 1 (with_changes [keepalives_created] quiet))
      tcp_params_xpath world0 = Done SR_ERR_NOMEM w' /\
    w_iters w' = w_iters world0 ++ [w_next_iter world0].
Proof.
  apply (tcp_params_leaks_iterator (failing_alloc 1 (with_changes [keepalives_created] quiet))
           tcp_params_xpath world0 keepalives_created [] SR_ERR_NOT_FOUND "ep1");
    reflexivity.
Defined.

(** The same in [np2srv_ch_connection_type_cb], on both returns of the branch
    for a Modified [periodic]: when the path of the nested scan cannot be
    allocated, and when the nested scan cannot open its iterator. *)
Lemma connection_type_leaks_iterator (E : environment) (xpath : string) (w : world)
    (c : sr_change) (rest : list sr_change) (fin : sr_error_t) (client : string) :
  e_alloc E (w_allocs w) = true ->
  e_changes E (xpath ++ "/*")%string =
    {| cs_open := SR_ERR_OK; cs_changes := c :: rest; cs_end := fin |} ->
  schema_name (ch_node c) = "periodic" ->
  ch_op c = SR_OP_MODIFIED ->
  resolve_key 2 (ch_node c) = Some client ->
  (e_alloc E (S (w_allocs w)) = false ->
   exists w', np2srv_ch_connection_type_cb E xpath w = Done SR_ERR_NOMEM w' /\
              w_iters w' = w_iters w ++ [w_next_iter w]) /\
  (e_alloc E (S (w_allocs w)) = true ->
   cs_open (e_changes E (xpath ++ "/periodic/*")%string) <> SR_ERR_OK ->
   exists w', np2srv_ch_connection_type_cb E xpath w =
              Done (cs_open (e_changes E (xpath ++ "/periodic/*")%string)) w' /\
              w_iters w' = w_iters w ++ [w_next_iter w]).
Proof.
  intros Ha Hch Hn Hop Hk.
  split.
  - intros Ha2.
    unfold np2srv_ch_connection_type_cb, scan_children.
    rewrite bind_run, asprintf_run, Ha, bind_run.
    unfold sr_get_changes_iter. rewrite Hch. cbn [cs_open cs_changes cs_end].
    destruct (sr_error_eq_dec SR_ERR_OK SR_ERR_OK) as [_|Hne]; [|contradiction].
    destruct (sr_error_eq_dec SR_ERR_OK SR_ERR_OK) as [_|Hne]; [|contradiction].
    unfold scan_changes. rewrite bind_run. cbn [it_changes while_changes].
    rewrite bind_run. unfold np2srv_ch_connection_type_change at 1.
    rewrite bind_run, resolve_run, Hk, Hn, Hop. streq_eval. cbn [negb].
    rewrite bind_run, asprintf_run. wsimpl.
    rewrite Ha2. unfold ret. eexists. split; reflexivity.
  - intros Ha2 Hopen.
    unfold np2srv_ch_connection_type_cb, scan_children.
    rewrite bind_run, asprintf_run, Ha, bind_run.
    unfold sr_get_changes_iter at 1. rewrite Hch. cbn [cs_open cs_changes cs_end].
    destruct (sr_error_eq_dec SR_ERR_OK SR_ERR_OK) as [_|Hne]; [|contradiction].
    destruct (sr_error_eq_dec SR_ERR_OK SR_ERR_OK) as [_|Hne]; [|contradiction].
    unfold scan_changes. rewrite bind_run. cbn [it_changes while_changes].
    rewrite bind_run. unfold np2srv_ch_connection_type_change at 1.
    rewrite bind_run, resolve_run, Hk, Hn, Hop. streq_eval. cbn [negb].
    rewrite bind_run, asprintf_run. wsimpl.
    rewrite Ha2.
    unfold np2srv_ch_periodic_connection_params, scan_subtree.
    rewrite bind_run, bind_run. unfold sr_get_changes_iter.
    destruct (sr_error_eq_dec (cs_open (e_changes E (xpath ++ "/periodic/*")%string)) SR_ERR_OK)
      as [Heq|Hneq]; [contradiction|].
    destruct (sr_error_eq_dec (cs_open (e_changes E (xpath ++ "/periodic/*")%string)) SR_ERR_OK)
      as [Heq|_]; [contradiction|].
    unfold ret.
    destruct (sr_error_eq_dec (cs_open (e_changes E (xpath ++ "/periodic/*")%string)) SR_ERR_OK)
      as [Heq|_]; [contradiction|].
    eexists. split; reflexivity.
Qed.

(* ------------------------------------------------------------------ *)
(** ** Public-key authentication decision: results *)

(** C5: [np2srv_pubkey_auth_cb] always returns, with 0 or 1.  It returns 0
    exactly when the account is found, the path is allocated, the import of
    the key file succeeds with the first key [first] of the file, and the
    offered key compares equal to [first] on its public material.  So when the
    first key of the file differs from the offered key the answer is 1, also
    when a later key of the file is the offered key. *)
Theorem pubkey_auth_decision (E : environment) (username : string) (key : ssh_key) (w : world) :
  exists rc w',
    np2srv_pubkey_auth_cb E username key w = Done rc w' /\
    (rc = 0 \/ rc = 1) /\
    (rc = 0 <->
     exists pwd first,
       getpwnam E username = Some pwd /\
       e_alloc E (w_allocs w) = true /\
       ssh_pki_import_pubkey_file E (authorized_keys_path pwd) = (SSH_OK, Some first) /\
       key_type key = key_type first /\ key_public key = key_public first) /\
    (forall pwd first rest,
       getpwnam E username = Some pwd ->
       e_pubkeys E (authorized_keys_path pwd) = Some (first :: rest) ->
       ssh_key_cmp_public key first <> 0 ->
       In key rest ->
       rc = 1).
Proof.
  unfold np2srv_pubkey_auth_cb, authorized_keys_path.
  destruct (getpwnam E username) as [pwd|] eqn:Hpw.
  2:{ exists 1, w. split; [reflexivity|]. split; [right; reflexivity|]. split.
      - split; [discriminate|]. intros (p & f & H & _). discriminate.
      - intros p f r H. discriminate. }
  rewrite bind_run, asprintf_run.
  destruct (e_alloc E (w_allocs w)) eqn:Ha.
  2:{ eexists 1, _. split; [reflexivity|]. split; [right; reflexivity|]. split.
      - split; [discriminate|]. intros (p & f & _ & H & _). discriminate.
      - reflexivity. }
  unfold ssh_pki_import_pubkey_file.
  destruct (e_pubkeys E (pw_dir pwd ++ "/.ssh/authorized_keys")%string) as [[|first rest]|] eqn:Hf.
  - eexists 1, _. split; [reflexivity|]. split; [right; reflexivity|]. split.
    + split; [discriminate|]. intros (p & f & Hp & _ & H & _).
      injection Hp as <-. rewrite Hf in H. discriminate.
    + reflexivity.
  - cbn [Z.eqb SSH_OK negb]. rewrite bind_run. cbn [deref ret].
    unfold ssh_key_cmp_public.
    destruct (streq (key_type key) (key_type first)) eqn:Ht;
      [destruct (streq (key_public key) (key_public first)) eqn:Hp|]; cbn [andb Z.eqb].
    + eexists 0, _. split; [reflexivity|]. split; [left; reflexivity|]. split.
      * split; [|reflexivity]. intros _. exists pwd, first.
        rewrite Hf. repeat split.
        -- apply String.eqb_eq. exact Ht.
        -- apply String.eqb_eq. exact Hp.
      * intros p f r Hpp Hff Hne. injection Hpp as <-. rewrite Hf in Hff.
        injection Hff as <- <-. exfalso. apply Hne. unfold ssh_key_cmp_public.
        rewrite Ht, Hp. reflexivity.
    + eexists 1, _. split; [reflexivity|]. split; [right; reflexivity|]. split.
      * split; [discriminate|]. intros (p & f & Hpp & _ & H & _ & Heq).
        injection Hpp as <-. rewrite Hf in H. injection H as <-.
        apply String.eqb_eq in Heq. unfold streq in Hp. rewrite Heq in Hp. discriminate.
      * reflexivity.
    + eexists 1, _. split; [reflexivity|]. split; [right; reflexivity|]. split.
      * split; [discriminate|]. intros (p & f & Hpp & _ & H & Heq & _).
        injection Hpp as <-. rewrite Hf in H. injection H as <-.
        apply String.eqb_eq in Heq. unfold streq in Ht. rewrite Heq in Ht. discriminate.
      * reflexivity.
  - eexists 1, _. split; [reflexivity|]. split; [right; reflexivity|]. split.
    + split; [discriminate|]. intros (p & f & Hp & _ & H & _).
      injection Hp as <-. rewrite Hf in H. discriminate.
    + reflexivity.
Qed.

(** With the keys [key_a] and [key_b] in her file, in this order, alice is
    accepted with [key_a] and rejected with [key_b]; an unknown account is
    rejected. *)
Example pubkey_auth_first_key_only :
  value_of (np2srv_pubkey_auth_cb alice_two_keys "alice" key_a world0) = Some 0 /\
  value_of (np2srv_pubkey_auth_cb alice_two_keys "alice" key_b world0) = Some 1 /\
  value_of (np2srv_pubkey_auth_cb alice_two_keys "bob" key_a world0) = Some 1.
Proof. repeat split. Qed.

(* ------------------------------------------------------------------ *)
(** ** Authorized-key enumerator: results *)

Lemma update_last_app {A} (f : A -> A) (l : list A) (a : A) :
  update_last f (l ++ [a]) = l ++ [f a].
Proof.
  induction l as [|b l IH]; [reflexivity|].
  simpl app. simpl update_last. rewrite IH.
  destruct l; reflexivity.
Qed.

Lemma update_last_compose {A} (f g : A -> A) (l : list A) :
  update_last f (update_last g l) = update_last (fun a => f (g a)) l.
Proof.
  induction l as [|b l IH]; [reflexivity|].
  destruct l as [|c l]; [reflexivity|].
  change (update_last g (b :: c :: l)) with (b :: update_last g (c :: l)).
  change (update_last (fun a => f (g a)) (b :: c :: l))
    with (b :: update_last (fun a => f (g a)) (c :: l)).
  rewrite <- IH.
  destruct (update_last g (c :: l)) as [|d l'] eqn:Hd.
  - destruct l; discriminate.
  - reflexivity.
Qed.

Lemma update_last_ext {A} (f g : A -> A) (l : list A) :
  (forall a, f a = g a) -> update_last f l = update_last g l.
Proof.
  intros H. induction l as [|b l IH]; [reflexivity|].
  destruct l as [|c l]; simpl; [rewrite H; reflexivity|].
  simpl in IH. rewrite IH. reflexivity.
Qed.

Lemma name_fits_upto_99 (idx : Z) : 0 <= idx <= 99 -> name_fits 6 idx = true.
Proof.
  intros H.
  assert (Hall : forallb (fun n => name_fits 6 (Z.of_nat n)) (seq 0 100) = true)
    by (vm_compute; reflexivity).
  rewrite forallb_forall in Hall. specialize (Hall (Z.to_nat idx)).
  rewrite Z2Nat.id in Hall by lia. apply Hall. apply in_seq. lia.
Qed.

Lemma name_fits_from_100 (idx : Z) : 100 <= idx <= 255 -> name_fits 6 idx = false.
Proof.
  intros H.
  assert (Hall : forallb (fun n => negb (name_fits 6 (Z.of_nat n))) (seq 100 156) = true)
    by (vm_compute; reflexivity).
  rewrite forallb_forall in Hall. specialize (Hall (Z.to_nat idx)).
  rewrite Z2Nat.id in Hall by lia. apply negb_true_iff. apply Hall. apply in_seq. lia.
Qed.

Lemma sprintf_key_run (idx : Z) (w : world) :
  sprintf_key 6 idx w = if name_fits 6 idx then Done (key_name idx) w else Crash BufferOverflow w.
Proof. unfold sprintf_key, name_fits, key_name. destruct (_ <=? _)%nat; reflexivity. Qed.

Lemma lyd_new_authkey_run (E : environment) (w : world) :
  never_fails E ->
  lyd_new_authkey E w =
  Done true (after 1 (add_key {| ak_name := None; ak_algorithm := None; ak_key_data := None |}
                        (w_users w)) w).
Proof.
  intros H. unfold lyd_new_authkey. rewrite bind_run, alloc_run, H. reflexivity.
Qed.

Lemma lyd_new_leaf_authkey_run (E : environment) (leaf value : string) (w : world) :
  never_fails E ->
  lyd_new_leaf_authkey E leaf value w =
  Done true (after 1 (update_last (fun u => {| u_name := u_name u;
                                               u_keys := update_last (set_leaf leaf value) (u_keys u) |})
                                  (w_users w)) w).
Proof.
  intros H. unfold lyd_new_leaf_authkey. rewrite bind_run, alloc_run, H. reflexivity.
Qed.

Lemma after_after (n m : nat) (u v : list user_entry) (w : world) :
  after n u (after m v w) = after (n + m) u w.
Proof. unfold after. wsimpl. rewrite Nat.add_assoc. reflexivity. Qed.

Lemma w_users_after (n : nat) (u : list user_entry) (w : world) : w_users (after n u w) = u.
Proof. reflexivity. Qed.

Lemma strdup_after (E : environment) (s : string) (w : world) :
  never_fails E -> strdup E s w = Done (Some s) (after 1 (w_users w) w).
Proof. intros H. rewrite strdup_run, H. destruct w; reflexivity. Qed.

Lemma user_add_auth_key_run (E : environment) (alg : string) (alg_len : nat) (key : string)
    (key_len : nat) (key_idx : Z) (w : world) :
  never_fails E ->
  np2srv_user_add_auth_key E alg alg_len key key_len key_idx w =
  if name_fits 6 key_idx
  then Done (0, (key_idx + 1) mod 256)
            (after 6 (add_key (full_key (key_name key_idx) (strn alg alg_len) (strn key key_len))
                              (w_users w)) w)
  else Crash BufferOverflow
             (after 1 (add_key {| ak_name := None; ak_algorithm := None; ak_key_data := None |}
                               (w_users w)) w).
Proof.
  intros H. unfold np2srv_user_add_auth_key.
  rewrite bind_run, (lyd_new_authkey_run E w H). cbn [negb].
  rewrite bind_run, sprintf_key_run.
  destruct (name_fits 6 key_idx); [|reflexivity].
  rewrite bind_run, (lyd_new_leaf_authkey_run E _ _ _ H). cbn [negb].
  rewrite bind_run, (strdup_after E _ _ H).
  rewrite bind_run, (lyd_new_leaf_authkey_run E _ _ _ H).
  rewrite bind_run, (strdup_after E _ _ H).
  rewrite bind_run, (lyd_new_leaf_authkey_run E _ _ _ H).
  unfold ret. rewrite !after_after, !w_users_after. cbn [Nat.add].
  f_equal. f_equal. unfold add_key.
  rewrite !update_last_compose.
  apply update_last_ext. intros u. cbn [u_name u_keys]. f_equal.
  rewrite !update_last_compose, update_last_app. reflexivity.
Qed.

Lemma strchr_blank (s p : string) (c : ascii) :
  blank s = true -> strchr s c = Some p ->
  blank (incr p) = true /\ (String.length (incr p) < String.length s)%nat.
Proof.
  induction s as [|a s IH]; intros Hb Hs; [discriminate|].
  simpl in Hb. apply andb_true_iff in Hb as [_ Hb].
  simpl in Hs. destruct (Ascii.eqb a c).
  - injection Hs as <-. simpl. split; [exact Hb | lia].
  - destruct (IH Hb Hs) as [H1 H2]. split; [exact H1 | simpl; lia].
Qed.

(** The search finds no algorithm in a blank string. *)
Lemma find_algorithm_blank (fuel : nat) (ptr : string) (w : world) :
  blank ptr = true -> (String.length ptr < fuel)%nat ->
  find_algorithm fuel ptr w = Done None w.
Proof.
  revert ptr. induction fuel as [|fuel IH]; intros ptr Hb Hl; [lia|].
  assert (Hp : negb (prefix "ssh-dss" ptr) && negb (prefix "ssh-rsa" ptr)
               && negb (prefix "ecdsa" ptr) = true).
  { destruct ptr as [|c tl]; [reflexivity|].
    simpl in Hb. apply andb_true_iff in Hb as [Hc _].
    unfold is_blank_char in Hc. apply orb_true_iff in Hc as [Hc|Hc];
      apply Ascii.eqb_eq in Hc; subst c; reflexivity. }
  simpl. rewrite Hp.
  destruct (strchr ptr space) as [p|] eqn:Hs; [|reflexivity].
  destruct (strchr_blank ptr p space Hb Hs) as [H1 H2].
  apply IH; [exact H1 | lia].
Qed.

(** A comment or blank line is skipped: the turn changes nothing. *)
Lemma comment_or_blank_skipped (E : environment) (line : string) (idx : Z) (w : world) :
  comment_or_blank line = true ->
  authorized_keys_line E line idx w = Done (0, idx) w.
Proof.
  intros H. unfold authorized_keys_line.
  destruct line as [|c tl]; [reflexivity|].
  destruct (Ascii.eqb c hash) eqn:Hc; [reflexivity|].
  simpl in H. rewrite Hc in H. simpl in H.
  rewrite bind_run, find_algorithm_blank; [reflexivity | | lia].
  simpl. exact H.
Qed.

Lemma comment_or_blank_lines (E : environment) (lines : list string) (idx : Z) (w : world) :
  forallb comment_or_blank lines = true ->
  authorized_keys_lines E lines idx w = Done true w.
Proof.
  induction lines as [|l lines IH]; intros H; [reflexivity|].
  simpl in H. apply andb_true_iff in H as [Hl Hr].
  simpl. rewrite bind_run, (comment_or_blank_skipped E l idx w Hl).
  cbn [nonzero Z.eqb negb]. apply IH. exact Hr.
Qed.

Lemma asprintf_after (E : environment) (s : string) (w : world) :
  never_fails E -> asprintf E s w = Done (Some s) (after 1 (w_users w) w).
Proof. intros H. rewrite asprintf_run, H. destruct w; reflexivity. Qed.

Lemma lyd_new_user_run (E : environment) (w : world) :
  never_fails E ->
  lyd_new_user E w = Done true (after 1 (w_users w ++ [{| u_name := None; u_keys := [] |}]) w).
Proof. intros H. unfold lyd_new_user. rewrite bind_run, alloc_run, H. reflexivity. Qed.

Lemma lyd_new_leaf_user_run (E : environment) (value : string) (w : world) :
  never_fails E ->
  lyd_new_leaf_user E value w =
  Done true (after 1 (update_last (fun u => {| u_name := Some value; u_keys := u_keys u |})
                                  (w_users w)) w).
Proof. intros H. unfold lyd_new_leaf_user. rewrite bind_run, alloc_run, H. reflexivity. Qed.

(** One turn of the [getpwent] loop when no allocation fails. *)
Lemma users_loop_step (E : environment) (pwd : passwd) (rest : list passwd) (w : world) :
  never_fails E ->
  users_loop E (pwd :: rest) w =
  let w1 := after 3 (w_users w ++ [{| u_name := Some (pw_name pwd); u_keys := [] |}]) w in
  match e_fopen E (authorized_keys_path pwd) with
  | inl errno =>
      if negb (errno =? ENOENT) then Done SR_ERR_INTERNAL w1 else users_loop E rest w1
  | inr f =>
      match authorized_keys_lines E (file_lines (f_content f)) 1 w1 with
      | Done ok w2 =>
          if negb ok then Done SR_ERR_INTERNAL w2
          else if f_error f then Done SR_ERR_INTERNAL w2
          else users_loop E rest w2
      | Crash f w2 => Crash f w2
      end
  end.
Proof.
  intros H. cbn [users_loop].
  rewrite bind_run, (lyd_new_user_run E w H). cbn [negb].
  rewrite bind_run, (lyd_new_leaf_user_run E _ _ H).
  rewrite bind_run, (asprintf_after E _ _ H).
  rewrite !after_after, !w_users_after, update_last_app. cbn [Nat.add u_keys].
  cbv zeta. unfold authorized_keys_path.
  destruct (e_fopen E (pw_dir pwd ++ "/.ssh/authorized_keys")%string) as [errno|f].
  - destruct (negb (errno =? ENOENT)); reflexivity.
  - rewrite bind_run.
    destruct (authorized_keys_lines E (file_lines (f_content f)) 1 _) as [ok w2|fl w2];
      [|reflexivity].
    destruct ok; cbn [negb]; [|reflexivity].
    destruct (f_error f); reflexivity.
Qed.

(** On the key line of the example the algorithm token is the start of the
    line, 7 characters long, and the key data are the 11 characters up to the
    space before the comment. *)
Lemma example_key_line_run (E : environment) (idx : Z) (w : world) :
  authorized_keys_line E example_key_line idx w =
  np2srv_user_add_auth_key E example_key_line 7 example_key_data 11 idx w.
Proof. reflexivity. Qed.

Lemma example_key_file_lines :
  file_lines example_key_file =
  ["# comment" ++ String newline EmptyString; String newline EmptyString; example_key_line]%string.
Proof. reflexivity. Qed.

(** A key line whose key data end at the newline, with no comment field, is
    not read to its end: after [strchr(ptr, ' ')] returned NULL into [ptr],
    the second [strchr] is given that NULL. *)
Remark key_line_without_comment (E : environment) (idx : Z) (w : world) :
  authorized_keys_line E ("ssh-rsa AAAAB3Nz..." ++ String newline EmptyString) idx w =
  Crash NullDeref w.
Proof. reflexivity. Qed.



(** The whole callback on one account with the key file of the example. *)
Example users_oper_cb_example :
  let r := np2srv_endpt_ssh_auth_users_oper_cb
             (with_accounts [alice] (inr {| f_content := example_key_file; f_error := false |}) quiet)
             world0 in
  value_of r = Some SR_ERR_OK /\
  w_users (world_of r) = [user_of alice [full_key "key1" "ssh-rsa" "AAAAB3Nz..."]].
Proof. split; reflexivity. Qed.

(* ------------------------------------------------------------------ *)
(** ** Authorized-key enumerator: the name buffer *)

(** The search for the algorithm neither reads nor changes the state. *)
Lemma find_algorithm_world (fuel : nat) (ptr : string) (w : world) :
  find_algorithm fuel ptr w =
  match find_algorithm fuel ptr world0 with
  | Done r _ => Done r w
  | Crash f _ => Crash f w
  end.
Proof.
  revert ptr. induction fuel as [|fuel IH]; intros ptr; [reflexivity|].
  cbn [find_algorithm].
  destruct (negb (prefix "ssh-dss" ptr) && negb (prefix "ssh-rsa" ptr)
            && negb (prefix "ecdsa" ptr)); [|reflexivity].
  destruct (strchr ptr space) as [p|]; [apply IH | reflexivity].
Qed.

(** The search always ends within its fuel. *)
Lemma find_algorithm_total (fuel : nat) (ptr : string) (w : world) :
  (String.length ptr < fuel)%nat -> exists r, find_algorithm fuel ptr w = Done r w.
Proof.
  revert ptr. induction fuel as [|fuel IH]; intros ptr Hl; [lia|].
  cbn [find_algorithm].
  destruct (negb (prefix "ssh-dss" ptr) && negb (prefix "ssh-rsa" ptr)
            && negb (prefix "ecdsa" ptr)); [|eexists; reflexivity].
  destruct (strchr ptr space) as [p|] eqn:Hs; [|eexists; reflexivity].
  apply IH.
  assert (Hlen : forall s q, strchr s space = Some q ->
                 (String.length (incr q) < String.length s)%nat).
  { induction s as [|a s IHs]; intros q Hq; [discriminate|].
    simpl in Hq. destruct (Ascii.eqb a space).
    - injection Hq as <-. simpl. lia.
    - specialize (IHs q Hq). simpl. lia. }
  specialize (Hlen ptr p Hs). lia.
Qed.

(** One turn of the [getline] loop does what [classify] says. *)
Lemma authorized_keys_line_classify (E : environment) (line : string) (idx : Z) (w : world) :
  authorized_keys_line E line idx w =
  match classify line with
  | LineSkip => Done (0, idx) w
  | LineKey alg alg_len data key_len =>
      np2srv_user_add_auth_key E alg alg_len data key_len idx w
  | LineFault f => Crash f w
  end.
Proof.
  unfold authorized_keys_line, classify.
  destruct line as [|c tl]; [reflexivity|].
  destruct (Ascii.eqb c hash); [reflexivity|].
  rewrite bind_run, find_algorithm_world.
  destruct (find_algorithm (S (String.length (String c tl))) (String c tl) world0)
    as [[alg|] w0|f w0]; try reflexivity.
  destruct (strchr alg space) as [sp|] eqn:Hsp; [|reflexivity].
  cbv zeta.
  destruct (strchr (incr sp) space) as [ptr|]; reflexivity.
Qed.

(** No line runs out of fuel. *)
Lemma classify_never_out_of_fuel (line : string) : classify line <> LineFault OutOfFuel.
Proof.
  unfold classify. destruct line as [|c tl]; [discriminate|].
  destruct (Ascii.eqb c hash); [discriminate|].
  destruct (find_algorithm_total (S (String.length (String c tl))) (String c tl) world0)
    as [r Hr]; [lia|].
  rewrite Hr. destruct r as [alg|]; [|discriminate].
  destruct (strchr alg space) as [sp|]; [|discriminate].
  cbv zeta. destruct (strchr (incr sp) space); discriminate.
Qed.

Lemma add_key_last (k : authorized_key) (us : list user_entry) (u : user_entry) :
  add_key k (us ++ [u]) = us ++ [with_keys u [k]].
Proof. unfold add_key. rewrite update_last_app. reflexivity. Qed.

Lemma with_keys_app (u : user_entry) (ks ks' : list authorized_key) :
  with_keys (with_keys u ks) ks' = with_keys u (ks ++ ks').
Proof. unfold with_keys. simpl. rewrite app_assoc. reflexivity. Qed.

Lemma recognized_keys_cons (l : string) (lines : list string) :
  recognized_keys (l :: lines) =
  if is_key (classify l) then S (recognized_keys lines) else recognized_keys lines.
Proof. unfold recognized_keys. simpl. destruct (is_key (classify l)); reflexivity. Qed.

(** The [getline] loop from the counter value [idx], with [n] recognized keys
    ahead: while the counter stays below 100 every name fits and the keys get
    consecutive names; the key formatted from the counter value 100 does not
    fit. *)
Lemma authorized_keys_lines_run (E : environment) (lines : list string) :
  never_fails E ->
  no_line_fault lines = true ->
  forall (idx : Z) (us : list user_entry) (u : user_entry) (w : world),
    w_users w = us ++ [u] ->
    1 <= idx <= 100 ->
    (idx + Z.of_nat (recognized_keys lines) <= 100 ->
     exists w' ks,
       authorized_keys_lines E lines idx w = Done true w' /\
       w_users w' = us ++ [with_keys u ks] /\
       map ak_name ks = key_names_from idx (recognized_keys lines)) /\
    (100 < idx + Z.of_nat (recognized_keys lines) ->
     exists w', authorized_keys_lines E lines idx w = Crash BufferOverflow w').
Proof.
  intros HE. induction lines as [|l lines IH]; intros Hnf idx us u w Hu Hidx.
  - split.
    + intros _. exists w, []. split; [reflexivity|]. split; [|reflexivity].
      rewrite Hu. unfold with_keys. rewrite app_nil_r. destruct u; reflexivity.
    + unfold recognized_keys. simpl. lia.
  - simpl in Hnf. apply andb_true_iff in Hnf as [Hl Hnf].
    specialize (IH Hnf).
    rewrite recognized_keys_cons.
    cbn [authorized_keys_lines]. rewrite bind_run, authorized_keys_line_classify.
    destruct (classify l) as [|alg alen data dlen|f]; cbn [is_key].
    + cbn [nonzero Z.eqb negb]. apply IH; assumption.
    + rewrite (user_add_auth_key_run E _ _ _ _ _ _ HE).
      destruct (Z.eq_dec idx 100) as [->|Hne].
      * change (name_fits 6 100) with false. cbv iota. split; [lia|].
        intros _. eexists. reflexivity.
      * rewrite name_fits_upto_99 by lia. cbn [nonzero Z.eqb negb].
        rewrite Z.mod_small by lia.
        assert (Hu' : w_users (after 6 (add_key (full_key (key_name idx) (strn alg alen)
                                                   (strn data dlen)) (w_users w)) w)
                      = us ++ [with_keys u [full_key (key_name idx) (strn alg alen)
                                              (strn data dlen)]]).
        { rewrite w_users_after, Hu. apply add_key_last. }
        destruct (IH (idx + 1) us _ _ Hu') as [IH1 IH2]; [lia|].
        split.
        -- intros Hle. destruct IH1 as (w' & ks & Hrun & Hus & Hnames); [lia|].
           exists w', (full_key (key_name idx) (strn alg alen) (strn data dlen) :: ks).
           split; [exact Hrun|]. split.
           ++ rewrite Hus, with_keys_app. reflexivity.
           ++ cbn [map key_names_from ak_name full_key]. rewrite Hnames. reflexivity.
        -- intros Hgt. apply IH2. lia.
    + discriminate.
Qed.



(* ------------------------------------------------------------------ *)
(** ** Change-set scanner: mutations in event order, no undo *)

Lemma while_changes_fail_stop (body : sr_change -> M flow)
    (call_of : sr_change -> option nc_call) (changes : list sr_change) :
  fail_stop body call_of changes ->
  forall w, exists f w' n log,
    while_changes body changes w = Done f w' /\
    w_calls w' = w_calls w ++ log /\
    (n <= List.length changes)%nat /\
    map fst log = calls_of call_of (firstn n changes) /\
    ((f = Return SR_ERR_INTERNAL /\
      exists c call rc' log',
        (1 <= n)%nat /\ nth_error changes (pred n) = Some c /\ call_of c = Some call /\
        log = log' ++ [(call, rc')] /\ rc' <> 0 /\ all_succeeded log') \/
     (f = Next /\ n = List.length changes /\ all_succeeded log)).
Proof.
  induction changes as [|c rest IH]; intros Hb w.
  - exists Next, w, O, []. simpl. rewrite app_nil_r.
    repeat split; try reflexivity; try lia.
    right. repeat split. constructor.
  - assert (Hrest : fail_stop body call_of rest).
    { intros c' w' Hin. apply Hb. right. exact Hin. }
    specialize (IH Hrest).
    pose proof (Hb c w (or_introl eq_refl)) as Hc.
    cbn [while_changes]. rewrite bind_run.
    destruct (call_of c) as [call|] eqn:Hcall.
    + destruct Hc as (rc & w1 & Hw1 & [[Hrc Hrun]|[Hrc Hrun]]); rewrite Hrun.
      * destruct (IH w1) as (f & w' & n & log & Hr & Hlog & Hn & Hcalls & Hcase).
        exists f, w', (S n), ((call, rc) :: log).
        split; [exact Hr|]. split; [rewrite Hlog, Hw1, <- app_assoc; reflexivity|].
        split; [simpl; lia|].
        split; [cbn [firstn calls_of flat_map map fst]; rewrite Hcall; simpl;
                f_equal; exact Hcalls|].
        destruct Hcase as [[Hf (c' & call' & rc' & log' & H1 & Hnth & Hc' & Hl & Hne & Hall)]
                          |[Hf [Hlen Hall]]].
        -- left. split; [exact Hf|].
           exists c', call', rc', ((call, rc) :: log').
           split; [lia|]. split.
           { destruct n as [|k]; [lia|]. simpl. simpl in Hnth. exact Hnth. }
           split; [exact Hc'|]. split; [rewrite Hl; reflexivity|].
           split; [exact Hne|]. constructor; [exact Hrc | exact Hall].
        -- right. split; [exact Hf|]. split; [simpl; lia|].
           constructor; [exact Hrc | exact Hall].
      * exists (Return SR_ERR_INTERNAL), w1, 1%nat, [(call, rc)].
        split; [reflexivity|]. split; [exact Hw1|]. split; [simpl; lia|].
        split; [cbn [firstn calls_of flat_map map fst]; rewrite Hcall; reflexivity|].
        left. split; [reflexivity|].
        exists c, call, rc, []. repeat split; try reflexivity; try assumption; try lia.
        constructor.
    + rewrite Hc.
      destruct (IH w) as (f & w' & n & log & Hr & Hlog & Hn & Hcalls & Hcase).
      exists f, w', (S n), log.
      split; [exact Hr|]. split; [exact Hlog|]. split; [simpl; lia|].
      split; [cbn [firstn calls_of flat_map]; rewrite Hcall; exact Hcalls|].
      destruct Hcase as [[Hf (c' & call' & rc' & log' & H1 & Hnth & Hc' & Hl & Hne & Hall)]
                        |[Hf [Hlen Hall]]].
      * left. split; [exact Hf|].
        exists c', call', rc', log'.
        split; [lia|]. split.
        { destruct n as [|k]; [lia|]. simpl. simpl in Hnth. exact Hnth. }
        repeat split; assumption.
      * right. split; [exact Hf|]. split; [simpl; lia | exact Hall].
Qed.

Lemma scan_changes_applied (iter : sr_change_iter_t) (body : sr_change -> M flow)
    (call_of : sr_change -> option nc_call) (w0 w : world) :
  fail_stop body call_of (it_changes iter) ->
  it_end iter <> SR_ERR_OK ->
  w_calls w = w_calls w0 ->
  applied_in_order call_of (it_changes iter) (it_end iter) w0 (scan_changes iter body w).
Proof.
  intros Hb Hend Hw.
  destruct (while_changes_fail_stop body call_of (it_changes iter) Hb w)
    as (f & w' & n & log & Hr & Hlog & Hn & Hcalls & Hcase).
  unfold scan_changes. rewrite bind_run, Hr. rewrite Hw in Hlog.
  destruct Hcase as [[Hf Hfail]|[Hf [Hlen Hall]]]; subst f.
  - exists SR_ERR_INTERNAL, w', n, log.
    split; [reflexivity|]. split; [exact Hlog|]. split; [exact Hn|].
    split; [exact Hcalls|]. split; [left; split; [reflexivity | exact Hfail]|].
    split; [discriminate|].
    intros [_ Hall]. destruct Hfail as (c & call & rc' & log' & _ & _ & _ & Hl & Hne & _).
    subst log. unfold all_succeeded in Hall. apply Forall_app in Hall as [_ Hlast].
    inversion Hlast; subst. contradiction.
  - rewrite bind_run. cbn [sr_free_change_iter].
    exists (if sr_error_eq_dec (it_end iter) SR_ERR_NOT_FOUND then SR_ERR_OK else it_end iter),
           (set_iters w' (remove Nat.eq_dec (it_id iter) (w_iters w')) (w_next_iter w')),
           n, log.
    split.
    { destruct (sr_error_eq_dec (it_end iter) SR_ERR_NOT_FOUND); reflexivity. }
    split; [exact Hlog|]. split; [exact Hn|]. split; [exact Hcalls|].
    split; [right; repeat split; assumption|].
    destruct (sr_error_eq_dec (it_end iter) SR_ERR_NOT_FOUND) as [Heq|Hne].
    + split; [intros _; split; assumption | reflexivity].
    + split; [intros Hok; contradiction | intros [Heq _]; contradiction].
Qed.

Lemma scan_subtree_applied (E : environment) (xpath : string)
    (body : sr_change_iter_t -> sr_change -> M flow)
    (call_of : sr_change -> option nc_call) (w : world) :
  cs_open (e_changes E xpath) = SR_ERR_OK ->
  cs_end (e_changes E xpath) <> SR_ERR_OK ->
  (forall iter, fail_stop (body iter) call_of (cs_changes (e_changes E xpath))) ->
  applied_in_order call_of (cs_changes (e_changes E xpath)) (cs_end (e_changes E xpath)) w
    (scan_subtree E xpath body w).
Proof.
  intros Hopen Hend Hb. unfold scan_subtree. rewrite bind_run.
  unfold sr_get_changes_iter. rewrite Hopen.
  destruct (sr_error_eq_dec SR_ERR_OK SR_ERR_OK) as [_|Hne]; [|contradiction].
  destruct (sr_error_eq_dec SR_ERR_OK SR_ERR_OK) as [_|Hne]; [|contradiction].
  apply (scan_changes_applied
           {| it_id := w_next_iter w; it_changes := cs_changes (e_changes E xpath);
              it_end := cs_end (e_changes E xpath) |}).
  - apply Hb.
  - exact Hend.
  - reflexivity.
Qed.

(** A call followed by the check of its code is fail-stop. *)
Lemma checked_call (E : environment) (iter : sr_change_iter_t) (call : nc_call) (w : world) :
  exists rc w1,
    w_calls w1 = w_calls w ++ [(call, rc)] /\
    ((rc = 0 /\ (rc <- nc E call ;; check_rc iter rc) w = Done Next w1) \/
     (rc <> 0 /\ (rc <- nc E call ;; check_rc iter rc) w = Done (Return SR_ERR_INTERNAL) w1)).
Proof.
  rewrite bind_run, nc_run, check_rc_run. unfold nonzero.
  destruct (Z.eqb_spec (e_nc E (w_calls w) call) 0) as [Heq|Hne]; cbn [negb].
  - eexists _, _. split; [|left; split; [exact Heq | reflexivity]]. reflexivity.
  - eexists _, _. split; [|right; split; [exact Hne | reflexivity]]. reflexivity.
Qed.

Lemma resolves_some (depth : nat) (c : sr_change) :
  resolves depth c = true -> exists key, resolve_key depth (ch_node c) = Some key.
Proof.
  unfold resolves. destruct (resolve_key depth (ch_node c)) as [key|]; [|discriminate].
  intros _. exists key. reflexivity.
Qed.

Lemma hostkey_fail_stop (E : environment) (iter : sr_change_iter_t) (changes : list sr_change) :
  forallb (fun c => resolves 4 c && resolves 0 c) changes = true ->
  fail_stop (np2srv_endpt_ssh_hostkey_change E iter) hostkey_call changes.
Proof.
  intros Hs c w Hin. rewrite forallb_forall in Hs. specialize (Hs c Hin).
  apply andb_true_iff in Hs as [H4 H0].
  destruct (resolves_some 4 c H4) as [endpt He], (resolves_some 0 c H0) as [key Hk].
  unfold hostkey_call, np2srv_endpt_ssh_hostkey_change. rewrite He, Hk.
  rewrite bind_run, resolve_run, He.
  destruct (ch_op c).
  - rewrite bind_run, bind_run, key_of_run, Hk. apply checked_call.
  - reflexivity.
  - rewrite bind_run, bind_run, key_of_run, Hk. apply checked_call.
  - rewrite bind_run, bind_run, key_of_run, Hk. apply checked_call.
Qed.

Lemma ch_hostkey_fail_stop (E : environment) (iter : sr_change_iter_t)
    (changes : list sr_change) :
  forallb (fun c => resolves 4 c && resolves 6 c && resolves 0 c) changes = true ->
  fail_stop (np2srv_ch_endpt_ssh_hostkey_change E iter) ch_hostkey_call changes.
Proof.
  intros Hs c w Hin. rewrite forallb_forall in Hs. specialize (Hs c Hin).
  apply andb_true_iff in Hs as [Hs H0]. apply andb_true_iff in Hs as [H4 H6].
  destruct (resolves_some 4 c H4) as [endpt He], (resolves_some 6 c H6) as [client Hc],
    (resolves_some 0 c H0) as [key Hk].
  unfold ch_hostkey_call, np2srv_ch_endpt_ssh_hostkey_change. rewrite He, Hc, Hk.
  rewrite bind_run, resolve_run, He, bind_run, resolve_run, Hc.
  destruct (ch_op c).
  - rewrite bind_run, bind_run, key_of_run, Hk. apply checked_call.
  - reflexivity.
  - rewrite bind_run, bind_run, key_of_run, Hk. apply checked_call.
  - rewrite bind_run, bind_run, key_of_run, Hk. apply checked_call.
Qed.

Lemma idle_timeout_fail_stop (changes : list sr_change) :
  fail_stop np2srv_idle_timeout_change idle_timeout_call changes.
Proof.
  intros c w _. unfold idle_timeout_call, np2srv_idle_timeout_change.
  destruct (ch_op c); try reflexivity;
    (eexists 0, _; split; [|left; split; reflexivity]; reflexivity).
Qed.

Lemma periodic_fail_stop (E : environment) (client : string) (iter : sr_change_iter_t)
    (changes : list sr_change) :
  fail_stop (np2srv_ch_periodic_connection_change E client iter) (periodic_call E client) changes.
Proof.
  intros c w _. unfold periodic_call, np2srv_ch_periodic_connection_change.
  destruct (streq (schema_name (ch_node c)) "period");
    [destruct (ch_op c); apply checked_call|].
  destruct (streq (schema_name (ch_node c)) "anchor-time");
    [destruct (ch_op c); apply checked_call|].
  destruct (streq (schema_name (ch_node c)) "idle-timeout");
    [destruct (ch_op c); apply checked_call|].
  reflexivity.
Qed.

(** The callbacks that scan their own subtree and make one checked call for
    a change: the host keys of listening and call-home endpoints, the idle
    timeout and the parameters of a periodic connection. *)
Lemma subtree_applied_in_order (E : environment) (xpath : string) (w : world) :
  cs_open (e_changes E xpath) = SR_ERR_OK ->
  cs_end (e_changes E xpath) <> SR_ERR_OK ->
  (forallb (fun c => resolves 4 c && resolves 0 c) (cs_changes (e_changes E xpath)) = true ->
   applied_in_order hostkey_call (cs_changes (e_changes E xpath))
     (cs_end (e_changes E xpath)) w (np2srv_endpt_ssh_hostkey_cb E xpath w)) /\
  (forallb (fun c => resolves 4 c && resolves 6 c && resolves 0 c)
     (cs_changes (e_changes E xpath)) = true ->
   applied_in_order ch_hostkey_call (cs_changes (e_changes E xpath))
     (cs_end (e_changes E xpath)) w (np2srv_ch_endpt_ssh_hostkey_cb E xpath w)) /\
  applied_in_order idle_timeout_call (cs_changes (e_changes E xpath))
    (cs_end (e_changes E xpath)) w (np2srv_idle_timeout_cb E xpath w) /\
  (forall client,
      applied_in_order (periodic_call E client) (cs_changes (e_changes E xpath))
        (cs_end (e_changes E xpath)) w (np2srv_ch_periodic_connection_params E client xpath w)).
Proof.
  intros Hopen Hend. split; [|split; [|split]].
  - intros Hs. apply scan_subtree_applied; try assumption.
    intros iter. apply hostkey_fail_stop. exact Hs.
  - intros Hs. apply scan_subtree_applied; try assumption.
    intros iter. apply ch_hostkey_fail_stop. exact Hs.
  - apply (scan_subtree_applied E xpath (fun _ => np2srv_idle_timeout_change)); try assumption.
    intros iter. apply idle_timeout_fail_stop.
  - intros client. apply scan_subtree_applied; try assumption.
    intros iter. apply periodic_fail_stop.
Qed.


Lemma scan_children_applied (E : environment) (xpath : string)
    (body : sr_change_iter_t -> sr_change -> M flow)
    (call_of : sr_change -> option nc_call) (w : world) :
  e_alloc E (w_allocs w) = true ->
  cs_open (e_changes E (xpath ++ "/*")%string) = SR_ERR_OK ->
  cs_end (e_changes E (xpath ++ "/*")%string) <> SR_ERR_OK ->
  (forall iter, fail_stop (body iter) call_of (cs_changes (e_changes E (xpath ++ "/*")%string))) ->
  applied_in_order call_of (cs_changes (e_changes E (xpath ++ "/*")%string))
    (cs_end (e_changes E (xpath ++ "/*")%string)) w (scan_children E xpath body w).
Proof.
  intros Ha Hopen Hend Hb. unfold scan_children.
  rewrite bind_run, asprintf_run, Ha, bind_run.
  unfold sr_get_changes_iter. rewrite Hopen.
  destruct (sr_error_eq_dec SR_ERR_OK SR_ERR_OK) as [_|Hne]; [|contradiction].
  destruct (sr_error_eq_dec SR_ERR_OK SR_ERR_OK) as [_|Hne]; [|contradiction].
  match goal with
  | |- applied_in_order _ _ _ _ (scan_changes ?it _ _) =>
      apply (scan_changes_applied it); [apply Hb | exact Hend | reflexivity]
  end.
Qed.

Lemma auth_params_fail_stop (E : environment) (iter : sr_change_iter_t)
    (changes : list sr_change) :
  forallb (resolves 4) changes = true ->
  fail_stop (np2srv_endpt_ssh_keepalives_change E iter) auth_params_call changes.
Proof.
  intros Hs c w Hin. rewrite forallb_forall in Hs. specialize (Hs c Hin).
  destruct (resolves_some 4 c Hs) as [endpt He].
  unfold auth_params_call, np2srv_endpt_ssh_keepalives_change. rewrite He.
  rewrite bind_run, resolve_run, He.
  destruct (streq (schema_name (ch_node c)) "max-wait");
    [destruct (ch_op c); apply checked_call|].
  destruct (streq (schema_name (ch_node c)) "max-attempts");
    [destruct (ch_op c); apply checked_call|].
  reflexivity.
Qed.

Lemma ch_auth_params_fail_stop (E : environment) (iter : sr_change_iter_t)
    (changes : list sr_change) :
  forallb (fun c => resolves 4 c && resolves 6 c) changes = true ->
  fail_stop (np2srv_ch_endpt_ssh_keepalives_change E iter) ch_auth_params_call changes.
Proof.
  intros Hs c w Hin. rewrite forallb_forall in Hs. specialize (Hs c Hin).
  apply andb_true_iff in Hs as [H4 H6].
  destruct (resolves_some 4 c H4) as [endpt He], (resolves_some 6 c H6) as [client Hc].
  unfold ch_auth_params_call, np2srv_ch_endpt_ssh_keepalives_change. rewrite He, Hc.
  rewrite bind_run, resolve_run, He, bind_run, resolve_run, Hc.
  destruct (streq (schema_name (ch_node c)) "max-wait");
    [destruct (ch_op c); apply checked_call|].
  destruct (streq (schema_name (ch_node c)) "max-attempts");
    [destruct (ch_op c); apply checked_call|].
  reflexivity.
Qed.

Lemma reconnect_fail_stop (E : environment) (iter : sr_change_iter_t)
    (changes : list sr_change) :
  forallb (resolves 2) changes = true ->
  fail_stop (np2srv_ch_reconnect_strategy_change E iter) reconnect_call changes.
Proof.
  intros Hs c w Hin. rewrite forallb_forall in Hs. specialize (Hs c Hin).
  destruct (resolves_some 2 c Hs) as [client Hc].
  unfold reconnect_call, np2srv_ch_reconnect_strategy_change. rewrite Hc.
  rewrite bind_run, resolve_run, Hc.
  destruct (streq (schema_name (ch_node c)) "start-with").
  - destruct (ch_op c); try apply checked_call;
      (destruct (streq (value_str (ch_node c)) "first-listed"); [apply checked_call|];
       destruct (streq (value_str (ch_node c)) "last-connected"); [apply checked_call|];
       destruct (streq (value_str (ch_node c)) "random-selection"); [apply checked_call|];
       reflexivity).
  - destruct (streq (schema_name (ch_node c)) "max-attempts");
      [destruct (ch_op c); apply checked_call|].
    reflexivity.
Qed.

(** The same for the callbacks that scan the children of their subtree and
    make one checked call for a change: the authentication timeout and
    attempts of listening and call-home endpoints and the reconnect strategy,
    once the path of the scan is allocated. *)
Lemma children_applied_in_order (E : environment) (xpath : string) (w : world) :
  e_alloc E (w_allocs w) = true ->
  cs_open (e_changes E (xpath ++ "/*")%string) = SR_ERR_OK ->
  cs_end (e_changes E (xpath ++ "/*")%string) <> SR_ERR_OK ->
  (forallb (resolves 4) (cs_changes (e_changes E (xpath ++ "/*")%string)) = true ->
   applied_in_order auth_params_call (cs_changes (e_changes E (xpath ++ "/*")%string))
     (cs_end (e_changes E (xpath ++ "/*")%string)) w
     (np2srv_endpt_ssh_keepalives_cb E xpath w)) /\
  (forallb (fun c => resolves 4 c && resolves 6 c)
     (cs_changes (e_changes E (xpath ++ "/*")%string)) = true ->
   applied_in_order ch_auth_params_call (cs_changes (e_changes E (xpath ++ "/*")%string))
     (cs_end (e_changes E (xpath ++ "/*")%string)) w
     (np2srv_ch_endpt_ssh_keepalives_cb E xpath w)) /\
  (forallb (resolves 2) (cs_changes (e_changes E (xpath ++ "/*")%string)) = true ->
   applied_in_order reconnect_call (cs_changes (e_changes E (xpath ++ "/*")%string))
     (cs_end (e_changes E (xpath ++ "/*")%string)) w
     (np2srv_ch_reconnect_strategy_cb E xpath w)).
Proof.
  intros Ha Hopen Hend. split; [|split]; intros Hs.
  - apply scan_children_applied; try assumption.
    intros iter. apply auth_params_fail_stop. exact Hs.
  - apply scan_children_applied; try assumption.
    intros iter. apply ch_auth_params_fail_stop. exact Hs.
  - apply scan_children_applied; try assumption.
    intros iter. apply reconnect_fail_stop. exact Hs.
Qed.

(** With [k2] refused: [k1] stays added, [k3] is never tried, and the callback
    returns [SR_ERR_INTERNAL]. *)
Example hostkey_partial_reconciliation :
  let r := np2srv_endpt_ssh_hostkey_cb (refuses_k2 (with_changes three_hostkeys quiet))
             hostkey_xpath_listen world0 in
  value_of r = Some SR_ERR_INTERNAL /\
  w_calls (world_of r) =
  [(nc_server_ssh_endpt_add_hostkey "ep1" "k1" (-1), 0);
   (nc_server_ssh_endpt_add_hostkey "ep1" "k2" (-1), -1)] /\
  w_iters (world_of r) = [].
Proof. repeat split. Qed.


(* ------------------------------------------------------------------ *)
(** ** Scalar/default reconciler: results *)


Lemma skipn_calls_nil (w : world) : skipn (List.length (w_calls w)) (w_calls w) = [].
Proof. apply skipn_all. Qed.

(** The one call of [np2srv_tcp_keepalives] carries the three locals as the
    loop left them. *)
Lemma tcp_keepalives_calls (E : environment) (client_name : option string)
    (endpt xpath : string) (changes : list sr_change) (w : world) :
  e_changes E xpath =
    {| cs_open := SR_ERR_OK; cs_changes := changes; cs_end := SR_ERR_NOT_FOUND |} ->
  map fst (new_calls (np2srv_tcp_keepalives E client_name endpt xpath) w) =
  let '(idle_time, max_probes, probe_interval) :=
    fold_left np2srv_tcp_keepalives_change changes (-1, -1, -1) in
  [set_keepalives_call client_name endpt idle_time max_probes probe_interval].
Proof.
  intros Hch. unfold new_calls, np2srv_tcp_keepalives.
  rewrite bind_run. unfold sr_get_changes_iter. rewrite Hch. cbn [cs_open cs_changes cs_end].
  destruct (sr_error_eq_dec SR_ERR_OK SR_ERR_OK) as [_|Hne]; [|contradiction].
  destruct (sr_error_eq_dec SR_ERR_OK SR_ERR_OK) as [_|Hne]; [|contradiction].
  cbn [it_changes it_end].
  destruct (fold_left np2srv_tcp_keepalives_change changes (-1, -1, -1)) as [[i m] p].
  rewrite bind_run. cbn [sr_free_change_iter].
  destruct (sr_error_eq_dec SR_ERR_NOT_FOUND SR_ERR_NOT_FOUND) as [_|Hne]; [|contradiction].
  rewrite bind_run.
  destruct client_name as [client|]; rewrite nc_run; wsimpl; cbn [set_keepalives_call];
    match goal with
    | |- context [if ?b then _ else _] => destruct b
    end; unfold ret; cbn [world_of]; wsimpl; rewrite skipn_app_length; reflexivity.
Qed.

(** The trace of a body that makes one call and checks its code. *)
Ltac one_call :=
  rewrite ?bind_run, ?nc_run, ?check_rc_calls; wsimpl;
  rewrite skipn_app_length; reflexivity.

(** The trace of a body that makes no call. *)
Ltac no_call :=
  unfold ret; rewrite ?check_rc_calls; cbn [world_of]; rewrite ?skipn_calls_nil; reflexivity.

Lemma auth_params_deleted (E : environment) (iter : sr_change_iter_t) (c : sr_change)
    (w : world) (endpt : string) :
  ch_op c = SR_OP_DELETED ->
  resolve_key 4 (ch_node c) = Some endpt ->
  (schema_name (ch_node c) = "max-wait" ->
   map fst (new_calls (np2srv_endpt_ssh_keepalives_change E iter c) w) =
   [nc_server_ssh_endpt_set_auth_timeout endpt 30]) /\
  (schema_name (ch_node c) = "max-attempts" ->
   map fst (new_calls (np2srv_endpt_ssh_keepalives_change E iter c) w) =
   [nc_server_ssh_endpt_set_auth_attempts endpt 3]).
Proof.
  intros Hop Hk.
  split; intros Hn; unfold new_calls, np2srv_endpt_ssh_keepalives_change;
    rewrite bind_run, resolve_run, Hk, Hn, Hop; streq_eval; one_call.
Qed.

Lemma ch_auth_params_deleted (E : environment) (iter : sr_change_iter_t) (c : sr_change)
    (w : world) (endpt client : string) :
  ch_op c = SR_OP_DELETED ->
  resolve_key 4 (ch_node c) = Some endpt ->
  resolve_key 6 (ch_node c) = Some client ->
  (schema_name (ch_node c) = "max-wait" ->
   map fst (new_calls (np2srv_ch_endpt_ssh_keepalives_change E iter c) w) =
   [nc_server_ssh_ch_client_endpt_set_auth_timeout client endpt 30]) /\
  (schema_name (ch_node c) = "max-attempts" ->
   map fst (new_calls (np2srv_ch_endpt_ssh_keepalives_change E iter c) w) =
   [nc_server_ssh_ch_client_endpt_set_auth_attempts client endpt 3]).
Proof.
  intros Hop Hk Hc.
  split; intros Hn; unfold new_calls, np2srv_ch_endpt_ssh_keepalives_change;
    rewrite bind_run, resolve_run, Hk, bind_run, resolve_run, Hc, Hn, Hop; streq_eval; one_call.
Qed.

Lemma keepalives_deleted (E : environment) (c : sr_change) (w : world)
    (client_name : option string) (endpt xpath : string) (before : list sr_change) :
  ch_op c = SR_OP_DELETED ->
  e_changes E xpath =
    {| cs_open := SR_ERR_OK; cs_changes := before ++ [c]; cs_end := SR_ERR_NOT_FOUND |} ->
  (schema_name (ch_node c) = "idle-time" ->
   exists m p, map fst (new_calls (np2srv_tcp_keepalives E client_name endpt xpath) w) =
               [set_keepalives_call client_name endpt 1 m p]) /\
  (schema_name (ch_node c) = "max-probes" ->
   exists i p, map fst (new_calls (np2srv_tcp_keepalives E client_name endpt xpath) w) =
               [set_keepalives_call client_name endpt i 10 p]) /\
  (schema_name (ch_node c) = "probe-interval" ->
   exists i m, map fst (new_calls (np2srv_tcp_keepalives E client_name endpt xpath) w) =
               [set_keepalives_call client_name endpt i m 5]).
Proof.
  intros Hop Hch.
  rewrite (tcp_keepalives_calls E client_name endpt xpath _ w Hch), fold_left_app.
  cbn [fold_left].
  destruct (fold_left np2srv_tcp_keepalives_change before (-1, -1, -1)) as [[i m] p].
  unfold np2srv_tcp_keepalives_change.
  split; [|split]; intros Hn; rewrite Hn, Hop; streq_eval; eexists _, _; reflexivity.
Qed.

Lemma periodic_deleted (E : environment) (iter : sr_change_iter_t) (c : sr_change)
    (w : world) (client : string) :
  ch_op c = SR_OP_DELETED ->
  (schema_name (ch_node c) = "period" ->
   map fst (new_calls (np2srv_ch_periodic_connection_change E client iter c) w) =
   [nc_server_ch_client_periodic_set_period client 60]) /\
  (schema_name (ch_node c) = "anchor-time" ->
   map fst (new_calls (np2srv_ch_periodic_connection_change E client iter c) w) =
   [nc_server_ch_client_periodic_set_anchor_time client 0]) /\
  (schema_name (ch_node c) = "idle-timeout" ->
   map fst (new_calls (np2srv_ch_periodic_connection_change E client iter c) w) =
   [nc_server_ch_client_periodic_set_idle_timeout client 120]).
Proof.
  intros Hop.
  split; [|split]; intros Hn; unfold new_calls, np2srv_ch_periodic_connection_change;
    rewrite Hn, Hop; streq_eval; one_call.
Qed.

Lemma reconnect_deleted (E : environment) (iter : sr_change_iter_t) (c : sr_change)
    (w : world) (client : string) :
  ch_op c = SR_OP_DELETED ->
  resolve_key 2 (ch_node c) = Some client ->
  (schema_name (ch_node c) = "start-with" ->
   map fst (new_calls (np2srv_ch_reconnect_strategy_change E iter c) w) =
   [nc_server_ch_client_set_start_with client NC_CH_FIRST_LISTED]) /\
  (schema_name (ch_node c) = "max-attempts" ->
   map fst (new_calls (np2srv_ch_reconnect_strategy_change E iter c) w) =
   [nc_server_ch_client_set_max_attempts client 3]).
Proof.
  intros Hop Hk.
  split; intros Hn; unfold new_calls, np2srv_ch_reconnect_strategy_change;
    rewrite bind_run, resolve_run, Hk, Hn, Hop; streq_eval; one_call.
Qed.

(** The leaves whose deletion is ignored. *)
Lemma ignored_deleted (E : environment) (xpath : string) (iter : sr_change_iter_t)
    (c : sr_change) (w : world) :
  ch_op c = SR_OP_DELETED ->
  new_calls (np2srv_idle_timeout_change c) w = [] /\
  (schema_name (ch_node c) = "local-address" \/ schema_name (ch_node c) = "local-port" ->
   new_calls (np2srv_endpt_tcp_params_change E xpath iter c) w = []) /\
  (schema_name (ch_node c) = "remote-address" \/ schema_name (ch_node c) = "remote-port" ->
   new_calls (np2srv_ch_client_endpt_tcp_params_change E xpath iter c) w = []).
Proof.
  intros Hop. split; [|split].
  - unfold new_calls, np2srv_idle_timeout_change. rewrite Hop. no_call.
  - intros Hn. unfold new_calls, np2srv_endpt_tcp_params_change.
    rewrite bind_run, resolve_run.
    destruct (resolve_key 3 (ch_node c)); [|no_call].
    destruct Hn as [Hn|Hn]; rewrite Hn, Hop; streq_eval; no_call.
  - intros Hn. unfold new_calls, np2srv_ch_client_endpt_tcp_params_change.
    rewrite bind_run, resolve_run.
    destruct (resolve_key 3 (ch_node c)); [|no_call].
    rewrite bind_run, resolve_run.
    destruct (resolve_key 5 (ch_node c)); [|no_call].
    destruct Hn as [Hn|Hn]; rewrite Hn, Hop; streq_eval; no_call.
Qed.



(* ------------------------------------------------------------------ *)
(** ** Change-set scanner: callbacks with several calls for a change *)

Lemma while_changes_turns (body : sr_change -> M flow) (decisive : nc_call -> bool)
    (changes : list sr_change) :
  fail_stop_turn body decisive changes ->
  forall w, exists f w' elogs,
    while_changes body changes w = Done f w' /\
    w_calls w' = w_calls w ++ List.concat elogs /\
    (List.length elogs <= List.length changes)%nat /\
    Forall2 (fun c elog => exists w0, new_calls (body c) w0 = elog)
      (firstn (List.length elogs) changes) elogs /\
    Forall (turn_ok decisive) (removelast elogs) /\
    ((f = Next /\ List.length elogs = List.length changes /\
      Forall (turn_ok decisive) elogs) \/
     (exists rc, f = Return rc /\ elogs <> [] /\ rc <> SR_ERR_OK /\
        ((turn_failed decisive (last elogs []) /\ rc = SR_ERR_INTERNAL) \/
         turn_ok decisive (last elogs [])))).
Proof.
  induction changes as [|c rest IH]; intros Hb w.
  - exists Next, w, []. simpl. rewrite app_nil_r.
    split; [reflexivity|]. split; [reflexivity|]. split; [lia|].
    split; [constructor|]. split; [constructor|].
    left. split; [reflexivity|]. split; [reflexivity | constructor].
  - assert (Hrest : fail_stop_turn body decisive rest).
    { intros c' w' Hin. apply Hb. right. exact Hin. }
    specialize (IH Hrest).
    destruct (Hb c w (or_introl eq_refl)) as (f1 & w1 & elog & Hrun & Hw1 & Hcase).
    assert (Hturn : exists w0, new_calls (body c) w0 = elog).
    { exists w. unfold new_calls. rewrite Hrun. cbn [world_of].
      rewrite Hw1. apply skipn_app_length. }
    cbn [while_changes]. rewrite bind_run, Hrun.
    unfold turn_outcome in Hcase.
    destruct Hcase as [[Hf Hok]|[[Hf Hfail]|(rc & Hf & Hrc & Hok)]]; subst f1.
    + destruct (IH w1) as (f & w' & elogs & Hr & Hlog & Hn & Hturns & Hpre & Hcase).
      exists f, w', (elog :: elogs).
      split; [exact Hr|].
      split; [rewrite Hlog, Hw1, <- app_assoc; reflexivity|].
      split; [simpl; lia|].
      split; [cbn [List.length firstn]; constructor; assumption|].
      split.
      { destruct elogs as [|e1 elogs1]; [constructor|].
        change (removelast (elog :: e1 :: elogs1)) with (elog :: removelast (e1 :: elogs1)).
        constructor; assumption. }
      destruct Hcase as [(Hf & Hlen & Hall)|(rc & Hf & Hne & Hrc & Hlast)].
      * left. split; [exact Hf|]. split; [simpl; lia|]. constructor; assumption.
      * right. exists rc. split; [exact Hf|]. split; [discriminate|]. split; [exact Hrc|].
        destruct elogs as [|e1 elogs1]; [contradiction|].
        change (last (elog :: e1 :: elogs1) []) with (last (e1 :: elogs1) []).
        exact Hlast.
    + exists (Return SR_ERR_INTERNAL), w1, [elog].
      split; [reflexivity|]. split; [simpl; rewrite app_nil_r; exact Hw1|].
      split; [simpl; lia|].
      split; [cbn [List.length firstn]; constructor; [exact Hturn | constructor]|].
      split; [constructor|].
      right. exists SR_ERR_INTERNAL. split; [reflexivity|]. split; [discriminate|].
      split; [discriminate|]. left. split; [exact Hfail | reflexivity].
    + exists (Return rc), w1, [elog].
      split; [reflexivity|]. split; [simpl; rewrite app_nil_r; exact Hw1|].
      split; [simpl; lia|].
      split; [cbn [List.length firstn]; constructor; [exact Hturn | constructor]|].
      split; [constructor|].
      right. exists rc. split; [reflexivity|]. split; [discriminate|].
      split; [exact Hrc|]. right. exact Hok.
Qed.

Lemma scan_changes_scanned (iter : sr_change_iter_t)
    (body : sr_change_iter_t -> sr_change -> M flow)
    (decisive : nc_call -> bool) (w0 w : world) :
  fail_stop_turn (body iter) decisive (it_changes iter) ->
  it_end iter <> SR_ERR_OK ->
  w_calls w = w_calls w0 ->
  scanned_in_order body decisive (it_changes iter) (it_end iter) w0
    (scan_changes iter (body iter) w).
Proof.
  intros Hb Hend Hw.
  destruct (while_changes_turns (body iter) decisive (it_changes iter) Hb w)
    as (f & w' & elogs & Hr & Hlog & Hn & Hturns0 & Hpre & Hcase).
  assert (Hturns : turns_of body (it_changes iter) elogs).
  { unfold turns_of. eapply Forall2_impl; [|exact Hturns0].
    intros c elog [w1 H1]. exists iter, w1. exact H1. }
  unfold scan_changes. rewrite bind_run, Hr. rewrite Hw in Hlog.
  destruct Hcase as [(Hf & Hlen & Hall)|(rc & Hf & Hne & Hrc & Hlast)]; subst f.
  - rewrite bind_run. cbn [sr_free_change_iter].
    exists (if sr_error_eq_dec (it_end iter) SR_ERR_NOT_FOUND then SR_ERR_OK else it_end iter),
           (set_iters w' (remove Nat.eq_dec (it_id iter) (w_iters w')) (w_next_iter w')),
           elogs, true.
    split.
    { destruct (sr_error_eq_dec (it_end iter) SR_ERR_NOT_FOUND); reflexivity. }
    split; [exact Hlog|]. split; [exact Hn|]. split; [exact Hturns|]. split; [exact Hpre|].
    split; [right; repeat split; assumption|].
    destruct (sr_error_eq_dec (it_end iter) SR_ERR_NOT_FOUND) as [Heq|Hneq].
    + split; [intros _; repeat split; assumption | reflexivity].
    + split; [intros Hok; contradiction | intros (_ & Heq & _); contradiction].
  - exists rc, w', elogs, false.
    split; [reflexivity|]. split; [exact Hlog|]. split; [exact Hn|].
    split; [exact Hturns|]. split; [exact Hpre|].
    split; [left; repeat split; assumption|].
    split; [intros Hok; contradiction | intros (Hf & _); discriminate].
Qed.

Lemma scan_subtree_scanned (E : environment) (xpath : string)
    (body : sr_change_iter_t -> sr_change -> M flow)
    (decisive : nc_call -> bool) (w : world) :
  cs_open (e_changes E xpath) = SR_ERR_OK ->
  cs_end (e_changes E xpath) <> SR_ERR_OK ->
  (forall iter, fail_stop_turn (body iter) decisive (cs_changes (e_changes E xpath))) ->
  scanned_in_order body decisive (cs_changes (e_changes E xpath))
    (cs_end (e_changes E xpath)) w (scan_subtree E xpath body w).
Proof.
  intros Hopen Hend Hb. unfold scan_subtree. rewrite bind_run.
  unfold sr_get_changes_iter. rewrite Hopen.
  destruct (sr_error_eq_dec SR_ERR_OK SR_ERR_OK) as [_|Hne]; [|contradiction].
  destruct (sr_error_eq_dec SR_ERR_OK SR_ERR_OK) as [_|Hne]; [|contradiction].
  apply (scan_changes_scanned
           {| it_id := w_next_iter w; it_changes := cs_changes (e_changes E xpath);
              it_end := cs_end (e_changes E xpath) |} body).
  - apply Hb.
  - exact Hend.
  - reflexivity.
Qed.

Lemma scan_children_scanned (E : environment) (xpath : string)
    (body : sr_change_iter_t -> sr_change -> M flow)
    (decisive : nc_call -> bool) (w : world) :
  e_alloc E (w_allocs w) = true ->
  cs_open (e_changes E (xpath ++ "/*")%string) = SR_ERR_OK ->
  cs_end (e_changes E (xpath ++ "/*")%string) <> SR_ERR_OK ->
  (forall iter,
      fail_stop_turn (body iter) decisive (cs_changes (e_changes E (xpath ++ "/*")%string))) ->
  scanned_in_order body decisive (cs_changes (e_changes E (xpath ++ "/*")%string))
    (cs_end (e_changes E (xpath ++ "/*")%string)) w (scan_children E xpath body w).
Proof.
  intros Ha Hopen Hend Hb. unfold scan_children.
  rewrite bind_run, asprintf_run, Ha, bind_run.
  unfold sr_get_changes_iter. rewrite Hopen.
  destruct (sr_error_eq_dec SR_ERR_OK SR_ERR_OK) as [_|Hne]; [|contradiction].
  destruct (sr_error_eq_dec SR_ERR_OK SR_ERR_OK) as [_|Hne]; [|contradiction].
  match goal with
  | |- scanned_in_order _ _ _ _ _ (scan_changes ?it _ _) =>
      apply (scan_changes_scanned it body); [apply Hb | exact Hend | reflexivity]
  end.
Qed.

Lemma checked_turn (E : environment) (iter : sr_change_iter_t) (decisive : nc_call -> bool)
    (call : nc_call) (w : world) :
  decisive call = true ->
  exists f w1 elog,
    (rc <- nc E call ;; check_rc iter rc) w = Done f w1 /\
    w_calls w1 = w_calls w ++ elog /\
    turn_outcome decisive f elog.
Proof.
  intros Hd. rewrite bind_run, nc_run, check_rc_run. unfold nonzero.
  destruct (Z.eqb_spec (e_nc E (w_calls w) call) 0) as [Heq|Hne]; cbn [negb].
  - eexists _, _, [(call, _)]. split; [reflexivity|]. split; [reflexivity|].
    left. split; [reflexivity|]. constructor; [intros _; exact Heq | constructor].
  - eexists _, _, [(call, _)]. split; [reflexivity|]. split; [reflexivity|].
    right. left. split; [reflexivity|]. constructor. split; assumption.
Qed.

Lemma skipped_turn (decisive : nc_call -> bool) (w : world) :
  exists f w1 elog,
    Done Next w = Done f w1 /\ w_calls w1 = w_calls w ++ elog /\ turn_outcome decisive f elog.
Proof.
  exists Next, w, []. split; [reflexivity|]. split; [rewrite app_nil_r; reflexivity|].
  left. split; [reflexivity | constructor].
Qed.

(** A fail-stop body with one call for a change is fail-stop by turns. *)
Lemma fail_stop_is_turn (body : sr_change -> M flow) (call_of : sr_change -> option nc_call)
    (changes : list sr_change) :
  fail_stop body call_of changes -> fail_stop_turn body all_decisive changes.
Proof.
  intros H c w Hin. specialize (H c w Hin).
  destruct (call_of c) as [call|].
  - destruct H as (rc & w1 & Hw1 & [[Hrc Hrun]|[Hrc Hrun]]).
    + exists Next, w1, [(call, rc)]. split; [exact Hrun|]. split; [exact Hw1|].
      left. split; [reflexivity|]. constructor; [intros _; exact Hrc | constructor].
    + exists (Return SR_ERR_INTERNAL), w1, [(call, rc)].
      split; [exact Hrun|]. split; [exact Hw1|].
      right. left. split; [reflexivity|]. constructor. split; [reflexivity | exact Hrc].
  - rewrite H. apply skipped_turn.
Qed.

Lemma endpt_ssh_turn (E : environment) (iter : sr_change_iter_t) (changes : list sr_change) :
  forallb (resolves 1) changes = true ->
  fail_stop_turn (np2srv_endpt_ssh_change E iter) lifecycle_decisive changes.
Proof.
  intros Hs c w Hin. rewrite forallb_forall in Hs. specialize (Hs c Hin).
  destruct (resolves_some 1 c Hs) as [endpt He].
  unfold np2srv_endpt_ssh_change. rewrite bind_run, resolve_run, He.
  destruct (ch_op c).
  - rewrite bind_run, bind_run, nc_run, bind_run, nc_run. unfold ret.
    rewrite check_rc_run. unfold nonzero. wsimpl.
    destruct (Z.eqb_spec (e_nc E (w_calls w) (nc_server_add_endpt endpt NC_TI_LIBSSH)) 0)
      as [Heq|Hne]; cbn [negb].
    + eexists _, _, [(_, _); (_, _)]. split; [reflexivity|].
      split; [wsimpl; rewrite <- app_assoc; reflexivity|].
      left. split; [reflexivity|].
      constructor; [intros _; exact Heq|]. constructor; [discriminate | constructor].
    + eexists _, _, [(_, _); (_, _)]. split; [reflexivity|].
      split; [wsimpl; rewrite <- app_assoc; reflexivity|].
      right. left. split; [reflexivity|]. constructor. split; [reflexivity | exact Hne].
  - rewrite bind_run. unfold ret. rewrite check_rc_run. apply skipped_turn.
  - apply checked_turn. reflexivity.
  - rewrite bind_run. unfold ret. rewrite check_rc_run. apply skipped_turn.
Qed.

Lemma ch_client_endpt_ssh_turn (E : environment) (iter : sr_change_iter_t)
    (changes : list sr_change) :
  forallb (fun c => resolves 1 c && resolves 3 c) changes = true ->
  fail_stop_turn (np2srv_ch_client_endpt_ssh_change E iter) lifecycle_decisive changes.
Proof.
  intros Hs c w Hin. rewrite forallb_forall in Hs. specialize (Hs c Hin).
  apply andb_true_iff in Hs as [H1 H3].
  destruct (resolves_some 1 c H1) as [endpt He], (resolves_some 3 c H3) as [client Hc].
  unfold np2srv_ch_client_endpt_ssh_change.
  rewrite bind_run, resolve_run, He, bind_run, resolve_run, Hc.
  destruct (ch_op c).
  - rewrite bind_run, bind_run, nc_run, bind_run, nc_run. unfold ret.
    rewrite check_rc_run. unfold nonzero. wsimpl.
    destruct (Z.eqb_spec (e_nc E (w_calls w)
                            (nc_server_ch_client_add_endpt client endpt NC_TI_LIBSSH)) 0)
      as [Heq|Hne]; cbn [negb].
    + eexists _, _, [(_, _); (_, _)]. split; [reflexivity|].
      split; [wsimpl; rewrite <- app_assoc; reflexivity|].
      left. split; [reflexivity|].
      constructor; [intros _; exact Heq|]. constructor; [discriminate | constructor].
    + eexists _, _, [(_, _); (_, _)]. split; [reflexivity|].
      split; [wsimpl; rewrite <- app_assoc; reflexivity|].
      right. left. split; [reflexivity|]. constructor. split; [reflexivity | exact Hne].
  - rewrite bind_run. unfold ret. rewrite check_rc_run. apply skipped_turn.
  - apply checked_turn. reflexivity.
  - rewrite bind_run. unfold ret. rewrite check_rc_run. apply skipped_turn.
Qed.

Lemma ch_client_turn (E : environment) (iter : sr_change_iter_t) (changes : list sr_change) :
  forallb (resolves 0) changes = true ->
  fail_stop_turn (np2srv_ch_client_change E iter) all_decisive changes.
Proof.
  intros Hs c w Hin. rewrite forallb_forall in Hs. specialize (Hs c Hin).
  destruct (resolves_some 0 c Hs) as [client Hc].
  unfold np2srv_ch_client_change. rewrite bind_run, key_of_run, Hc.
  destruct (ch_op c).
  - rewrite bind_run, bind_run, nc_run. unfold nonzero at 1.
    destruct (Z.eqb_spec (e_nc E (w_calls w) (nc_server_ch_add_client client)) 0)
      as [Heq|Hne]; cbn [negb].
    + rewrite nc_run, check_rc_run. unfold nonzero. wsimpl.
      match goal with
      | |- context [e_nc E ?h (nc_connect_ch_client_dispatch client)] =>
          destruct (Z.eqb_spec (e_nc E h (nc_connect_ch_client_dispatch client)) 0)
            as [Heq2|Hne2]; cbn [negb]
      end.
      * eexists _, _, [(_, _); (_, _)]. split; [reflexivity|].
        split; [wsimpl; rewrite <- app_assoc; reflexivity|].
        left. split; [reflexivity|].
        constructor; [intros _; exact Heq|]. constructor; [intros _; exact Heq2 | constructor].
      * eexists _, _, [(_, _); (_, _)]. split; [reflexivity|].
        split; [wsimpl; rewrite <- app_assoc; reflexivity|].
        right. left. split; [reflexivity|]. apply Exists_cons_tl. constructor.
        split; [reflexivity | exact Hne2].
    + unfold ret. rewrite check_rc_run. unfold nonzero.
      destruct (Z.eqb_spec (e_nc E (w_calls w) (nc_server_ch_add_client client)) 0)
        as [Heq|_]; [contradiction|]. cbn [negb].
      eexists _, _, [(_, _)]. split; [reflexivity|]. split; [reflexivity|].
      right. left. split; [reflexivity|]. constructor. split; [reflexivity | exact Hne].
  - rewrite bind_run. unfold ret. rewrite check_rc_run. apply skipped_turn.
  - apply checked_turn. reflexivity.
  - rewrite bind_run. unfold ret. rewrite check_rc_run. apply skipped_turn.
Qed.

Lemma auth_methods_turn (E : environment) (iter : sr_change_iter_t) (changes : list sr_change) :
  forallb (resolves 5) changes = true ->
  fail_stop_turn (np2srv_endpt_ssh_auth_methods_change E iter) auth_methods_decisive changes.
Proof.
  intros Hs c w Hin. rewrite forallb_forall in Hs. specialize (Hs c Hin).
  destruct (resolves_some 5 c Hs) as [endpt He].
  unfold np2srv_endpt_ssh_auth_methods_change. rewrite bind_run, resolve_run, He.
  rewrite bind_run, nc_run. cbv zeta.
  rewrite bind_run, nc_run, check_rc_run. unfold nonzero. wsimpl.
  match goal with
  | |- context [negb (?x =? 0)] => destruct (Z.eqb_spec x 0) as [Heq|Hne]; cbn [negb]
  end.
  - eexists _, _, [(_, _); (_, _)]. split; [reflexivity|].
    split; [wsimpl; rewrite <- app_assoc; reflexivity|].
    left. split; [reflexivity|].
    constructor; [discriminate|]. constructor; [intros _; exact Heq | constructor].
  - eexists _, _, [(_, _); (_, _)]. split; [reflexivity|].
    split; [wsimpl; rewrite <- app_assoc; reflexivity|].
    right. left. split; [reflexivity|]. apply Exists_cons_tl. constructor.
    split; [reflexivity | exact Hne].
Qed.

Lemma ch_auth_methods_turn (E : environment) (iter : sr_change_iter_t)
    (changes : list sr_change) :
  forallb (fun c => resolves 5 c && resolves 7 c) changes = true ->
  fail_stop_turn (np2srv_ch_endpt_ssh_auth_methods_change E iter) auth_methods_decisive changes.
Proof.
  intros Hs c w Hin. rewrite forallb_forall in Hs. specialize (Hs c Hin).
  apply andb_true_iff in Hs as [H5 H7].
  destruct (resolves_some 5 c H5) as [endpt He], (resolves_some 7 c H7) as [client Hc].
  unfold np2srv_ch_endpt_ssh_auth_methods_change.
  rewrite bind_run, resolve_run, He, bind_run, resolve_run, Hc.
  rewrite bind_run, nc_run. cbv zeta.
  rewrite bind_run, nc_run, check_rc_run. unfold nonzero. wsimpl.
  match goal with
  | |- context [negb (?x =? 0)] => destruct (Z.eqb_spec x 0) as [Heq|Hne]; cbn [negb]
  end.
  - eexists _, _, [(_, _); (_, _)]. split; [reflexivity|].
    split; [wsimpl; rewrite <- app_assoc; reflexivity|].
    left. split; [reflexivity|].
    constructor; [discriminate|]. constructor; [intros _; exact Heq | constructor].
  - eexists _, _, [(_, _); (_, _)]. split; [reflexivity|].
    split; [wsimpl; rewrite <- app_assoc; reflexivity|].
    right. left. split; [reflexivity|]. apply Exists_cons_tl. constructor.
    split; [reflexivity | exact Hne].
Qed.

(** A nested scan seen from the turn that runs it: it returns; with
    [SR_ERR_OK] only when each of its calls returned 0; and with
    [SR_ERR_INTERNAL] when one did not. *)
Lemma tcp_keepalives_outcome (E : environment) (client_name : option string)
    (endpt xpath : string) (w : world) :
  exists rc w1 elog,
    np2srv_tcp_keepalives E client_name endpt xpath w = Done rc w1 /\
    w_calls w1 = w_calls w ++ elog /\
    ((rc = SR_ERR_OK /\ turn_ok all_decisive elog) \/
     (rc = SR_ERR_INTERNAL /\ turn_failed all_decisive elog) \/
     (rc <> SR_ERR_OK /\ turn_ok all_decisive elog)).
Proof.
  unfold np2srv_tcp_keepalives. rewrite bind_run. unfold sr_get_changes_iter.
  destruct (sr_error_eq_dec (cs_open (e_changes E xpath)) SR_ERR_OK) as [Ho|Ho].
  - destruct (sr_error_eq_dec SR_ERR_OK SR_ERR_OK) as [_|Hne]; [|contradiction].
    cbn [it_changes it_end].
    destruct (fold_left np2srv_tcp_keepalives_change (cs_changes (e_changes E xpath))
                (-1, -1, -1)) as [[i m] p].
    rewrite bind_run. cbn [sr_free_change_iter].
    destruct (sr_error_eq_dec (cs_end (e_changes E xpath)) SR_ERR_NOT_FOUND) as [He|He].
    + rewrite bind_run.
      destruct client_name as [client|]; rewrite nc_run; wsimpl; unfold nonzero;
        match goal with
        | |- context [negb (?x =? 0)] => destruct (Z.eqb_spec x 0) as [Heq|Hne]; cbn [negb]
        end; unfold ret.
      * eexists _, _, [(_, _)]. split; [reflexivity|]. split; [reflexivity|].
        left. split; [reflexivity|]. constructor; [intros _; exact Heq | constructor].
      * eexists _, _, [(_, _)]. split; [reflexivity|]. split; [reflexivity|].
        right. left. split; [reflexivity|]. constructor. split; [reflexivity | exact Hne].
      * eexists _, _, [(_, _)]. split; [reflexivity|]. split; [reflexivity|].
        left. split; [reflexivity|]. constructor; [intros _; exact Heq | constructor].
      * eexists _, _, [(_, _)]. split; [reflexivity|]. split; [reflexivity|].
        right. left. split; [reflexivity|]. constructor. split; [reflexivity | exact Hne].
    + unfold ret. eexists _, _, []. split; [reflexivity|].
      split; [wsimpl; rewrite app_nil_r; reflexivity|].
      destruct (sr_error_eq_dec (cs_end (e_changes E xpath)) SR_ERR_OK) as [Hk|Hk].
      * left. split; [exact Hk | constructor].
      * right. right. split; [exact Hk | constructor].
  - destruct (sr_error_eq_dec (cs_open (e_changes E xpath)) SR_ERR_OK) as [Hk|_];
      [contradiction|].
    unfold ret. eexists _, _, []. split; [reflexivity|].
    split; [rewrite app_nil_r; reflexivity|].
    right. right. split; [exact Ho | constructor].
Qed.

Lemma turn_ok_concat (decisive : nc_call -> bool) (elogs : list (list (nc_call * Z))) :
  Forall (turn_ok decisive) elogs -> turn_ok decisive (List.concat elogs).
Proof.
  induction 1 as [|l ls Hl _ IH]; [constructor|].
  cbn [List.concat]. apply Forall_app. split; assumption.
Qed.

Lemma turn_ok_snoc (decisive : nc_call -> bool) (elogs : list (list (nc_call * Z))) :
  elogs <> [] ->
  Forall (turn_ok decisive) (removelast elogs) -> turn_ok decisive (last elogs []) ->
  Forall (turn_ok decisive) elogs.
Proof.
  intros Hne Hpre Hlast. rewrite (app_removelast_last [] Hne).
  apply Forall_app. split; [exact Hpre | constructor; [exact Hlast | constructor]].
Qed.

Lemma turn_failed_concat (decisive : nc_call -> bool) (elogs : list (list (nc_call * Z))) :
  elogs <> [] -> turn_failed decisive (last elogs []) ->
  turn_failed decisive (List.concat elogs).
Proof.
  intros Hne Hlast. rewrite (app_removelast_last [] Hne), concat_app.
  apply Exists_app. right. cbn [List.concat]. rewrite app_nil_r. exact Hlast.
Qed.

Lemma periodic_params_outcome (E : environment) (client xpath : string) (w : world) :
  exists rc w1 elog,
    np2srv_ch_periodic_connection_params E client xpath w = Done rc w1 /\
    w_calls w1 = w_calls w ++ elog /\
    ((rc = SR_ERR_OK /\ turn_ok all_decisive elog) \/
     (rc = SR_ERR_INTERNAL /\ turn_failed all_decisive elog) \/
     (rc <> SR_ERR_OK /\ turn_ok all_decisive elog)).
Proof.
  unfold np2srv_ch_periodic_connection_params, scan_subtree.
  rewrite bind_run. unfold sr_get_changes_iter.
  destruct (sr_error_eq_dec (cs_open (e_changes E xpath)) SR_ERR_OK) as [Ho|Ho].
  - destruct (sr_error_eq_dec SR_ERR_OK SR_ERR_OK) as [_|Hne]; [|contradiction].
    match goal with
    | |- context [scan_changes ?it _ _] => generalize it; intros iter
    end.
    match goal with
    | |- context [scan_changes iter ?b ?w0] =>
        destruct (while_changes_turns b all_decisive (it_changes iter)
                    (fail_stop_is_turn _ _ _ (periodic_fail_stop E client iter _)) w0)
          as (f & w' & elogs & Hr & Hlog & Hn & _ & Hpre & Hcase)
    end.
    unfold scan_changes. rewrite bind_run, Hr. wsimpl.
    destruct Hcase as [(Hf & Hlen & Hall)|(rc & Hf & Hne & Hrc & Hlast)]; subst f.
    + rewrite bind_run. cbn [sr_free_change_iter].
      exists (if sr_error_eq_dec (it_end iter) SR_ERR_NOT_FOUND then SR_ERR_OK else it_end iter).
      eexists _, (List.concat elogs).
      split; [destruct (sr_error_eq_dec (it_end iter) SR_ERR_NOT_FOUND); reflexivity|].
      split; [wsimpl; exact Hlog|].
      destruct (sr_error_eq_dec (it_end iter) SR_ERR_NOT_FOUND) as [He|He].
      * left. split; [reflexivity | apply turn_ok_concat; exact Hall].
      * destruct (sr_error_eq_dec (it_end iter) SR_ERR_OK) as [Hk|Hk].
        -- left. split; [exact Hk | apply turn_ok_concat; exact Hall].
        -- right. right. split; [exact Hk | apply turn_ok_concat; exact Hall].
    + unfold ret. exists rc, w', (List.concat elogs).
      split; [reflexivity|]. split; [exact Hlog|].
      destruct Hlast as [[Hfail Hint]|Hok].
      * right. left. split; [exact Hint | apply turn_failed_concat; assumption].
      * right. right. split; [exact Hrc|].
        apply turn_ok_concat, turn_ok_snoc; assumption.
  - destruct (sr_error_eq_dec (cs_open (e_changes E xpath)) SR_ERR_OK) as [Hk|_];
      [contradiction|].
    unfold ret. eexists _, _, []. split; [reflexivity|].
    split; [rewrite app_nil_r; reflexivity|].
    right. right. split; [exact Ho | constructor].
Qed.

(** The end of a turn that ran a nested scan after [pre], the calls it made
    before. *)
Lemma nested_turn (iter : sr_change_iter_t) (free : bool) (m : M sr_error_t)
    (w0 w : world) (pre : list (nc_call * Z)) :
  w_calls w = w_calls w0 ++ pre ->
  turn_ok all_decisive pre ->
  (exists rc w1 elog,
     m w = Done rc w1 /\ w_calls w1 = w_calls w ++ elog /\
     ((rc = SR_ERR_OK /\ turn_ok all_decisive elog) \/
      (rc = SR_ERR_INTERNAL /\ turn_failed all_decisive elog) \/
      (rc <> SR_ERR_OK /\ turn_ok all_decisive elog))) ->
  exists f w1 elog,
    (rc <- m ;;
     if sr_error_eq_dec rc SR_ERR_OK then ret Next
     else if free then sr_free_change_iter iter ;; ret (Return rc)
     else ret (Return rc)) w = Done f w1 /\
    w_calls w1 = w_calls w0 ++ elog /\
    turn_outcome all_decisive f elog.
Proof.
  intros Hw Hpre (rc & w1 & elog & Hrun & Hlog & Hcase).
  rewrite bind_run, Hrun. rewrite Hw, <- app_assoc in Hlog.
  assert (Hfree : forall rc', exists w2,
             (if free then sr_free_change_iter iter ;; ret (Return rc')
              else ret (Return rc')) w1 = Done (Return rc') w2 /\
             w_calls w2 = w_calls w1).
  { intros rc'. destruct free.
    - rewrite bind_run. cbn [sr_free_change_iter]. unfold ret. eexists. split; reflexivity.
    - unfold ret. eexists. split; reflexivity. }
  destruct Hcase as [[Hrc Hok]|[[Hrc Hfail]|[Hrc Hok]]].
  - subst rc. destruct (sr_error_eq_dec SR_ERR_OK SR_ERR_OK) as [_|Hne]; [|contradiction].
    unfold ret. exists Next, w1, (pre ++ elog). split; [reflexivity|]. split; [exact Hlog|].
    left. split; [reflexivity|]. apply Forall_app. split; assumption.
  - subst rc. destruct (sr_error_eq_dec SR_ERR_INTERNAL SR_ERR_OK) as [Hk|_]; [discriminate|].
    destruct (Hfree SR_ERR_INTERNAL) as (w2 & Hr2 & Hw2). rewrite Hr2.
    exists (Return SR_ERR_INTERNAL), w2, (pre ++ elog). split; [reflexivity|].
    split; [rewrite Hw2; exact Hlog|].
    right. left. split; [reflexivity|]. apply Exists_app. right. exact Hfail.
  - destruct (sr_error_eq_dec rc SR_ERR_OK) as [Hk|_]; [contradiction|].
    destruct (Hfree rc) as (w2 & Hr2 & Hw2). rewrite Hr2.
    exists (Return rc), w2, (pre ++ elog). split; [reflexivity|].
    split; [rewrite Hw2; exact Hlog|].
    right. right. exists rc. split; [reflexivity|]. split; [exact Hrc|].
    apply Forall_app. split; assumption.
Qed.

Lemma connection_type_turn (E : environment) (xpath : string) (iter : sr_change_iter_t)
    (changes : list sr_change) :
  forallb (fun c => resolves 2 c && modified_is_periodic c) changes = true ->
  fail_stop_turn (np2srv_ch_connection_type_change E xpath iter) all_decisive changes.
Proof.
  intros Hs c w Hin. rewrite forallb_forall in Hs. specialize (Hs c Hin).
  apply andb_true_iff in Hs as [H2 Hm].
  destruct (resolves_some 2 c H2) as [client Hc].
  unfold np2srv_ch_connection_type_change. rewrite bind_run, resolve_run, Hc.
  unfold modified_is_periodic in Hm.
  destruct (ch_op c).
  - destruct (streq (schema_name (ch_node c)) "persistent");
      [apply checked_turn; reflexivity|].
    destruct (streq (schema_name (ch_node c)) "periodic");
      [apply checked_turn; reflexivity|].
    apply skipped_turn.
  - rewrite Hm. cbn [negb]. rewrite bind_run, asprintf_run.
    destruct (e_alloc E (w_allocs w)).
    + apply (nested_turn iter false _ w _ []).
      * wsimpl. rewrite app_nil_r. reflexivity.
      * constructor.
      * apply periodic_params_outcome.
    + unfold ret. eexists _, _, []. split; [reflexivity|].
      split; [wsimpl; rewrite app_nil_r; reflexivity|].
      right. right. exists SR_ERR_NOMEM. split; [reflexivity|].
      split; [discriminate | constructor].
  - apply skipped_turn.
  - apply skipped_turn.
Qed.

Lemma tcp_params_turn (E : environment) (xpath : string) (iter : sr_change_iter_t)
    (changes : list sr_change) :
  forallb (resolves 3) changes = true ->
  fail_stop_turn (np2srv_endpt_tcp_params_change E xpath iter) all_decisive changes.
Proof.
  intros Hs c w Hin. rewrite forallb_forall in Hs. specialize (Hs c Hin).
  destruct (resolves_some 3 c Hs) as [endpt He].
  unfold np2srv_endpt_tcp_params_change. rewrite bind_run, resolve_run, He.
  destruct (streq (schema_name (ch_node c)) "local-address").
  { destruct (ch_op c); try apply skipped_turn; apply checked_turn; reflexivity. }
  destruct (streq (schema_name (ch_node c)) "local-port").
  { destruct (ch_op c); try apply skipped_turn; apply checked_turn; reflexivity. }
  destruct (streq (schema_name (ch_node c)) "keepalives"); [|apply skipped_turn].
  assert (Hquiet : forall w',
             w_calls w' = w_calls w ->
             exists f w1 elog,
               (xpath2 <- asprintf E (xpath ++ "/keepalives/*") ;;
                match xpath2 with
                | None => ret (Return SR_ERR_NOMEM)
                | Some xpath2 =>
                    rc <- np2srv_tcp_keepalives E None endpt xpath2 ;;
                    if sr_error_eq_dec rc SR_ERR_OK then ret Next
                    else sr_free_change_iter iter ;; ret (Return rc)
                end) w' = Done f w1 /\
               w_calls w1 = w_calls w' ++ elog /\ turn_outcome all_decisive f elog).
  { intros w' Hw'. rewrite bind_run, asprintf_run.
    destruct (e_alloc E (w_allocs w')).
    - apply (nested_turn iter true _ w' _ []).
      + wsimpl. rewrite app_nil_r. reflexivity.
      + constructor.
      + apply tcp_keepalives_outcome.
    - unfold ret. eexists _, _, []. split; [reflexivity|].
      split; [wsimpl; rewrite app_nil_r; reflexivity|].
      right. right. exists SR_ERR_NOMEM. split; [reflexivity|].
      split; [discriminate | constructor]. }
  assert (Hcall : forall call,
             exists f w1 elog,
               (rc <- nc E call ;;
                if nonzero rc then sr_free_change_iter iter ;; ret (Return SR_ERR_INTERNAL)
                else
                  xpath2 <- asprintf E (xpath ++ "/keepalives/*") ;;
                  match xpath2 with
                  | None => ret (Return SR_ERR_NOMEM)
                  | Some xpath2 =>
                      rc <- np2srv_tcp_keepalives E None endpt xpath2 ;;
                      if sr_error_eq_dec rc SR_ERR_OK then ret Next
                      else sr_free_change_iter iter ;; ret (Return rc)
                  end) w = Done f w1 /\
               w_calls w1 = w_calls w ++ elog /\ turn_outcome all_decisive f elog).
  { intros call. rewrite bind_run, nc_run. unfold nonzero.
    destruct (Z.eqb_spec (e_nc E (w_calls w) call) 0) as [Heq|Hne]; cbn [negb].
    - rewrite bind_run, asprintf_run. wsimpl.
      destruct (e_alloc E (w_allocs w)).
      + apply (nested_turn iter true _ w _ [(call, e_nc E (w_calls w) call)]).
        * wsimpl. reflexivity.
        * constructor; [intros _; exact Heq | constructor].
        * apply tcp_keepalives_outcome.
      + unfold ret. eexists _, _, [(_, _)]. split; [reflexivity|].
        split; [wsimpl; reflexivity|].
        right. right. exists SR_ERR_NOMEM. split; [reflexivity|].
        split; [discriminate|]. constructor; [intros _; exact Heq | constructor].
    - rewrite bind_run. cbn [sr_free_change_iter]. unfold ret.
      eexists _, _, [(_, _)]. split; [reflexivity|]. split; [wsimpl; reflexivity|].
      right. left. split; [reflexivity|]. constructor. split; [reflexivity | exact Hne]. }
  destruct (ch_op c).
  - apply Hcall.
  - rewrite bind_run. unfold ret at 1. unfold nonzero. cbn [Z.eqb negb].
    apply Hquiet. reflexivity.
  - apply Hcall.
  - rewrite bind_run. unfold ret at 1. unfold nonzero. cbn [Z.eqb negb].
    apply Hquiet. reflexivity.
Qed.

Lemma ch_tcp_params_turn (E : environment) (xpath : string) (iter : sr_change_iter_t)
    (changes : list sr_change) :
  forallb (fun c => resolves 3 c && resolves 5 c) changes = true ->
  fail_stop_turn (np2srv_ch_client_endpt_tcp_params_change E xpath iter) all_decisive changes.
Proof.
  intros Hs c w Hin. rewrite forallb_forall in Hs. specialize (Hs c Hin).
  apply andb_true_iff in Hs as [H3 H5].
  destruct (resolves_some 3 c H3) as [endpt He], (resolves_some 5 c H5) as [client Hc].
  unfold np2srv_ch_client_endpt_tcp_params_change. rewrite bind_run, resolve_run, He, bind_run, resolve_run, Hc.
  destruct (streq (schema_name (ch_node c)) "remote-address").
  { destruct (ch_op c); try apply skipped_turn; apply checked_turn; reflexivity. }
  destruct (streq (schema_name (ch_node c)) "remote-port").
  { destruct (ch_op c); try apply skipped_turn; apply checked_turn; reflexivity. }
  destruct (streq (schema_name (ch_node c)) "keepalives"); [|apply skipped_turn].
  assert (Hquiet : forall w',
             w_calls w' = w_calls w ->
             exists f w1 elog,
               (xpath2 <- asprintf E (xpath ++ "/keepalives/*") ;;
                match xpath2 with
                | None => ret (Return SR_ERR_NOMEM)
                | Some xpath2 =>
                    rc <- np2srv_tcp_keepalives E (Some client) endpt xpath2 ;;
                    if sr_error_eq_dec rc SR_ERR_OK then ret Next
                    else sr_free_change_iter iter ;; ret (Return rc)
                end) w' = Done f w1 /\
               w_calls w1 = w_calls w' ++ elog /\ turn_outcome all_decisive f elog).
  { intros w' Hw'. rewrite bind_run, asprintf_run.
    destruct (e_alloc E (w_allocs w')).
    - apply (nested_turn iter true _ w' _ []).
      + wsimpl. rewrite app_nil_r. reflexivity.
      + constructor.
      + apply tcp_keepalives_outcome.
    - unfold ret. eexists _, _, []. split; [reflexivity|].
      split; [wsimpl; rewrite app_nil_r; reflexivity|].
      right. right. exists SR_ERR_NOMEM. split; [reflexivity|].
      split; [discriminate | constructor]. }
  assert (Hcall : forall call,
             exists f w1 elog,
               (rc <- nc E call ;;
                if nonzero rc then sr_free_change_iter iter ;; ret (Return SR_ERR_INTERNAL)
                else
                  xpath2 <- asprintf E (xpath ++ "/keepalives/*") ;;
                  match xpath2 with
                  | None => ret (Return SR_ERR_NOMEM)
                  | Some xpath2 =>
                      rc <- np2srv_tcp_keepalives E (Some client) endpt xpath2 ;;
                      if sr_error_eq_dec rc SR_ERR_OK then ret Next
                      else sr_free_change_iter iter ;; ret (Return rc)
                  end) w = Done f w1 /\
               w_calls w1 = w_calls w ++ elog /\ turn_outcome all_decisive f elog).
  { intros call. rewrite bind_run, nc_run. unfold nonzero.
    destruct (Z.eqb_spec (e_nc E (w_calls w) call) 0) as [Heq|Hne]; cbn [negb].
    - rewrite bind_run, asprintf_run. wsimpl.
      destruct (e_alloc E (w_allocs w)).
      + apply (nested_turn iter true _ w _ [(call, e_nc E (w_calls w) call)]).
        * wsimpl. reflexivity.
        * constructor; [intros _; exact Heq | constructor].
        * apply tcp_keepalives_outcome.
      + unfold ret. eexists _, _, [(_, _)]. split; [reflexivity|].
        split; [wsimpl; reflexivity|].
        right. right. exists SR_ERR_NOMEM. split; [reflexivity|].
        split; [discriminate|]. constructor; [intros _; exact Heq | constructor].
    - rewrite bind_run. cbn [sr_free_change_iter]. unfold ret.
      eexists _, _, [(_, _)]. split; [reflexivity|]. split; [wsimpl; reflexivity|].
      right. left. split; [reflexivity|]. constructor. split; [reflexivity | exact Hne]. }
  destruct (ch_op c).
  - apply Hcall.
  - rewrite bind_run. unfold ret at 1. unfold nonzero. cbn [Z.eqb negb].
    apply Hquiet. reflexivity.
  - apply Hcall.
  - rewrite bind_run. unfold ret at 1. unfold nonzero. cbn [Z.eqb negb].
    apply Hquiet. reflexivity.
Qed.

(* ------------------------------------------------------------------ *)
(** ** Change-set scanner: every callback *)

(** The callbacks that scan their own subtree and make several calls for a
    change: endpoints of the listening side, endpoints of call-home clients
    and the clients themselves. *)
Lemma subtree_scanned_in_order (E : environment) (xpath : string) (w : world) :
  cs_open (e_changes E xpath) = SR_ERR_OK ->
  cs_end (e_changes E xpath) <> SR_ERR_OK ->
  (forallb (resolves 1) (cs_changes (e_changes E xpath)) = true ->
   scanned_in_order (np2srv_endpt_ssh_change E) lifecycle_decisive
     (cs_changes (e_changes E xpath)) (cs_end (e_changes E xpath)) w
     (np2srv_endpt_ssh_cb E xpath w)) /\
  (forallb (fun c => resolves 1 c && resolves 3 c) (cs_changes (e_changes E xpath)) = true ->
   scanned_in_order (np2srv_ch_client_endpt_ssh_change E) lifecycle_decisive
     (cs_changes (e_changes E xpath)) (cs_end (e_changes E xpath)) w
     (np2srv_ch_client_endpt_ssh_cb E xpath w)) /\
  (forallb (resolves 0) (cs_changes (e_changes E xpath)) = true ->
   scanned_in_order (np2srv_ch_client_change E) all_decisive
     (cs_changes (e_changes E xpath)) (cs_end (e_changes E xpath)) w
     (np2srv_ch_client_cb E xpath w)).
Proof.
  intros Hopen Hend. split; [|split]; intros Hs.
  - apply scan_subtree_scanned; try assumption.
    intros iter. apply endpt_ssh_turn. exact Hs.
  - apply scan_subtree_scanned; try assumption.
    intros iter. apply ch_client_endpt_ssh_turn. exact Hs.
  - apply scan_subtree_scanned; try assumption.
    intros iter. apply ch_client_turn. exact Hs.
Qed.

(** The callbacks that scan the children of their subtree and make several
    calls for a change: the authentication methods and the TCP parameters of
    listening and call-home endpoints and the connection type of a client,
    once the path of the scan is allocated. *)
Lemma children_scanned_in_order (E : environment) (xpath : string) (w : world) :
  e_alloc E (w_allocs w) = true ->
  cs_open (e_changes E (xpath ++ "/*")%string) = SR_ERR_OK ->
  cs_end (e_changes E (xpath ++ "/*")%string) <> SR_ERR_OK ->
  (forallb (resolves 5) (cs_changes (e_changes E (xpath ++ "/*")%string)) = true ->
   scanned_in_order (np2srv_endpt_ssh_auth_methods_change E) auth_methods_decisive
     (cs_changes (e_changes E (xpath ++ "/*")%string))
     (cs_end (e_changes E (xpath ++ "/*")%string)) w
     (np2srv_endpt_ssh_auth_methods_cb E xpath w)) /\
  (forallb (fun c => resolves 5 c && resolves 7 c)
     (cs_changes (e_changes E (xpath ++ "/*")%string)) = true ->
   scanned_in_order (np2srv_ch_endpt_ssh_auth_methods_change E) auth_methods_decisive
     (cs_changes (e_changes E (xpath ++ "/*")%string))
     (cs_end (e_changes E (xpath ++ "/*")%string)) w
     (np2srv_ch_endpt_ssh_auth_methods_cb E xpath w)) /\
  (forallb (resolves 3) (cs_changes (e_changes E (xpath ++ "/*")%string)) = true ->
   scanned_in_order (np2srv_endpt_tcp_params_change E xpath) all_decisive
     (cs_changes (e_changes E (xpath ++ "/*")%string))
     (cs_end (e_changes E (xpath ++ "/*")%string)) w
     (np2srv_endpt_tcp_params_cb E xpath w)) /\
  (forallb (fun c => resolves 3 c && resolves 5 c)
     (cs_changes (e_changes E (xpath ++ "/*")%string)) = true ->
   scanned_in_order (np2srv_ch_client_endpt_tcp_params_change E xpath) all_decisive
     (cs_changes (e_changes E (xpath ++ "/*")%string))
     (cs_end (e_changes E (xpath ++ "/*")%string)) w
     (np2srv_ch_client_endpt_tcp_params_cb E xpath w)) /\
  (forallb (fun c => resolves 2 c && modified_is_periodic c)
     (cs_changes (e_changes E (xpath ++ "/*")%string)) = true ->
   scanned_in_order (np2srv_ch_connection_type_change E xpath) all_decisive
     (cs_changes (e_changes E (xpath ++ "/*")%string))
     (cs_end (e_changes E (xpath ++ "/*")%string)) w
     (np2srv_ch_connection_type_cb E xpath w)).
Proof.
  intros Ha Hopen Hend. split; [|split; [|split; [|split]]]; intros Hs.
  - apply scan_children_scanned; try assumption.
    intros iter. apply auth_methods_turn. exact Hs.
  - apply scan_children_scanned; try assumption.
    intros iter. apply ch_auth_methods_turn. exact Hs.
  - apply (scan_children_scanned E xpath (np2srv_endpt_tcp_params_change E xpath));
      try assumption.
    intros iter. apply tcp_params_turn. exact Hs.
  - apply (scan_children_scanned E xpath (np2srv_ch_client_endpt_tcp_params_change E xpath));
      try assumption.
    intros iter. apply ch_tcp_params_turn. exact Hs.
  - apply (scan_children_scanned E xpath (np2srv_ch_connection_type_change E xpath));
      try assumption.
    intros iter. apply connection_type_turn. exact Hs.
Qed.

(** As the claim has it, a callback whose mutation for a change fails returns
    an internal error and makes no mutation for a later change, and returns
    success only when every mutation it made succeeded.  Two endpoints are
    created and the live server refuses to turn the authentication methods of
    either off: the iterator ends exhausted, the callback goes on to the
    second endpoint after the refusal for the first, and returns
    [SR_ERR_OK]. *)
Lemma deny_all_failure_unnoticed :
  let E := refuses_deny_all
             (with_changes [endpt_ssh_created "ep1"; endpt_ssh_created "ep2"] quiet) in
  let r := np2srv_endpt_ssh_cb E endpt_ssh_xpath world0 in
  cs_end (e_changes E endpt_ssh_xpath) = SR_ERR_NOT_FOUND /\
  value_of r = Some SR_ERR_OK /\
  w_calls (world_of r) =
  [(nc_server_add_endpt "ep1" NC_TI_LIBSSH, 0);
   (nc_server_ssh_endpt_set_auth_methods "ep1" 0, -1);
   (nc_server_add_endpt "ep2" NC_TI_LIBSSH, 0);
   (nc_server_ssh_endpt_set_auth_methods "ep2" 0, -1)] /\
  ~ all_succeeded (w_calls (world_of r)).
Proof.
  split; [reflexivity|]. split; [reflexivity|]. split; [reflexivity|].
  intros H. cbv in H. inversion H as [|? ? _ Htl]. inversion Htl as [|? ? Hhd _].
  discriminate Hhd.
Qed.

(** C8, amended: for the changes sysrepo delivers under the xpath a callback
    scans, once the iterator is open, the callbacks make their calls in event
    order as they scan, with no undo: the calls made are those of the turns
    of a prefix of the changes and nothing else; when a mutation whose code
    the callback reads fails for the N-th change the callback returns
    [SR_ERR_INTERNAL], the calls of the changes before it stay made, every
    such mutation among them with success, and no call of a later change is
    made; and the callback returns [SR_ERR_OK] exactly when the iterator
    ended with [SR_ERR_NOT_FOUND] and every mutation made whose code it reads
    succeeded.  The callbacks read the code of every mutation but that of
    the call that turns all authentication methods off after an endpoint is
    added.  The first part is for the callbacks that scan their own subtree,
    the second for those that scan its children; in each the callbacks with
    one call for a change come first. *)
Theorem checked_mutations_applied_in_order (E : environment) (xpath : string) (w : world) :
  (cs_open (e_changes E xpath) = SR_ERR_OK ->
   cs_end (e_changes E xpath) <> SR_ERR_OK ->
   ((forallb (fun c => resolves 4 c && resolves 0 c) (cs_changes (e_changes E xpath)) = true ->
     applied_in_order hostkey_call (cs_changes (e_changes E xpath))
       (cs_end (e_changes E xpath)) w (np2srv_endpt_ssh_hostkey_cb E xpath w)) /\
    (forallb (fun c => resolves 4 c && resolves 6 c && resolves 0 c)
       (cs_changes (e_changes E xpath)) = true ->
     applied_in_order ch_hostkey_call (cs_changes (e_changes E xpath))
       (cs_end (e_changes E xpath)) w (np2srv_ch_endpt_ssh_hostkey_cb E xpath w)) /\
    applied_in_order idle_timeout_call (cs_changes (e_changes E xpath))
      (cs_end (e_changes E xpath)) w (np2srv_idle_timeout_cb E xpath w) /\
    (forall client,
        applied_in_order (periodic_call E client) (cs_changes (e_changes E xpath))
          (cs_end (e_changes E xpath)) w
          (np2srv_ch_periodic_connection_params E client xpath w))) /\
   ((forallb (resolves 1) (cs_changes (e_changes E xpath)) = true ->
     scanned_in_order (np2srv_endpt_ssh_change E) lifecycle_decisive
       (cs_changes (e_changes E xpath)) (cs_end (e_changes E xpath)) w
       (np2srv_endpt_ssh_cb E xpath w)) /\
    (forallb (fun c => resolves 1 c && resolves 3 c) (cs_changes (e_changes E xpath)) = true ->
     scanned_in_order (np2srv_ch_client_endpt_ssh_change E) lifecycle_decisive
       (cs_changes (e_changes E xpath)) (cs_end (e_changes E xpath)) w
       (np2srv_ch_client_endpt_ssh_cb E xpath w)) /\
    (forallb (resolves 0) (cs_changes (e_changes E xpath)) = true ->
     scanned_in_order (np2srv_ch_client_change E) all_decisive
       (cs_changes (e_changes E xpath)) (cs_end (e_changes E xpath)) w
       (np2srv_ch_client_cb E xpath w)))) /\
  (e_alloc E (w_allocs w) = true ->
   cs_open (e_changes E (xpath ++ "/*")%string) = SR_ERR_OK ->
   cs_end (e_changes E (xpath ++ "/*")%string) <> SR_ERR_OK ->
   ((forallb (resolves 4) (cs_changes (e_changes E (xpath ++ "/*")%string)) = true ->
     applied_in_order auth_params_call (cs_changes (e_changes E (xpath ++ "/*")%string))
       (cs_end (e_changes E (xpath ++ "/*")%string)) w
       (np2srv_endpt_ssh_keepalives_cb E xpath w)) /\
    (forallb (fun c => resolves 4 c && resolves 6 c)
       (cs_changes (e_changes E (xpath ++ "/*")%string)) = true ->
     applied_in_order ch_auth_params_call (cs_changes (e_changes E (xpath ++ "/*")%string))
       (cs_end (e_changes E (xpath ++ "/*")%string)) w
       (np2srv_ch_endpt_ssh_keepalives_cb E xpath w)) /\
    (forallb (resolves 2) (cs_changes (e_changes E (xpath ++ "/*")%string)) = true ->
     applied_in_order reconnect_call (cs_changes (e_changes E (xpath ++ "/*")%string))
       (cs_end (e_changes E (xpath ++ "/*")%string)) w
       (np2srv_ch_reconnect_strategy_cb E xpath w))) /\
   ((forallb (resolves 5) (cs_changes (e_changes E (xpath ++ "/*")%string)) = true ->
     scanned_in_order (np2srv_endpt_ssh_auth_methods_change E) auth_methods_decisive
       (cs_changes (e_changes E (xpath ++ "/*")%string))
       (cs_end (e_changes E (xpath ++ "/*")%string)) w
       (np2srv_endpt_ssh_auth_methods_cb E xpath w)) /\
    (forallb (fun c => resolves 5 c && resolves 7 c)
       (cs_changes (e_changes E (xpath ++ "/*")%string)) = true ->
     scanned_in_order (np2srv_ch_endpt_ssh_auth_methods_change E) auth_methods_decisive
       (cs_changes (e_changes E (xpath ++ "/*")%string))
       (cs_end (e_changes E (xpath ++ "/*")%string)) w
       (np2srv_ch_endpt_ssh_auth_methods_cb E xpath w)) /\
    (forallb (resolves 3) (cs_changes (e_changes E (xpath ++ "/*")%string)) = true ->
     scanned_in_order (np2srv_endpt_tcp_params_change E xpath) all_decisive
       (cs_changes (e_changes E (xpath ++ "/*")%string))
       (cs_end (e_changes E (xpath ++ "/*")%string)) w
       (np2srv_endpt_tcp_params_cb E xpath w)) /\
    (forallb (fun c => resolves 3 c && resolves 5 c)
       (cs_changes (e_changes E (xpath ++ "/*")%string)) = true ->
     scanned_in_order (np2srv_ch_client_endpt_tcp_params_change E xpath) all_decisive
       (cs_changes (e_changes E (xpath ++ "/*")%string))
       (cs_end (e_changes E (xpath ++ "/*")%string)) w
       (np2srv_ch_client_endpt_tcp_params_cb E xpath w)) /\
    (forallb (fun c => resolves 2 c && modified_is_periodic c)
       (cs_changes (e_changes E (xpath ++ "/*")%string)) = true ->
     scanned_in_order (np2srv_ch_connection_type_change E xpath) all_decisive
       (cs_changes (e_changes E (xpath ++ "/*")%string))
       (cs_end (e_changes E (xpath ++ "/*")%string)) w
       (np2srv_ch_connection_type_cb E xpath w)))).
Proof.
  split.
  - intros Hopen Hend. split.
    + apply subtree_applied_in_order; assumption.
    + apply subtree_scanned_in_order; assumption.
  - intros Ha Hopen Hend. split.
    + apply children_applied_in_order; assumption.
    + apply children_scanned_in_order; assumption.
Qed.

Lemma checked_mutations_applied_in_order_witness :
  applied_in_order hostkey_call three_hostkeys SR_ERR_NOT_FOUND world0
    (np2srv_endpt_ssh_hostkey_cb (refuses_k2 (with_changes three_hostkeys quiet))
       hostkey_xpath_listen world0) /\
  scanned_in_order
    (np2srv_endpt_ssh_change
       (refuses_deny_all
          (with_changes [endpt_ssh_created "ep1"; endpt_ssh_created "ep2"] quiet)))
    lifecycle_decisive [endpt_ssh_created "ep1"; endpt_ssh_created "ep2"]
    SR_ERR_NOT_FOUND world0
    (np2srv_endpt_ssh_cb
       (refuses_deny_all
          (with_changes [endpt_ssh_created "ep1"; endpt_ssh_created "ep2"] quiet))
       endpt_ssh_xpath world0).
Proof.
  split.
  - apply (proj1 (checked_mutations_applied_in_order
                    (refuses_k2 (with_changes three_hostkeys quiet))
                    hostkey_xpath_listen world0)).
    + reflexivity.
    + discriminate.
    + reflexivity.
  - apply (proj1 (checked_mutations_applied_in_order
                    (refuses_deny_all
                       (with_changes [endpt_ssh_created "ep1"; endpt_ssh_created "ep2"] quiet))
                    endpt_ssh_xpath world0)).
    + reflexivity.
    + discriminate.
    + reflexivity.
Defined.

(* ------------------------------------------------------------------ *)
(** ** Flag-set reconciler: algebra of the mask *)

Lemma lor_lor_same (a b : Z) : Z.lor (Z.lor a b) b = Z.lor a b.
Proof. rewrite <- Z.lor_assoc, Z.lor_diag. reflexivity. Qed.

Lemma land_land_same (a b : Z) : Z.land (Z.land a b) b = Z.land a b.
Proof. rewrite <- Z.land_assoc, Z.land_diag. reflexivity. Qed.

Lemma lor_after_clear (a b : Z) : Z.lor (Z.land a (Z.lnot b)) b = Z.lor a b.
Proof.
  apply Z.bits_inj'. intros i Hi.
  rewrite !Z.lor_spec, Z.land_spec, Z.lnot_spec by exact Hi.
  destruct (Z.testbit a i), (Z.testbit b i); reflexivity.
Qed.

Lemma clear_after_lor (a b : Z) : Z.land (Z.lor a b) (Z.lnot b) = Z.land a (Z.lnot b).
Proof.
  apply Z.bits_inj'. intros i Hi.
  rewrite !Z.land_spec, Z.lor_spec, Z.lnot_spec by exact Hi.
  destruct (Z.testbit a i), (Z.testbit b i); reflexivity.
Qed.

(** X1: for every leaf, the last Created or Deleted event decides: a Created
    (Deleted) event after any other event on the same leaf gives the mask
    the Created (Deleted) event alone gives, so repeating an event changes
    nothing and a Deleted event undoes a Created one on its bit; Modified and
    Moved events leave the mask as it is. *)
Theorem update_auth_method_last_wins (node : lyd_node) (op : sr_change_oper_t) (cur : Z) :
  np2srv_ssh_update_auth_method node SR_OP_CREATED
    (np2srv_ssh_update_auth_method node op cur) =
  np2srv_ssh_update_auth_method node SR_OP_CREATED cur /\
  np2srv_ssh_update_auth_method node SR_OP_DELETED
    (np2srv_ssh_update_auth_method node op cur) =
  np2srv_ssh_update_auth_method node SR_OP_DELETED cur /\
  np2srv_ssh_update_auth_method node SR_OP_MODIFIED cur = cur /\
  np2srv_ssh_update_auth_method node SR_OP_MOVED cur = cur.
Proof.
  unfold np2srv_ssh_update_auth_method.
  destruct (streq (schema_name node) "publickey").
  { destruct op; repeat split;
      auto using lor_lor_same, land_land_same, lor_after_clear, clear_after_lor. }
  destruct (streq (schema_name node) "passsword").
  { destruct op; repeat split;
      auto using lor_lor_same, land_land_same, lor_after_clear, clear_after_lor. }
  destruct (streq (schema_name node) "hostbased" || streq (schema_name node) "none").
  { repeat split. }
  destruct (streq (schema_name node) "other"); [|repeat split].
  destruct (streq (value_str node) "interactive"); [|repeat split].
  destruct op; repeat split;
    auto using lor_lor_same, land_land_same, lor_after_clear, clear_after_lor.
Qed.

Lemma update_auth_method_in_range (node : lyd_node) (op : sr_change_oper_t) (cur : Z) :
  0 <= cur < 8 -> 0 <= np2srv_ssh_update_auth_method node op cur < 8.
Proof.
  intros H.
  assert (Hc : cur = 0 \/ cur = 1 \/ cur = 2 \/ cur = 3 \/
               cur = 4 \/ cur = 5 \/ cur = 6 \/ cur = 7) by lia.
  unfold np2srv_ssh_update_auth_method.
  destruct (streq (schema_name node) "publickey");
    [|destruct (streq (schema_name node) "passsword");
      [|destruct (streq (schema_name node) "hostbased" || streq (schema_name node) "none");
        [|destruct (streq (schema_name node) "other");
          [destruct (streq (value_str node) "interactive")|]]]];
    destruct op; try exact H;
    destruct Hc as [->|[->|[->|[->|[->|[->|[->| ->]]]]]]]; cbv; split; congruence.
Qed.

(** X2: a mask made of the three method bits stays so: from a mask between 0
    and 7 every sequence of flag events gives a mask between 0 and 7. *)
Theorem update_auth_methods_in_range (events : list (lyd_node * sr_change_oper_t)) (cur : Z) :
  0 <= cur < 8 -> 0 <= update_auth_methods events cur < 8.
Proof.
  unfold update_auth_methods. revert cur.
  induction events as [|ev rest IH]; intros cur H; [exact H|].
  cbn [fold_left]. apply IH. apply update_auth_method_in_range. exact H.
Qed.

Lemma update_auth_methods_in_range_witness :
  0 <= update_auth_methods
         [(flag_leaf "publickey" "", SR_OP_CREATED);
          (flag_leaf "other" "interactive", SR_OP_CREATED);
          (flag_leaf "publickey" "", SR_OP_DELETED)] 2 < 8.
Proof. apply update_auth_methods_in_range. lia. Defined.

(* ------------------------------------------------------------------ *)
(** ** Change-set scanner: the iterator is given back *)

Lemma remove_fresh_snoc (id : nat) (l : list nat) :
  ~ In id l -> remove Nat.eq_dec id (l ++ [id]) = l.
Proof.
  intros H. rewrite remove_app, (notin_remove Nat.eq_dec l id H).
  cbn [remove]. destruct (Nat.eq_dec id id) as [_|Hne]; [|contradiction].
  apply app_nil_r.
Qed.

Lemma while_changes_tidy (iter : sr_change_iter_t) (body : sr_change -> M flow)
    (changes : list sr_change) (iters0 : list nat) :
  tidy_body iter body changes ->
  ~ In (it_id iter) iters0 ->
  forall w, w_iters w = iters0 ++ [it_id iter] ->
    exists f w',
      while_changes body changes w = Done f w' /\
      w_iters w' = match f with
                   | Next => iters0 ++ [it_id iter]
                   | Return _ => iters0
                   end.
Proof.
  intros Hb Hfresh. induction changes as [|c rest IH]; intros w Hw.
  - exists Next, w. split; [reflexivity | exact Hw].
  - assert (Hrest : tidy_body iter body rest).
    { intros c' w' Hin. apply Hb. right. exact Hin. }
    destruct (Hb c w (or_introl eq_refl)) as (f1 & w1 & Hrun & Hw1).
    cbn [while_changes]. rewrite bind_run, Hrun. destruct f1 as [|rc].
    + apply (IH Hrest). rewrite Hw1. exact Hw.
    + exists (Return rc), w1. split; [reflexivity|].
      rewrite Hw1, Hw. apply remove_fresh_snoc. exact Hfresh.
Qed.

Lemma scan_changes_tidy (iter : sr_change_iter_t) (body : sr_change -> M flow)
    (iters0 : list nat) (w : world) :
  tidy_body iter body (it_changes iter) ->
  ~ In (it_id iter) iters0 ->
  w_iters w = iters0 ++ [it_id iter] ->
  exists rc w', scan_changes iter body w = Done rc w' /\ w_iters w' = iters0.
Proof.
  intros Hb Hfresh Hw.
  destruct (while_changes_tidy iter body (it_changes iter) iters0 Hb Hfresh w Hw)
    as (f & w' & Hr & Hw').
  unfold scan_changes. rewrite bind_run, Hr. destruct f as [|rc].
  - rewrite bind_run. cbn [sr_free_change_iter].
    exists (if sr_error_eq_dec (it_end iter) SR_ERR_NOT_FOUND then SR_ERR_OK else it_end iter).
    eexists.
    split; [destruct (sr_error_eq_dec (it_end iter) SR_ERR_NOT_FOUND); reflexivity|].
    wsimpl. rewrite Hw'. apply remove_fresh_snoc. exact Hfresh.
  - exists rc, w'. split; [reflexivity | exact Hw'].
Qed.

Lemma scan_subtree_tidy (E : environment) (xpath : string)
    (body : sr_change_iter_t -> sr_change -> M flow) (w : world) :
  ~ In (w_next_iter w) (w_iters w) ->
  (forall iter, tidy_body iter (body iter) (cs_changes (e_changes E xpath))) ->
  exists rc w', scan_subtree E xpath body w = Done rc w' /\ w_iters w' = w_iters w.
Proof.
  intros Hfresh Hb. unfold scan_subtree. rewrite bind_run. unfold sr_get_changes_iter.
  destruct (sr_error_eq_dec (cs_open (e_changes E xpath)) SR_ERR_OK) as [Ho|Ho].
  - destruct (sr_error_eq_dec SR_ERR_OK SR_ERR_OK) as [_|Hne]; [|contradiction].
    match goal with
    | |- context [scan_changes ?it _ _] =>
        apply (scan_changes_tidy it (body it) (w_iters w));
          [apply Hb | exact Hfresh | reflexivity]
    end.
  - destruct (sr_error_eq_dec (cs_open (e_changes E xpath)) SR_ERR_OK) as [Hk|_];
      [contradiction|].
    eexists _, _. split; reflexivity.
Qed.

Lemma scan_children_tidy (E : environment) (xpath : string)
    (body : sr_change_iter_t -> sr_change -> M flow) (w : world) :
  ~ In (w_next_iter w) (w_iters w) ->
  (forall iter,
      tidy_body iter (body iter) (cs_changes (e_changes E (xpath ++ "/*")%string))) ->
  exists rc w', scan_children E xpath body w = Done rc w' /\ w_iters w' = w_iters w.
Proof.
  intros Hfresh Hb. unfold scan_children. rewrite bind_run, asprintf_run.
  destruct (e_alloc E (w_allocs w)).
  - rewrite bind_run. unfold sr_get_changes_iter.
    destruct (sr_error_eq_dec (cs_open (e_changes E (xpath ++ "/*")%string)) SR_ERR_OK)
      as [Ho|Ho].
    + destruct (sr_error_eq_dec SR_ERR_OK SR_ERR_OK) as [_|Hne]; [|contradiction].
      match goal with
      | |- context [scan_changes ?it _ _] =>
          apply (scan_changes_tidy it (body it) (w_iters w));
            [apply Hb | exact Hfresh | reflexivity]
      end.
    + destruct (sr_error_eq_dec (cs_open (e_changes E (xpath ++ "/*")%string)) SR_ERR_OK)
        as [Hk|_]; [contradiction|].
      eexists _, _. split; reflexivity.
  - eexists _, _. split; reflexivity.
Qed.

(** A body that ends in the check of one code. *)
Lemma checked_tidy (E : environment) (iter : sr_change_iter_t) (call : nc_call) (w : world) :
  exists f w1,
    (rc <- nc E call ;; check_rc iter rc) w = Done f w1 /\
    w_iters w1 = match f with
                 | Next => w_iters w
                 | Return _ => remove Nat.eq_dec (it_id iter) (w_iters w)
                 end.
Proof.
  rewrite bind_run, nc_run, check_rc_run.
  destruct (nonzero _); eexists _, _; split; reflexivity.
Qed.

Lemma skipped_tidy (iter : sr_change_iter_t) (w : world) :
  exists f w1,
    check_rc iter 0 w = Done f w1 /\
    w_iters w1 = match f with
                 | Next => w_iters w
                 | Return _ => remove Nat.eq_dec (it_id iter) (w_iters w)
                 end.
Proof. exists Next, w. split; reflexivity. Qed.

(** The end of a tidy body once its names are found. *)
Ltac tidy_end :=
  unfold ret;
  repeat first [rewrite bind_run | rewrite nc_run | rewrite check_rc_run];
  unfold ret;
  repeat match goal with
         | |- context [nonzero ?x] => destruct (nonzero x)
         end;
  eexists _, _; split; reflexivity.

Lemma idle_timeout_tidy (iter : sr_change_iter_t) (changes : list sr_change) :
  tidy_body iter np2srv_idle_timeout_change changes.
Proof.
  intros c w _. unfold np2srv_idle_timeout_change.
  destruct (ch_op c); exists Next; eexists; split; reflexivity.
Qed.

Lemma endpt_ssh_tidy (E : environment) (iter : sr_change_iter_t) (changes : list sr_change) :
  forallb (resolves 1) changes = true ->
  tidy_body iter (np2srv_endpt_ssh_change E iter) changes.
Proof.
  intros Hs c w Hin. rewrite forallb_forall in Hs. specialize (Hs c Hin).
  destruct (resolves_some 1 c Hs) as [endpt He].
  unfold np2srv_endpt_ssh_change. rewrite bind_run, resolve_run, He.
  destruct (ch_op c); tidy_end.
Qed.

Lemma ch_client_endpt_ssh_tidy (E : environment) (iter : sr_change_iter_t)
    (changes : list sr_change) :
  forallb (fun c => resolves 1 c && resolves 3 c) changes = true ->
  tidy_body iter (np2srv_ch_client_endpt_ssh_change E iter) changes.
Proof.
  intros Hs c w Hin. rewrite forallb_forall in Hs. specialize (Hs c Hin).
  apply andb_true_iff in Hs as [H1 H3].
  destruct (resolves_some 1 c H1) as [endpt He], (resolves_some 3 c H3) as [client Hc].
  unfold np2srv_ch_client_endpt_ssh_change.
  rewrite bind_run, resolve_run, He, bind_run, resolve_run, Hc.
  destruct (ch_op c); tidy_end.
Qed.

Lemma ch_client_tidy (E : environment) (iter : sr_change_iter_t) (changes : list sr_change) :
  forallb (resolves 0) changes = true ->
  tidy_body iter (np2srv_ch_client_change E iter) changes.
Proof.
  intros Hs c w Hin. rewrite forallb_forall in Hs. specialize (Hs c Hin).
  destruct (resolves_some 0 c Hs) as [client Hc].
  unfold np2srv_ch_client_change. rewrite bind_run, key_of_run, Hc.
  destruct (ch_op c); try tidy_end.
  rewrite bind_run, bind_run, nc_run.
  destruct (nonzero (e_nc E (w_calls w) (nc_server_ch_add_client client))) eqn:Hn.
  - unfold ret. rewrite check_rc_run, Hn. eexists _, _. split; reflexivity.
  - tidy_end.
Qed.

Lemma hostkey_tidy (E : environment) (iter : sr_change_iter_t) (changes : list sr_change) :
  forallb (fun c => resolves 4 c && resolves 0 c) changes = true ->
  tidy_body iter (np2srv_endpt_ssh_hostkey_change E iter) changes.
Proof.
  intros Hs c w Hin. rewrite forallb_forall in Hs. specialize (Hs c Hin).
  apply andb_true_iff in Hs as [H4 H0].
  destruct (resolves_some 4 c H4) as [endpt He], (resolves_some 0 c H0) as [key Hk].
  unfold np2srv_endpt_ssh_hostkey_change. rewrite bind_run, resolve_run, He.
  destruct (ch_op c); rewrite ?bind_run, ?key_of_run, ?Hk; tidy_end.
Qed.

Lemma ch_hostkey_tidy (E : environment) (iter : sr_change_iter_t) (changes : list sr_change) :
  forallb (fun c => resolves 4 c && resolves 6 c && resolves 0 c) changes = true ->
  tidy_body iter (np2srv_ch_endpt_ssh_hostkey_change E iter) changes.
Proof.
  intros Hs c w Hin. rewrite forallb_forall in Hs. specialize (Hs c Hin).
  apply andb_true_iff in Hs as [Hs H0]. apply andb_true_iff in Hs as [H4 H6].
  destruct (resolves_some 4 c H4) as [endpt He], (resolves_some 6 c H6) as [client Hc],
    (resolves_some 0 c H0) as [key Hk].
  unfold np2srv_ch_endpt_ssh_hostkey_change.
  rewrite bind_run, resolve_run, He, bind_run, resolve_run, Hc.
  destruct (ch_op c); rewrite ?bind_run, ?key_of_run, ?Hk; tidy_end.
Qed.

Lemma auth_methods_tidy (E : environment) (iter : sr_change_iter_t) (changes : list sr_change) :
  forallb (resolves 5) changes = true ->
  tidy_body iter (np2srv_endpt_ssh_auth_methods_change E iter) changes.
Proof.
  intros Hs c w Hin. rewrite forallb_forall in Hs. specialize (Hs c Hin).
  destruct (resolves_some 5 c Hs) as [endpt He].
  unfold np2srv_endpt_ssh_auth_methods_change. rewrite bind_run, resolve_run, He.
  rewrite bind_run, nc_run. cbv zeta. tidy_end.
Qed.

Lemma ch_auth_methods_tidy (E : environment) (iter : sr_change_iter_t)
    (changes : list sr_change) :
  forallb (fun c => resolves 5 c && resolves 7 c) changes = true ->
  tidy_body iter (np2srv_ch_endpt_ssh_auth_methods_change E iter) changes.
Proof.
  intros Hs c w Hin. rewrite forallb_forall in Hs. specialize (Hs c Hin).
  apply andb_true_iff in Hs as [H5 H7].
  destruct (resolves_some 5 c H5) as [endpt He], (resolves_some 7 c H7) as [client Hc].
  unfold np2srv_ch_endpt_ssh_auth_methods_change.
  rewrite bind_run, resolve_run, He, bind_run, resolve_run, Hc.
  rewrite bind_run, nc_run. cbv zeta. tidy_end.
Qed.

Lemma auth_params_tidy (E : environment) (iter : sr_change_iter_t) (changes : list sr_change) :
  forallb (resolves 4) changes = true ->
  tidy_body iter (np2srv_endpt_ssh_keepalives_change E iter) changes.
Proof.
  intros Hs c w Hin. rewrite forallb_forall in Hs. specialize (Hs c Hin).
  destruct (resolves_some 4 c Hs) as [endpt He].
  unfold np2srv_endpt_ssh_keepalives_change. rewrite bind_run, resolve_run, He.
  destruct (streq (schema_name (ch_node c)) "max-wait"); [destruct (ch_op c); tidy_end|].
  destruct (streq (schema_name (ch_node c)) "max-attempts"); [destruct (ch_op c); tidy_end|].
  tidy_end.
Qed.

Lemma ch_auth_params_tidy (E : environment) (iter : sr_change_iter_t)
    (changes : list sr_change) :
  forallb (fun c => resolves 4 c && resolves 6 c) changes = true ->
  tidy_body iter (np2srv_ch_endpt_ssh_keepalives_change E iter) changes.
Proof.
  intros Hs c w Hin. rewrite forallb_forall in Hs. specialize (Hs c Hin).
  apply andb_true_iff in Hs as [H4 H6].
  destruct (resolves_some 4 c H4) as [endpt He], (resolves_some 6 c H6) as [client Hc].
  unfold np2srv_ch_endpt_ssh_keepalives_change.
  rewrite bind_run, resolve_run, He, bind_run, resolve_run, Hc.
  destruct (streq (schema_name (ch_node c)) "max-wait"); [destruct (ch_op c); tidy_end|].
  destruct (streq (schema_name (ch_node c)) "max-attempts"); [destruct (ch_op c); tidy_end|].
  tidy_end.
Qed.

Lemma periodic_tidy (E : environment) (client : string) (iter : sr_change_iter_t)
    (changes : list sr_change) :
  tidy_body iter (np2srv_ch_periodic_connection_change E client iter) changes.
Proof.
  intros c w _. unfold np2srv_ch_periodic_connection_change.
  destruct (streq (schema_name (ch_node c)) "period"); [destruct (ch_op c); tidy_end|].
  destruct (streq (schema_name (ch_node c)) "anchor-time"); [destruct (ch_op c); tidy_end|].
  destruct (streq (schema_name (ch_node c)) "idle-timeout"); [destruct (ch_op c); tidy_end|].
  tidy_end.
Qed.

Lemma reconnect_tidy (E : environment) (iter : sr_change_iter_t) (changes : list sr_change) :
  forallb (resolves 2) changes = true ->
  tidy_body iter (np2srv_ch_reconnect_strategy_change E iter) changes.
Proof.
  intros Hs c w Hin. rewrite forallb_forall in Hs. specialize (Hs c Hin).
  destruct (resolves_some 2 c Hs) as [client Hc].
  unfold np2srv_ch_reconnect_strategy_change. rewrite bind_run, resolve_run, Hc.
  destruct (streq (schema_name (ch_node c)) "start-with").
  { destruct (ch_op c); try tidy_end; cbv zeta;
      (destruct (streq (value_str (ch_node c)) "first-listed"); [tidy_end|]);
      (destruct (streq (value_str (ch_node c)) "last-connected"); [tidy_end|]);
      (destruct (streq (value_str (ch_node c)) "random-selection"); tidy_end). }
  destruct (streq (schema_name (ch_node c)) "max-attempts"); [destruct (ch_op c); tidy_end|].
  tidy_end.
Qed.

Lemma tcp_keepalives_tidy (E : environment) (client_name : option string)
    (endpt xpath : string) (w : world) :
  ~ In (w_next_iter w) (w_iters w) ->
  exists rc w',
    np2srv_tcp_keepalives E client_name endpt xpath w = Done rc w' /\
    w_iters w' = w_iters w.
Proof.
  intros Hfresh. unfold np2srv_tcp_keepalives. rewrite bind_run. unfold sr_get_changes_iter.
  destruct (sr_error_eq_dec (cs_open (e_changes E xpath)) SR_ERR_OK) as [Ho|Ho].
  - destruct (sr_error_eq_dec SR_ERR_OK SR_ERR_OK) as [_|Hne]; [|contradiction].
    cbn [it_changes it_end it_id].
    destruct (fold_left np2srv_tcp_keepalives_change (cs_changes (e_changes E xpath))
                (-1, -1, -1)) as [[i m] p].
    rewrite bind_run. cbn [sr_free_change_iter it_id]. wsimpl.
    rewrite (remove_fresh_snoc _ _ Hfresh).
    destruct (sr_error_eq_dec (cs_end (e_changes E xpath)) SR_ERR_NOT_FOUND) as [He|He].
    + rewrite bind_run. destruct client_name as [client|]; rewrite nc_run;
        destruct (nonzero _); eexists _, _; split; reflexivity.
    + eexists _, _. split; reflexivity.
  - destruct (sr_error_eq_dec (cs_open (e_changes E xpath)) SR_ERR_OK) as [Hk|_];
      [contradiction|].
    eexists _, _. split; reflexivity.
Qed.

(** X3: a callback started with a fresh iterator handle returns with the
    iterators that were open before it, whatever the live server answers and
    whether the scan ends, stops at a failed call or cannot start: the idle
    timeout, endpoint, client, host-key, authentication-method,
    authentication-parameter and reconnect callbacks, the scan of the
    periodic parameters and the scan of the keepalive parameters free the
    iterator they obtain on every path, given the ancestors they walk to. *)
Theorem iterator_given_back (E : environment) (xpath : string) (w : world) :
  ~ In (w_next_iter w) (w_iters w) ->
  gives_back (np2srv_idle_timeout_cb E xpath) w /\
  (forallb (resolves 1) (cs_changes (e_changes E xpath)) = true ->
   gives_back (np2srv_endpt_ssh_cb E xpath) w) /\
  (forallb (fun c => resolves 4 c && resolves 0 c) (cs_changes (e_changes E xpath)) = true ->
   gives_back (np2srv_endpt_ssh_hostkey_cb E xpath) w) /\
  (forallb (resolves 0) (cs_changes (e_changes E xpath)) = true ->
   gives_back (np2srv_ch_client_cb E xpath) w) /\
  (forallb (fun c => resolves 1 c && resolves 3 c) (cs_changes (e_changes E xpath)) = true ->
   gives_back (np2srv_ch_client_endpt_ssh_cb E xpath) w) /\
  (forallb (fun c => resolves 4 c && resolves 6 c && resolves 0 c)
     (cs_changes (e_changes E xpath)) = true ->
   gives_back (np2srv_ch_endpt_ssh_hostkey_cb E xpath) w) /\
  (forall client, gives_back (np2srv_ch_periodic_connection_params E client xpath) w) /\
  (forall client_name endpt, gives_back (np2srv_tcp_keepalives E client_name endpt xpath) w) /\
  (forallb (resolves 5) (cs_changes (e_changes E (xpath ++ "/*")%string)) = true ->
   gives_back (np2srv_endpt_ssh_auth_methods_cb E xpath) w) /\
  (forallb (fun c => resolves 5 c && resolves 7 c)
     (cs_changes (e_changes E (xpath ++ "/*")%string)) = true ->
   gives_back (np2srv_ch_endpt_ssh_auth_methods_cb E xpath) w) /\
  (forallb (resolves 4) (cs_changes (e_changes E (xpath ++ "/*")%string)) = true ->
   gives_back (np2srv_endpt_ssh_keepalives_cb E xpath) w) /\
  (forallb (fun c => resolves 4 c && resolves 6 c)
     (cs_changes (e_changes E (xpath ++ "/*")%string)) = true ->
   gives_back (np2srv_ch_endpt_ssh_keepalives_cb E xpath) w) /\
  (forallb (resolves 2) (cs_changes (e_changes E (xpath ++ "/*")%string)) = true ->
   gives_back (np2srv_ch_reconnect_strategy_cb E xpath) w).
Proof.
  intros Hfresh. unfold gives_back.
  split; [apply (scan_subtree_tidy E xpath (fun _ => np2srv_idle_timeout_change));
          [exact Hfresh | intros iter; apply idle_timeout_tidy]|].
  split; [intros Hs; apply scan_subtree_tidy;
          [exact Hfresh | intros iter; apply endpt_ssh_tidy; exact Hs]|].
  split; [intros Hs; apply scan_subtree_tidy;
          [exact Hfresh | intros iter; apply hostkey_tidy; exact Hs]|].
  split; [intros Hs; apply scan_subtree_tidy;
          [exact Hfresh | intros iter; apply ch_client_tidy; exact Hs]|].
  split; [intros Hs; apply scan_subtree_tidy;
          [exact Hfresh | intros iter; apply ch_client_endpt_ssh_tidy; exact Hs]|].
  split; [intros Hs; apply scan_subtree_tidy;
          [exact Hfresh | intros iter; apply ch_hostkey_tidy; exact Hs]|].
  split; [intros client; apply scan_subtree_tidy;
          [exact Hfresh | intros iter; apply periodic_tidy]|].
  split; [intros client_name endpt; apply tcp_keepalives_tidy; exact Hfresh|].
  split; [intros Hs; apply scan_children_tidy;
          [exact Hfresh | intros iter; apply auth_methods_tidy; exact Hs]|].
  split; [intros Hs; apply scan_children_tidy;
          [exact Hfresh | intros iter; apply ch_auth_methods_tidy; exact Hs]|].
  split; [intros Hs; apply scan_children_tidy;
          [exact Hfresh | intros iter; apply auth_params_tidy; exact Hs]|].
  split; [intros Hs; apply scan_children_tidy;
          [exact Hfresh | intros iter; apply ch_auth_params_tidy; exact Hs]|].
  intros Hs; apply scan_children_tidy;
    [exact Hfresh | intros iter; apply reconnect_tidy; exact Hs].
Qed.

Lemma iterator_given_back_witness :
  gives_back (np2srv_endpt_ssh_hostkey_cb (refuses_k2 (with_changes three_hostkeys quiet))
                hostkey_xpath_listen)
    world0.
Proof.
  apply (iterator_given_back (refuses_k2 (with_changes three_hostkeys quiet))
           hostkey_xpath_listen world0).
  - intros H. exact H.
  - reflexivity.
Defined.

(* ------------------------------------------------------------------ *)
(** ** Scalar/default reconciler: the idle timeout after a scan *)

Lemma idle_timeout_loop (changes : list sr_change) (w : world) :
  exists w',
    while_changes np2srv_idle_timeout_change changes w = Done Next w' /\
    w_iters w' = w_iters w /\
    w_calls w' =
    w_calls w ++ map (fun c => (nc_server_set_idle_timeout (value_uint (ch_node c)), 0))
                     (filter carries_idle_timeout changes).
Proof.
  revert w. induction changes as [|c rest IH]; intros w.
  - exists w. cbn. rewrite app_nil_r. repeat split.
  - cbn [while_changes filter]. rewrite bind_run.
    unfold np2srv_idle_timeout_change at 1, carries_idle_timeout at 1.
    destruct (ch_op c).
    + rewrite bind_run. cbn [nc_void]. unfold ret.
      destruct (IH (set_calls w (w_calls w ++
                      [(nc_server_set_idle_timeout (value_uint (ch_node c)), 0)])))
        as (w' & Hr & Hi & Hc).
      exists w'. split; [exact Hr|]. split; [exact Hi|].
      rewrite Hc. wsimpl. rewrite <- app_assoc. reflexivity.
    + rewrite bind_run. cbn [nc_void]. unfold ret.
      destruct (IH (set_calls w (w_calls w ++
                      [(nc_server_set_idle_timeout (value_uint (ch_node c)), 0)])))
        as (w' & Hr & Hi & Hc).
      exists w'. split; [exact Hr|]. split; [exact Hi|].
      rewrite Hc. wsimpl. rewrite <- app_assoc. reflexivity.
    + unfold ret. apply IH.
    + unfold ret. apply IH.
Qed.

Lemma live_idle_timeout_app (before : Z) (l1 l2 : list (nc_call * Z)) :
  live_idle_timeout before (l1 ++ l2) = live_idle_timeout (live_idle_timeout before l1) l2.
Proof. unfold live_idle_timeout. apply fold_left_app. Qed.

Lemma live_idle_timeout_last (changes : list sr_change) (v : Z) :
  live_idle_timeout v
    (map (fun c => (nc_server_set_idle_timeout (value_uint (ch_node c)), 0))
         (filter carries_idle_timeout changes)) =
  match last_idle_timeout changes with
  | Some t => t
  | None => v
  end.
Proof.
  unfold last_idle_timeout. revert v.
  induction changes as [|c rest IH] using rev_ind; intros v; [reflexivity|].
  rewrite rev_app_distr, filter_app, map_app, live_idle_timeout_app.
  cbn [rev app find filter].
  destruct (carries_idle_timeout c); [reflexivity|].
  cbn [map]. unfold live_idle_timeout at 1. cbn [fold_left]. apply IH.
Qed.

(** X4: once its iterator is open, [np2srv_idle_timeout_cb] cannot fail on
    account of the live server: it returns [SR_ERR_OK] when the iterator ends
    exhausted and the iterator's error otherwise, with the iterator freed,
    and the live server then holds the value of the last Created or Modified
    change of the set, or what it held before when the set has none. *)
Theorem idle_timeout_reconciled (E : environment) (xpath : string) (w : world) (before : Z) :
  cs_open (e_changes E xpath) = SR_ERR_OK ->
  ~ In (w_next_iter w) (w_iters w) ->
  exists w',
    np2srv_idle_timeout_cb E xpath w =
    Done (if sr_error_eq_dec (cs_end (e_changes E xpath)) SR_ERR_NOT_FOUND
          then SR_ERR_OK else cs_end (e_changes E xpath)) w' /\
    w_iters w' = w_iters w /\
    live_idle_timeout before (w_calls w') =
    match last_idle_timeout (cs_changes (e_changes E xpath)) with
    | Some t => t
    | None => live_idle_timeout before (w_calls w)
    end.
Proof.
  intros Hopen Hfresh. unfold np2srv_idle_timeout_cb, scan_subtree.
  rewrite bind_run. unfold sr_get_changes_iter. rewrite Hopen.
  destruct (sr_error_eq_dec SR_ERR_OK SR_ERR_OK) as [_|Hne]; [|contradiction].
  destruct (sr_error_eq_dec SR_ERR_OK SR_ERR_OK) as [_|Hne]; [|contradiction].
  unfold scan_changes. rewrite bind_run. cbn [it_changes it_end it_id].
  destruct (idle_timeout_loop (cs_changes (e_changes E xpath))
              (set_iters w (w_iters w ++ [w_next_iter w]) (S (w_next_iter w))))
    as (w' & Hr & Hi & Hc).
  rewrite Hr. rewrite bind_run. cbn [sr_free_change_iter it_id].
  eexists. split.
  { destruct (sr_error_eq_dec (cs_end (e_changes E xpath)) SR_ERR_NOT_FOUND); reflexivity. }
  wsimpl. split.
  - rewrite Hi. wsimpl. apply remove_fresh_snoc. exact Hfresh.
  - rewrite Hc. wsimpl. rewrite live_idle_timeout_app. apply live_idle_timeout_last.
Qed.

Lemma idle_timeout_reconciled_witness :
  exists w',
    np2srv_idle_timeout_cb (with_changes [idle_timeout_deleted] quiet) idle_timeout_xpath world0 =
    Done SR_ERR_OK w' /\
    w_iters w' = [] /\
    live_idle_timeout 100 (w_calls w') = 100.
Proof.
  apply (idle_timeout_reconciled (with_changes [idle_timeout_deleted] quiet)
           idle_timeout_xpath world0 100).
  - reflexivity.
  - intros H. exact H.
Defined.

(* ------------------------------------------------------------------ *)
(** ** Key-material resolver: what a returned result means *)

Lemma hostkey_cb_no_session (E : environment) (name : string) (w : world) :
  e_session_start E <> SR_ERR_OK ->
  np2srv_hostkey_cb E name w =
  Done {| hk_rc := -1; hk_privkey_data := None; hk_privkey_type := None |} w.
Proof.
  intros Hs. unfold np2srv_hostkey_cb. rewrite bind_run. unfold sr_session_start.
  destruct (sr_error_eq_dec (e_session_start E) SR_ERR_OK) as [Heq|_]; [contradiction|].
  destruct (sr_error_eq_dec (e_session_start E) SR_ERR_OK) as [Heq|_]; [contradiction|].
  reflexivity.
Qed.

Lemma hostkey_cb_no_path (E : environment) (name : string) (w : world) :
  e_session_start E = SR_ERR_OK ->
  e_alloc E (w_allocs w) = false ->
  value_of (np2srv_hostkey_cb E name w) = None.
Proof.
  intros Hs Ha. unfold np2srv_hostkey_cb. rewrite bind_run. unfold sr_session_start.
  rewrite Hs. simpl. rewrite bind_run, asprintf_run. wsimpl. rewrite Ha. reflexivity.
Qed.

(** X5: what [np2srv_hostkey_cb] hands back when it returns.  The code is 0
    or -1.  It is 0 only with the session started, the subtree fetched, both
    leaves found, an identity name that begins with [rsa] or [secp] and the
    copy allocated, and then the key data is the value of the [private-key]
    leaf, unchanged, and the type is the one of the identity; under these
    conditions the code is 0.  With -1 no key data is handed back.  The
    sessions and subtrees held are those held before the call. *)
Theorem hostkey_resolution_result (E : environment) (name : string) (w w' : world)
    (r : hostkey_result) :
  np2srv_hostkey_cb E name w = Done r w' ->
  (hk_rc r = 0 ->
   exists d alg privkey type,
     e_session_start E = SR_ERR_OK /\
     e_subtree E (hostkey_xpath name) = (SR_ERR_OK, Some d) /\
     hostkey_leaves d = (Some alg, Some privkey) /\
     key_type_of_identity (value_ident alg) = Some type /\
     e_alloc E (S (w_allocs w)) = true /\
     hk_privkey_data r = Some (value_str privkey) /\
     hk_privkey_type r = Some type) /\
  (forall d alg privkey type,
     e_session_start E = SR_ERR_OK ->
     e_subtree E (hostkey_xpath name) = (SR_ERR_OK, Some d) ->
     hostkey_leaves d = (Some alg, Some privkey) ->
     key_type_of_identity (value_ident alg) = Some type ->
     e_alloc E (S (w_allocs w)) = true ->
     r = {| hk_rc := 0; hk_privkey_data := Some (value_str privkey);
            hk_privkey_type := Some type |}) /\
  (hk_rc r <> 0 -> hk_rc r = -1 /\ hk_privkey_data r = None) /\
  w_sessions w' = w_sessions w /\ w_trees w' = w_trees w.
Proof.
  intros Hrun.
  destruct (sr_error_eq_dec (e_session_start E) SR_ERR_OK) as [Hs|Hs].
  2:{ rewrite (hostkey_cb_no_session E name w Hs) in Hrun.
      injection Hrun as <- <-. cbn [hk_rc hk_privkey_data hk_privkey_type].
      split; [discriminate|]. split; [intros d alg privkey type Hk; contradiction|].
      split; [intros _; split; reflexivity | split; reflexivity]. }
  destruct (e_alloc E (w_allocs w)) eqn:Ha.
  2:{ pose proof (hostkey_cb_no_path E name w Hs Ha) as Hn. rewrite Hrun in Hn.
      discriminate Hn. }
  destruct (e_subtree E (hostkey_xpath name)) as [rr data] eqn:Hd.
  assert (Hfetch := hostkey_cb_fetch E name w Hs Ha). rewrite Hd in Hfetch. cbv zeta in Hfetch.
  destruct rr; try (rewrite Hfetch in Hrun; discriminate Hrun).
  destruct data as [d|]; [|rewrite Hfetch in Hrun; discriminate Hrun].
  clear Hfetch.
  destruct (hostkey_cb_present E name w d Hs Ha Hd) as (w'' & Hp & Hsess & Htrees).
  rewrite Hp in Hrun. injection Hrun as <- <-.
  destruct (hostkey_leaves d) as [[alg|] [privkey|]] eqn:Hl.
  - destruct (key_type_of_identity (value_ident alg)) as [type|] eqn:Ht.
    + destruct (e_alloc E (S (w_allocs w))) eqn:Ha2;
        cbn [hk_rc hk_privkey_data hk_privkey_type].
      * split; [intros _; exists d, alg, privkey, type; repeat split; assumption|].
        split; [intros d0 alg0 privkey0 type0 _ H1 H2 H3 _;
                injection H1 as <-; rewrite Hl in H2; injection H2 as <- <-;
                rewrite Ht in H3; injection H3 as <-; reflexivity|].
        split; [intros H; contradiction | split; assumption].
      * split; [discriminate|].
        split; [intros d0 alg0 privkey0 type0 _ _ _ _ H; discriminate H|].
        split; [intros _; split; reflexivity | split; assumption].
    + cbn [hk_rc hk_privkey_data hk_privkey_type].
      split; [discriminate|].
      split; [intros d0 alg0 privkey0 type0 _ H1 H2 H3 _;
              injection H1 as <-; rewrite Hl in H2; injection H2 as <- <-;
              rewrite Ht in H3; discriminate H3|].
      split; [intros _; split; reflexivity | split; assumption].
  - cbn [hk_rc hk_privkey_data hk_privkey_type].
    split; [discriminate|].
    split; [intros d0 alg0 privkey0 type0 _ H1 H2 _ _;
            injection H1 as <-; rewrite Hl in H2; discriminate H2|].
    split; [intros _; split; reflexivity | split; assumption].
  - cbn [hk_rc hk_privkey_data hk_privkey_type].
    split; [discriminate|].
    split; [intros d0 alg0 privkey0 type0 _ H1 H2 _ _;
            injection H1 as <-; rewrite Hl in H2; discriminate H2|].
    split; [intros _; split; reflexivity | split; assumption].
  - cbn [hk_rc hk_privkey_data hk_privkey_type].
    split; [discriminate|].
    split; [intros d0 alg0 privkey0 type0 _ H1 H2 _ _;
            injection H1 as <-; rewrite Hl in H2; discriminate H2|].
    split; [intros _; split; reflexivity | split; assumption].
Qed.

Lemma hostkey_resolution_result_witness :
  (hk_rc ecdsa_result = 0 ->
   exists d alg privkey type,
     e_session_start ecdsa_hostkey = SR_ERR_OK /\
     e_subtree ecdsa_hostkey (hostkey_xpath "key1") = (SR_ERR_OK, Some d) /\
     hostkey_leaves d = (Some alg, Some privkey) /\
     key_type_of_identity (value_ident alg) = Some type /\
     e_alloc ecdsa_hostkey (S (w_allocs world0)) = true /\
     hk_privkey_data ecdsa_result = Some (value_str privkey) /\
     hk_privkey_type ecdsa_result = Some type) /\
  w_sessions (world_of (np2srv_hostkey_cb ecdsa_hostkey "key1" world0)) = w_sessions world0.
Proof.
  pose proof (hostkey_resolution_result ecdsa_hostkey "key1" world0
                (world_of (np2srv_hostkey_cb ecdsa_hostkey "key1" world0)) ecdsa_result
                eq_refl) as (H1 & _ & _ & H4 & _).
  split; [exact H1 | exact H4].
Defined.

(* ------------------------------------------------------------------ *)
(** ** Authorized-key enumerator: the user list as a function of the accounts *)

Lemma authorized_keys_lines_keys (E : environment) (lines : list string) :
  never_fails E ->
  no_line_fault lines = true ->
  forall (idx : Z) (us : list user_entry) (u : user_entry) (w : world),
    w_users w = us ++ [u] ->
    1 <= idx ->
    idx + Z.of_nat (recognized_keys lines) <= 100 ->
    exists w',
      authorized_keys_lines E lines idx w = Done true w' /\
      w_users w' = us ++ [with_keys u (keys_of_lines lines idx)].
Proof.
  intros HE. induction lines as [|l lines IH]; intros Hnf idx us u w Hu Hidx Hle.
  - exists w. split; [reflexivity|].
    rewrite Hu. unfold with_keys. cbn [keys_of_lines]. rewrite app_nil_r.
    destruct u; reflexivity.
  - simpl in Hnf. apply andb_true_iff in Hnf as [Hl Hnf].
    specialize (IH Hnf). rewrite recognized_keys_cons in Hle.
    cbn [authorized_keys_lines keys_of_lines].
    rewrite bind_run, authorized_keys_line_classify.
    destruct (classify l) as [|alg alen data dlen|f]; cbn [is_key] in Hle.
    + cbn [nonzero Z.eqb negb]. apply IH; assumption.
    + rewrite (user_add_auth_key_run E _ _ _ _ _ _ HE).
      rewrite name_fits_upto_99 by lia. cbn [nonzero Z.eqb negb].
      rewrite Z.mod_small by lia.
      assert (Hu' : w_users (after 6 (add_key (full_key (key_name idx) (strn alg alen)
                                                 (strn data dlen)) (w_users w)) w)
                    = us ++ [with_keys u [full_key (key_name idx) (strn alg alen)
                                            (strn data dlen)]]).
      { rewrite w_users_after, Hu. apply add_key_last. }
      destruct (IH (idx + 1) us _ _ Hu') as (w' & Hrun & Hus); [lia | lia |].
      exists w'. split; [exact Hrun|]. rewrite Hus, with_keys_app. reflexivity.
    + discriminate.
Qed.

Lemma users_loop_enumerates (E : environment) (accounts : list passwd) :
  never_fails E ->
  forallb (readable_account E) accounts = true ->
  forall w,
    exists w',
      users_loop E accounts w = Done SR_ERR_OK w' /\
      w_users w' = w_users w ++ map (fun pwd => user_of pwd (keys_of_account E pwd)) accounts.
Proof.
  intros HE. induction accounts as [|pwd rest IH]; intros Hr w.
  - exists w. split; [reflexivity|]. cbn [map]. rewrite app_nil_r. reflexivity.
  - cbn [forallb] in Hr. apply andb_true_iff in Hr as [Hp Hr]. specialize (IH Hr).
    rewrite (users_loop_step E pwd rest w HE). cbv zeta.
    unfold readable_account in Hp. unfold keys_of_account at 1. cbn [map].
    destruct (e_fopen E (authorized_keys_path pwd)) as [errno|f].
    + rewrite Hp. cbn [negb].
      destruct (IH (after 3 (w_users w ++ [{| u_name := Some (pw_name pwd); u_keys := [] |}]) w))
        as (w' & Hrun & Hus).
      exists w'. split; [exact Hrun|].
      rewrite Hus, w_users_after, <- app_assoc. reflexivity.
    + apply andb_true_iff in Hp as [Hp Hn]. apply andb_true_iff in Hp as [Hf Hnf].
      apply Nat.leb_le in Hn. apply negb_true_iff in Hf.
      destruct (authorized_keys_lines_keys E (file_lines (f_content f)) HE Hnf 1
                  (w_users w) {| u_name := Some (pw_name pwd); u_keys := [] |}
                  (after 3 (w_users w ++ [{| u_name := Some (pw_name pwd); u_keys := [] |}]) w))
        as (w1 & Hrun1 & Hus1); [apply w_users_after | lia | lia |].
      rewrite Hrun1, Hf. cbn [negb].
      destruct (IH w1) as (w' & Hrun & Hus).
      exists w'. split; [exact Hrun|].
      rewrite Hus, Hus1, <- app_assoc. reflexivity.
Qed.



(* ------------------------------------------------------------------ *)
(** ** Authorized-key enumerator: key lines *)

Lemma prefix_field (p t more : string) :
  is_field p = true ->
  prefix p (t ++ String space more) = prefix p t.
Proof.
  unfold is_field. revert t. induction p as [|a p IH]; intros t Hp; [destruct t; reflexivity|].
  cbn [strchr] in Hp. destruct (Ascii.eqb_spec a space) as [Heq|Hne]; [discriminate|].
  destruct t as [|b t].
  - cbn [append prefix]. destruct (ascii_dec a space) as [Heq|_]; [contradiction | reflexivity].
  - cbn [append prefix]. destruct (ascii_dec a b); [apply IH; exact Hp | reflexivity].
Qed.

Lemma is_key_type_field (t more : string) :
  is_key_type (t ++ String space more) = is_key_type t.
Proof. unfold is_key_type. rewrite !prefix_field by reflexivity. reflexivity. Qed.

Lemma strchr_field (t more : string) :
  is_field t = true -> strchr (t ++ String space more) space = Some (String space more).
Proof.
  unfold is_field. induction t as [|a t IH]; intros Ht.
  - cbn [append strchr]. rewrite Ascii.eqb_refl. reflexivity.
  - cbn [strchr] in Ht. cbn [append strchr].
    destruct (Ascii.eqb a space); [discriminate | apply IH; exact Ht].
Qed.

Lemma length_field (t more : string) :
  String.length (t ++ more) = (String.length t + String.length more)%nat.
Proof. induction t as [|a t IH]; cbn; [reflexivity | rewrite IH; reflexivity]. Qed.

Lemma strn_field (t more : string) : strn (t ++ more) (String.length t) = t.
Proof.
  unfold strn. induction t as [|a t IH]; cbn.
  - destruct more; reflexivity.
  - rewrite IH. reflexivity.
Qed.

Lemma append_append (a b c : string) : ((a ++ b) ++ c)%string = (a ++ (b ++ c))%string.
Proof. induction a as [|x a IH]; cbn; [reflexivity | rewrite IH; reflexivity]. Qed.

Lemma ptrdiff_field (t more : string) : ptrdiff more (t ++ more) = String.length t.
Proof. unfold ptrdiff. rewrite length_field. lia. Qed.

(** The search walks over the option fields and stops at the key type. *)
Lemma find_algorithm_options (fields : list string) (tail : string) (w : world) :
  forallb (fun f => is_field f && negb (is_key_type f)) fields = true ->
  is_key_type tail = true ->
  forall fuel, (String.length (options fields ++ tail) < fuel)%nat ->
    find_algorithm fuel (options fields ++ tail) w = Done (Some tail) w.
Proof.
  intros Hf Ht. induction fields as [|f rest IH]; intros fuel Hl.
  - destruct fuel as [|fuel]; [lia|]. cbn [options append find_algorithm].
    unfold is_key_type in Ht.
    destruct (prefix "ssh-dss" tail), (prefix "ssh-rsa" tail), (prefix "ecdsa" tail);
      try discriminate Ht; reflexivity.
  - cbn [forallb] in Hf. apply andb_true_iff in Hf as [Hf Hrest].
    apply andb_true_iff in Hf as [Hfield Hno]. apply negb_true_iff in Hno.
    destruct fuel as [|fuel]; [lia|].
    cbn [options] in *. rewrite append_append in *.
    cbn [append] in *.
    assert (Hk : is_key_type (f ++ String space (options rest ++ tail)) = false).
    { rewrite is_key_type_field. exact Hno. }
    cbn [find_algorithm].
    unfold is_key_type in Hk.
    destruct (prefix "ssh-dss" (f ++ String space (options rest ++ tail))),
             (prefix "ssh-rsa" (f ++ String space (options rest ++ tail))),
             (prefix "ecdsa" (f ++ String space (options rest ++ tail)));
      try discriminate Hk.
    cbn [negb andb]. rewrite (strchr_field _ _ Hfield). cbn [incr].
    apply (IH Hrest). rewrite length_field in Hl. cbn [String.length] in Hl. lia.
Qed.

Lemma classify_key_line (fields : list string) (alg data rest : string) :
  forallb (fun f => is_field f && negb (is_key_type f)) fields = true ->
  is_key_type alg = true -> is_field alg = true -> is_field data = true ->
  is_comment (options fields ++ alg ++ String space (data ++ String space rest)) = false ->
  classify (options fields ++ alg ++ String space (data ++ String space rest)) =
  LineKey (alg ++ String space (data ++ String space rest)) (String.length alg)
          (data ++ String space rest) (String.length data).
Proof.
  intros Hf Hk Ha Hd Hc.
  assert (Htail : is_key_type (alg ++ String space (data ++ String space rest)) = true).
  { rewrite is_key_type_field. exact Hk. }
  unfold classify.
  destruct (options fields ++ alg ++ String space (data ++ String space rest))%string
    as [|c tl] eqn:Hline.
  { destruct fields; [destruct alg; discriminate|].
    cbn [options] in Hline. destruct s; discriminate. }
  cbn [is_comment] in Hc. rewrite Hc. rewrite <- Hline.
  rewrite (find_algorithm_options fields _ world0 Hf Htail) by lia.
  rewrite (strchr_field _ _ Ha). cbn [incr].
  rewrite (strchr_field _ _ Hd).
  rewrite ptrdiff_field, ptrdiff_field. reflexivity.
Qed.





(* ------------------------------------------------------------------ *)
(** ** Authorized-key enumerator: allocations of one key *)

Lemma lyd_new_authkey_alloc (E : environment) (w : world) :
  exists w',
    lyd_new_authkey E w = Done (e_alloc E (w_allocs w)) w' /\
    w_allocs w' = S (w_allocs w) /\
    w_users w' =
    if e_alloc E (w_allocs w)
    then add_key {| ak_name := None; ak_algorithm := None; ak_key_data := None |} (w_users w)
    else w_users w.
Proof.
  unfold lyd_new_authkey. rewrite bind_run, alloc_run.
  destruct (e_alloc E (w_allocs w)); eexists; repeat split.
Qed.

Lemma lyd_new_leaf_authkey_alloc (E : environment) (leaf value : string) (w : world) :
  exists w',
    lyd_new_leaf_authkey E leaf value w = Done (e_alloc E (w_allocs w)) w' /\
    w_allocs w' = S (w_allocs w) /\
    w_users w' =
    if e_alloc E (w_allocs w)
    then update_last (fun u => {| u_name := u_name u;
                                  u_keys := update_last (set_leaf leaf value) (u_keys u) |})
                     (w_users w)
    else w_users w.
Proof.
  unfold lyd_new_leaf_authkey. rewrite bind_run, alloc_run.
  destruct (e_alloc E (w_allocs w)); eexists; repeat split.
Qed.

Lemma strdup_alloc (E : environment) (s : string) (w : world) :
  exists w',
    strdup E s w = Done (if e_alloc E (w_allocs w) then Some s else None) w' /\
    w_allocs w' = S (w_allocs w) /\ w_users w' = w_users w.
Proof. rewrite strdup_run. eexists. repeat split. Qed.

(** The leaves of the key entry added last, set one after the other. *)
Lemma set_leaves_of_new_key (k : authorized_key) (us : list user_entry)
    (f : authorized_key -> authorized_key) :
  update_last (fun u => {| u_name := u_name u; u_keys := update_last f (u_keys u) |})
    (add_key k us) =
  add_key (f k) us.
Proof.
  unfold add_key. rewrite update_last_compose. apply update_last_ext.
  intros u. cbn [u_name u_keys]. rewrite update_last_app. reflexivity.
Qed.

(** X9: [np2srv_user_add_auth_key] with a name that fits returns 0 or -1.
    It returns 0 exactly when four allocations succeed: the key entry, its
    [name] leaf and the copies of the algorithm and of the key data.  The
    results of creating the [algorithm] and [key-data] leaves are not read:
    when one of them fails the function still returns 0 and the key entry is
    left without that leaf.  The counter is advanced as soon as the name is
    formatted, also when the function then fails. *)
Theorem user_add_auth_key_result (E : environment) (alg : string) (alg_len : nat)
    (key : string) (key_len : nat) (idx : Z) (w : world) :
  name_fits 6 idx = true ->
  exists rc idx' w',
    np2srv_user_add_auth_key E alg alg_len key key_len idx w = Done (rc, idx') w' /\
    (rc = 0 \/ rc = -1) /\
    (rc = 0 <->
     e_alloc E (w_allocs w) = true /\ e_alloc E (1 + w_allocs w) = true /\
     e_alloc E (2 + w_allocs w) = true /\ e_alloc E (4 + w_allocs w) = true) /\
    (rc = 0 ->
     w_users w' =
     add_key {| ak_name := Some (key_name idx);
                ak_algorithm := if e_alloc E (3 + w_allocs w)
                                then Some (strn alg alg_len) else None;
                ak_key_data := if e_alloc E (5 + w_allocs w)
                               then Some (strn key key_len) else None |}
             (w_users w)) /\
    idx' = (if e_alloc E (w_allocs w) then (idx + 1) mod 256 else idx).
Proof.
  intros Hfit. unfold np2srv_user_add_auth_key.
  destruct (lyd_new_authkey_alloc E w) as (w0 & R0 & A0 & U0).
  rewrite bind_run, R0.
  destruct (e_alloc E (w_allocs w)) eqn:E0; cbn [negb].
  2:{ unfold ret. exists (-1), idx, w0. split; [reflexivity|]. split; [right; reflexivity|].
      split; [split; [discriminate | intros [H _]; discriminate H]|].
      split; [discriminate | reflexivity]. }
  rewrite bind_run, sprintf_key_run, Hfit.
  destruct (lyd_new_leaf_authkey_alloc E "name" (key_name idx) w0) as (w1 & R1 & A1 & U1).
  rewrite bind_run, R1. rewrite A0 in *.
  change (S (w_allocs w)) with (1 + w_allocs w)%nat in *.
  destruct (e_alloc E (1 + w_allocs w)) eqn:E1; cbn [negb].
  2:{ unfold ret. exists (-1), ((idx + 1) mod 256), w1.
      split; [reflexivity|]. split; [right; reflexivity|].
      split; [split; [discriminate | intros (_ & H & _); discriminate H]|].
      split; [discriminate | reflexivity]. }
  destruct (strdup_alloc E (strn alg alg_len) w1) as (w2 & R2 & A2 & U2).
  rewrite bind_run, R2. rewrite A1 in *.
  change (S (1 + w_allocs w)) with (2 + w_allocs w)%nat in *.
  destruct (e_alloc E (2 + w_allocs w)) eqn:E2.
  2:{ unfold ret. exists (-1), ((idx + 1) mod 256), w2.
      split; [reflexivity|]. split; [right; reflexivity|].
      split; [split; [discriminate | intros (_ & _ & H & _); discriminate H]|].
      split; [discriminate | reflexivity]. }
  destruct (lyd_new_leaf_authkey_alloc E "algorithm" (strn alg alg_len) w2)
    as (w3 & R3 & A3 & U3).
  rewrite bind_run, R3. rewrite A2 in *.
  change (S (2 + w_allocs w)) with (3 + w_allocs w)%nat in *.
  destruct (strdup_alloc E (strn key key_len) w3) as (w4 & R4 & A4 & U4).
  rewrite bind_run, R4. rewrite A3 in *.
  change (S (3 + w_allocs w)) with (4 + w_allocs w)%nat in *.
  destruct (e_alloc E (4 + w_allocs w)) eqn:E4.
  2:{ unfold ret. exists (-1), ((idx + 1) mod 256), w4.
      split; [reflexivity|]. split; [right; reflexivity|].
      split; [split; [discriminate | intros (_ & _ & _ & H); discriminate H]|].
      split; [discriminate | reflexivity]. }
  destruct (lyd_new_leaf_authkey_alloc E "key-data" (strn key key_len) w4)
    as (w5 & R5 & A5 & U5).
  rewrite bind_run, R5. rewrite A4 in *.
  change (S (4 + w_allocs w)) with (5 + w_allocs w)%nat in *.
  unfold ret. exists 0, ((idx + 1) mod 256), w5.
  split; [reflexivity|]. split; [left; reflexivity|].
  split; [split; [intros _; repeat split; reflexivity | reflexivity]|].
  split; [|reflexivity].
  intros _. rewrite U5, U4, U3, U2, U1, U0.
  rewrite set_leaves_of_new_key.
  destruct (e_alloc E (3 + w_allocs w)), (e_alloc E (5 + w_allocs w));
    rewrite ?set_leaves_of_new_key; reflexivity.
Qed.

Lemma user_add_auth_key_result_witness :
  exists rc idx' w',
    np2srv_user_add_auth_key (failing_alloc 3 quiet) "ssh-rsa AAAAB3Nz c" 7 "AAAAB3Nz c" 8 1
      alice_entry = Done (rc, idx') w' /\
    (rc = 0 \/ rc = -1) /\
    (rc = 0 <->
     e_alloc (failing_alloc 3 quiet) (w_allocs alice_entry) = true /\
     e_alloc (failing_alloc 3 quiet) (1 + w_allocs alice_entry) = true /\
     e_alloc (failing_alloc 3 quiet) (2 + w_allocs alice_entry) = true /\
     e_alloc (failing_alloc 3 quiet) (4 + w_allocs alice_entry) = true) /\
    (rc = 0 ->
     w_users w' =
     [user_of alice [{| ak_name := Some "key1"; ak_algorithm := None;
                        ak_key_data := Some "AAAAB3Nz" |}]]) /\
    idx' = 2.
Proof.
  apply (user_add_auth_key_result (failing_alloc 3 quiet) "ssh-rsa AAAAB3Nz c" 7
           "AAAAB3Nz c" 8 1 alice_entry).
  reflexivity.
Defined.

(* ------------------------------------------------------------------ *)
(** ** Connection type of a call-home client *)

(** X10: the loop body of [np2srv_ch_connection_type_cb], with the client
    found two levels up.  On a Created [persistent] or [periodic] node it
    makes the one call that sets the connection type, to [NC_CH_PERSIST] or
    [NC_CH_PERIOD], and goes on exactly when the call returned 0; the
    parameters of a periodic connection are not scanned on creation: no path
    is allocated and no iterator opened.  A Created node of another name and
    every Deleted or Moved node make no call.  A Modified node that is not
    [periodic] fails the assertion before any call. *)
Theorem connection_type_cases (E : environment) (xpath : string) (iter : sr_change_iter_t)
    (c : sr_change) (w : world) (client : string) :
  resolve_key 2 (ch_node c) = Some client ->
  (ch_op c = SR_OP_CREATED ->
   (schema_name (ch_node c) = "persistent" ->
    np2srv_ch_connection_type_change E xpath iter c w =
    (rc <- nc E (nc_server_ch_client_set_conn_type client NC_CH_PERSIST) ;;
     check_rc iter rc) w) /\
   (schema_name (ch_node c) = "periodic" ->
    np2srv_ch_connection_type_change E xpath iter c w =
    (rc <- nc E (nc_server_ch_client_set_conn_type client NC_CH_PERIOD) ;;
     check_rc iter rc) w) /\
   (schema_name (ch_node c) <> "persistent" -> schema_name (ch_node c) <> "periodic" ->
    np2srv_ch_connection_type_change E xpath iter c w = Done Next w) /\
   w_allocs (world_of (np2srv_ch_connection_type_change E xpath iter c w)) = w_allocs w /\
   w_next_iter (world_of (np2srv_ch_connection_type_change E xpath iter c w)) =
   w_next_iter w) /\
  (ch_op c = SR_OP_DELETED \/ ch_op c = SR_OP_MOVED ->
   np2srv_ch_connection_type_change E xpath iter c w = Done Next w) /\
  (ch_op c = SR_OP_MODIFIED -> schema_name (ch_node c) <> "periodic" ->
   np2srv_ch_connection_type_change E xpath iter c w = Crash AssertFailed w).
Proof.
  intros Hc. unfold np2srv_ch_connection_type_change.
  rewrite bind_run, resolve_run, Hc.
  split; [|split].
  - intros ->.
    destruct (String.eqb_spec (schema_name (ch_node c)) "persistent") as [Hp|Hp];
      unfold streq; rewrite ?(proj2 (String.eqb_eq _ _) Hp).
    + split; [reflexivity|]. split; [rewrite Hp; discriminate|].
      split; [intros H; contradiction|].
      rewrite bind_run, nc_run, check_rc_run. destruct (nonzero _); split; reflexivity.
    + rewrite (proj2 (String.eqb_neq _ _) Hp).
      destruct (String.eqb_spec (schema_name (ch_node c)) "periodic") as [Hq|Hq].
      * split; [intros H; contradiction|]. split; [reflexivity|].
        split; [intros _ H; contradiction|].
        rewrite bind_run, nc_run, check_rc_run. destruct (nonzero _); split; reflexivity.
      * split; [intros H; contradiction|]. split; [intros H; contradiction|].
        split; [reflexivity | split; reflexivity].
  - intros [-> | ->]; reflexivity.
  - intros -> Hq. unfold streq. rewrite (proj2 (String.eqb_neq _ _) Hq). reflexivity.
Qed.

Lemma connection_type_cases_witness :
  np2srv_ch_connection_type_change quiet conn_type_xpath iter0
    (conn_type_change SR_OP_MODIFIED "persistent") world0 =
  Crash AssertFailed world0.
Proof.
  apply (connection_type_cases quiet conn_type_xpath iter0
           (conn_type_change SR_OP_MODIFIED "persistent") world0 "cl1").
  - reflexivity.
  - reflexivity.
  - discriminate.
Defined.

(* ------------------------------------------------------------------ *)
(** ** Tree context: a node that is not where the callback expects it *)

(** The tactic for a body that begins with the walk to one or two names. *)
Ltac faults_at_walk :=
  rewrite bind_run; first [rewrite resolve_run | rewrite key_of_run];
  first
    [ match goal with
      | H : resolve_key _ _ = None |- _ => rewrite H; reflexivity
      end
    | match goal with
      | |- context [match resolve_key ?d ?n with _ => _ end] =>
          destruct (resolve_key d n); [|reflexivity]
      end;
      rewrite bind_run, resolve_run;
      match goal with
      | H : resolve_key _ _ = None |- _ => rewrite H; reflexivity
      end ].

(** X11: every loop body finds its names before it does anything else: when
    an ancestor the body walks to, or the key leaf it reads there, is not in
    the tree, the body stops at the read through NULL and has made no call,
    freed no iterator and allocated nothing.  The endpoint is looked for 1, 3,
    4 or 5 levels up and the client 0, 2, 3, 5, 6 or 7 levels up, as the
    callback has it. *)
Theorem missing_ancestor_faults (E : environment) (xpath : string) (iter : sr_change_iter_t)
    (c : sr_change) (w : world) :
  (resolve_key 1 (ch_node c) = None ->
   np2srv_endpt_ssh_change E iter c w = Crash NullDeref w) /\
  (resolve_key 3 (ch_node c) = None ->
   np2srv_endpt_tcp_params_change E xpath iter c w = Crash NullDeref w) /\
  (resolve_key 4 (ch_node c) = None ->
   np2srv_endpt_ssh_hostkey_change E iter c w = Crash NullDeref w) /\
  (resolve_key 5 (ch_node c) = None ->
   np2srv_endpt_ssh_auth_methods_change E iter c w = Crash NullDeref w) /\
  (resolve_key 4 (ch_node c) = None ->
   np2srv_endpt_ssh_keepalives_change E iter c w = Crash NullDeref w) /\
  (resolve_key 0 (ch_node c) = None ->
   np2srv_ch_client_change E iter c w = Crash NullDeref w) /\
  (resolve_key 1 (ch_node c) = None \/ resolve_key 3 (ch_node c) = None ->
   np2srv_ch_client_endpt_ssh_change E iter c w = Crash NullDeref w) /\
  (resolve_key 3 (ch_node c) = None \/ resolve_key 5 (ch_node c) = None ->
   np2srv_ch_client_endpt_tcp_params_change E xpath iter c w = Crash NullDeref w) /\
  (resolve_key 4 (ch_node c) = None \/ resolve_key 6 (ch_node c) = None ->
   np2srv_ch_endpt_ssh_hostkey_change E iter c w = Crash NullDeref w) /\
  (resolve_key 5 (ch_node c) = None \/ resolve_key 7 (ch_node c) = None ->
   np2srv_ch_endpt_ssh_auth_methods_change E iter c w = Crash NullDeref w) /\
  (resolve_key 4 (ch_node c) = None \/ resolve_key 6 (ch_node c) = None ->
   np2srv_ch_endpt_ssh_keepalives_change E iter c w = Crash NullDeref w) /\
  (resolve_key 2 (ch_node c) = None ->
   np2srv_ch_connection_type_change E xpath iter c w = Crash NullDeref w) /\
  (resolve_key 2 (ch_node c) = None ->
   np2srv_ch_reconnect_strategy_change E iter c w = Crash NullDeref w).
Proof.
  repeat split.
  - intros H. unfold np2srv_endpt_ssh_change. faults_at_walk.
  - intros H. unfold np2srv_endpt_tcp_params_change. faults_at_walk.
  - intros H. unfold np2srv_endpt_ssh_hostkey_change. faults_at_walk.
  - intros H. unfold np2srv_endpt_ssh_auth_methods_change. faults_at_walk.
  - intros H. unfold np2srv_endpt_ssh_keepalives_change. faults_at_walk.
  - intros H. unfold np2srv_ch_client_change. faults_at_walk.
  - intros [H|H]; unfold np2srv_ch_client_endpt_ssh_change; faults_at_walk.
  - intros [H|H]; unfold np2srv_ch_client_endpt_tcp_params_change; faults_at_walk.
  - intros [H|H]; unfold np2srv_ch_endpt_ssh_hostkey_change; faults_at_walk.
  - intros [H|H]; unfold np2srv_ch_endpt_ssh_auth_methods_change; faults_at_walk.
  - intros [H|H]; unfold np2srv_ch_endpt_ssh_keepalives_change; faults_at_walk.
  - intros H. unfold np2srv_ch_connection_type_change. faults_at_walk.
  - intros H. unfold np2srv_ch_reconnect_strategy_change. faults_at_walk.
Qed.

Lemma missing_ancestor_faults_witness :
  np2srv_endpt_ssh_change quiet iter0 orphan_change world0 = Crash NullDeref world0.
Proof.
  apply (missing_ancestor_faults quiet endpt_ssh_xpath iter0 orphan_change world0).
  reflexivity.
Defined.

(* ------------------------------------------------------------------ *)
(** ** Keepalive parameters *)

Lemma keepalive_param_snoc (name : string) (dflt : Z) (changes : list sr_change)
    (c : sr_change) :
  keepalive_param name dflt (changes ++ [c]) =
  if streq (schema_name (ch_node c)) name
  then match ch_op c with
       | SR_OP_DELETED => dflt
       | _ => value_uint (ch_node c)
       end
  else keepalive_param name dflt changes.
Proof.
  unfold keepalive_param. rewrite rev_app_distr. cbn [rev app find].
  destruct (streq (schema_name (ch_node c)) name); reflexivity.
Qed.

Lemma streq_other (s a b : string) : streq s a = true -> streq a b = false -> streq s b = false.
Proof.
  unfold streq. intros H1 H2. apply String.eqb_eq in H1. subst s. exact H2.
Qed.

(** The three locals after the loop of [np2srv_tcp_keepalives]. *)
Lemma tcp_keepalives_fold (changes : list sr_change) :
  fold_left np2srv_tcp_keepalives_change changes (-1, -1, -1) =
  (keepalive_param "idle-time" 1 changes, keepalive_param "max-probes" 10 changes,
   keepalive_param "probe-interval" 5 changes).
Proof.
  induction changes as [|c rest IH] using rev_ind; [reflexivity|].
  rewrite fold_left_app, IH. cbn [fold_left].
  rewrite !keepalive_param_snoc. unfold np2srv_tcp_keepalives_change.
  destruct (streq (schema_name (ch_node c)) "idle-time") eqn:H1.
  { rewrite (streq_other _ _ "max-probes" H1 eq_refl),
            (streq_other _ _ "probe-interval" H1 eq_refl).
    destruct (ch_op c); reflexivity. }
  destruct (streq (schema_name (ch_node c)) "max-probes") eqn:H2.
  { rewrite (streq_other _ _ "probe-interval" H2 eq_refl).
    destruct (ch_op c); reflexivity. }
  destruct (streq (schema_name (ch_node c)) "probe-interval"); [|reflexivity].
  destruct (ch_op c); reflexivity.
Qed.

(** X12: once its iterator is open [np2srv_tcp_keepalives] makes no call
    while it scans.  When the iterator ends exhausted it makes one call, for
    the listening endpoint or the call-home endpoint it was given, that
    carries for each of the idle time, the probes and the probe interval the
    value of the last change of that parameter (1, 10 and 5 when that change
    deletes it) and -1 for a parameter no change names, and it returns
    [SR_ERR_OK] exactly when that call returned 0, [SR_ERR_INTERNAL]
    otherwise.  When the iterator ends with an error it makes no call and
    returns the error. *)
Theorem tcp_keepalives_parameters (E : environment) (client_name : option string)
    (endpt xpath : string) (w : world) :
  cs_open (e_changes E xpath) = SR_ERR_OK ->
  (cs_end (e_changes E xpath) = SR_ERR_NOT_FOUND ->
   exists rc w',
     np2srv_tcp_keepalives E client_name endpt xpath w =
     Done (if rc =? 0 then SR_ERR_OK else SR_ERR_INTERNAL) w' /\
     w_calls w' =
     w_calls w ++
     [(set_keepalives_call client_name endpt
         (keepalive_param "idle-time" 1 (cs_changes (e_changes E xpath)))
         (keepalive_param "max-probes" 10 (cs_changes (e_changes E xpath)))
         (keepalive_param "probe-interval" 5 (cs_changes (e_changes E xpath))), rc)]) /\
  (cs_end (e_changes E xpath) <> SR_ERR_NOT_FOUND ->
   exists w',
     np2srv_tcp_keepalives E client_name endpt xpath w = Done (cs_end (e_changes E xpath)) w' /\
     w_calls w' = w_calls w).
Proof.
  intros Hopen. unfold np2srv_tcp_keepalives. rewrite bind_run.
  unfold sr_get_changes_iter. rewrite Hopen.
  destruct (sr_error_eq_dec SR_ERR_OK SR_ERR_OK) as [_|Hne]; [|contradiction].
  destruct (sr_error_eq_dec SR_ERR_OK SR_ERR_OK) as [_|Hne]; [|contradiction].
  cbn [it_changes it_end]. rewrite tcp_keepalives_fold.
  rewrite bind_run. cbn [sr_free_change_iter].
  split.
  - intros Hend. rewrite Hend.
    destruct (sr_error_eq_dec SR_ERR_NOT_FOUND SR_ERR_NOT_FOUND) as [_|Hne]; [|contradiction].
    rewrite bind_run.
    destruct client_name as [client|]; rewrite nc_run; wsimpl; cbn [set_keepalives_call];
      unfold nonzero;
      match goal with
      | |- context [negb (?x =? 0)] => exists x; destruct (x =? 0)
      end; cbn [negb]; unfold ret; eexists; split; reflexivity.
  - intros Hend.
    destruct (sr_error_eq_dec (cs_end (e_changes E xpath)) SR_ERR_NOT_FOUND) as [Heq|_];
      [contradiction|].
    unfold ret. eexists. split; reflexivity.
Qed.

Lemma tcp_keepalives_parameters_witness :
  exists rc w',
    np2srv_tcp_keepalives (with_changes keepalive_changes quiet) None "ep1"
      "/keepalives/*" world0 =
    Done (if rc =? 0 then SR_ERR_OK else SR_ERR_INTERNAL) w' /\
    w_calls w' = [(nc_server_endpt_set_keepalives "ep1" 1 (-1) 9, rc)].
Proof.
  apply (tcp_keepalives_parameters (with_changes keepalive_changes quiet) None "ep1"
           "/keepalives/*" world0).
  - reflexivity.
  - reflexivity.
Defined.

(** The scan of the keepalive parameters on an iterator that opens and ends
    exhausted. *)
Lemma tcp_keepalives_run (E : environment) (client_name : option string)
    (endpt xpath : string) (w : world) :
  cs_open (e_changes E xpath) = SR_ERR_OK ->
  cs_end (e_changes E xpath) = SR_ERR_NOT_FOUND ->
  exists rc w',
    np2srv_tcp_keepalives E client_name endpt xpath w =
    Done (if rc =? 0 then SR_ERR_OK else SR_ERR_INTERNAL) w' /\
    w_calls w' =
    w_calls w ++
    [(set_keepalives_call client_name endpt
        (keepalive_param "idle-time" 1 (cs_changes (e_changes E xpath)))
        (keepalive_param "max-probes" 10 (cs_changes (e_changes E xpath)))
        (keepalive_param "probe-interval" 5 (cs_changes (e_changes E xpath))), rc)].
Proof.
  intros Hopen Hend. unfold np2srv_tcp_keepalives. rewrite bind_run.
  unfold sr_get_changes_iter. rewrite Hopen.
  destruct (sr_error_eq_dec SR_ERR_OK SR_ERR_OK) as [_|Hne]; [|contradiction].
  destruct (sr_error_eq_dec SR_ERR_OK SR_ERR_OK) as [_|Hne]; [|contradiction].
  cbn [it_changes it_end]. rewrite tcp_keepalives_fold.
  rewrite bind_run. cbn [sr_free_change_iter]. rewrite Hend.
  destruct (sr_error_eq_dec SR_ERR_NOT_FOUND SR_ERR_NOT_FOUND) as [_|Hne]; [|contradiction].
  rewrite bind_run.
  destruct client_name as [client|]; rewrite nc_run; wsimpl; cbn [set_keepalives_call];
    unfold nonzero;
    match goal with
    | |- context [negb (?x =? 0)] => exists x; destruct (x =? 0)
    end; cbn [negb]; unfold ret; eexists; split; reflexivity.
Qed.

(** The [keepalives] branch of the two bodies once the names are found. *)
Lemma keepalives_branch (E : environment) (client_name : option string) (endpt xpath : string)
    (iter : sr_change_iter_t) (flag : Z) (w : world) :
  enables_then_sets E client_name endpt xpath flag
    (rc <- nc E (enable_keepalives_call client_name endpt flag) ;;
     if nonzero rc then sr_free_change_iter iter ;; ret (Return SR_ERR_INTERNAL)
     else
       xpath2 <- asprintf E (xpath ++ "/keepalives/*") ;;
       match xpath2 with
       | None => ret (Return SR_ERR_NOMEM)
       | Some xpath2 =>
           rc <- np2srv_tcp_keepalives E client_name endpt xpath2 ;;
           if sr_error_eq_dec rc SR_ERR_OK then ret Next
           else sr_free_change_iter iter ;; ret (Return rc)
       end) w.
Proof.
  unfold enables_then_sets. split.
  - intros Hrc. rewrite bind_run, nc_run. unfold nonzero.
    destruct (Z.eqb_spec (e_nc E (w_calls w) (enable_keepalives_call client_name endpt flag)) 0)
      as [Heq|_]; [contradiction|].
    cbn [negb]. rewrite bind_run. cbn [sr_free_change_iter]. unfold ret.
    eexists. repeat split.
  - intros Hrc Ha Hopen Hend. rewrite bind_run, nc_run. unfold nonzero. rewrite Hrc.
    cbn [Z.eqb negb]. rewrite bind_run, asprintf_run. wsimpl. rewrite Ha.
    cbv beta iota. rewrite bind_run.
    match goal with
    | |- context [np2srv_tcp_keepalives E client_name endpt ?x ?w0] =>
        destruct (tcp_keepalives_run E client_name endpt x w0 Hopen Hend)
          as (rc & w' & Hrun & Hcalls)
    end.
    rewrite Hrun. exists rc. wsimpl.
    cbn [w_calls set_calls set_allocs] in Hcalls.
    destruct (rc =? 0).
    + destruct (sr_error_eq_dec SR_ERR_OK SR_ERR_OK) as [_|Hne]; [|contradiction].
      unfold ret. exists w'. split; [reflexivity|].
      rewrite Hcalls, <- app_assoc. reflexivity.
    + destruct (sr_error_eq_dec SR_ERR_INTERNAL SR_ERR_OK) as [Hk|_]; [discriminate|].
      rewrite bind_run. cbn [sr_free_change_iter]. unfold ret.
      eexists. split; [reflexivity|]. wsimpl.
      rewrite Hcalls, <- app_assoc. reflexivity.
Qed.

(** X13: a Created [keepalives] node makes the TCP-parameter callbacks turn
    the keepalives of the endpoint on and a Deleted one makes them turn the
    keepalives off, for the listening endpoint found 3 levels up and for the
    call-home endpoint and client found 3 and 5 levels up.  When that call
    fails the callback returns [SR_ERR_INTERNAL] and the parameters are not
    scanned.  When it returns 0 the parameters below the node are scanned and
    set in one call that follows it, on a Deleted node too. *)
Theorem keepalives_enabled_then_set (E : environment) (xpath : string)
    (iter : sr_change_iter_t) (c : sr_change) (w : world) (flag : Z) :
  schema_name (ch_node c) = "keepalives" ->
  (ch_op c = SR_OP_CREATED /\ flag = 1) \/ (ch_op c = SR_OP_DELETED /\ flag = 0) ->
  (forall endpt,
      resolve_key 3 (ch_node c) = Some endpt ->
      enables_then_sets E None endpt xpath flag
        (np2srv_endpt_tcp_params_change E xpath iter c) w) /\
  (forall endpt client,
      resolve_key 3 (ch_node c) = Some endpt ->
      resolve_key 5 (ch_node c) = Some client ->
      enables_then_sets E (Some client) endpt xpath flag
        (np2srv_ch_client_endpt_tcp_params_change E xpath iter c) w).
Proof.
  intros Hname Hop. split.
  - intros endpt He.
    assert (Hbody : np2srv_endpt_tcp_params_change E xpath iter c w =
                    (rc <- nc E (enable_keepalives_call None endpt flag) ;;
                     if nonzero rc
                     then sr_free_change_iter iter ;; ret (Return SR_ERR_INTERNAL)
                     else
                       xpath2 <- asprintf E (xpath ++ "/keepalives/*") ;;
                       match xpath2 with
                       | None => ret (Return SR_ERR_NOMEM)
                       | Some xpath2 =>
                           rc <- np2srv_tcp_keepalives E None endpt xpath2 ;;
                           if sr_error_eq_dec rc SR_ERR_OK then ret Next
                           else sr_free_change_iter iter ;; ret (Return rc)
                       end) w).
    { unfold np2srv_endpt_tcp_params_change. rewrite bind_run, resolve_run, He, Hname.
      streq_eval. destruct Hop as [[-> ->]|[-> ->]]; reflexivity. }
    pose proof (keepalives_branch E None endpt xpath iter flag w) as Hb.
    unfold enables_then_sets in *. rewrite Hbody. exact Hb.
  - intros endpt client He Hc.
    assert (Hbody : np2srv_ch_client_endpt_tcp_params_change E xpath iter c w =
                    (rc <- nc E (enable_keepalives_call (Some client) endpt flag) ;;
                     if nonzero rc
                     then sr_free_change_iter iter ;; ret (Return SR_ERR_INTERNAL)
                     else
                       xpath2 <- asprintf E (xpath ++ "/keepalives/*") ;;
                       match xpath2 with
                       | None => ret (Return SR_ERR_NOMEM)
                       | Some xpath2 =>
                           rc <- np2srv_tcp_keepalives E (Some client) endpt xpath2 ;;
                           if sr_error_eq_dec rc SR_ERR_OK then ret Next
                           else sr_free_change_iter iter ;; ret (Return rc)
                       end) w).
    { unfold np2srv_ch_client_endpt_tcp_params_change.
      rewrite bind_run, resolve_run, He, bind_run, resolve_run, Hc, Hname.
      streq_eval. destruct Hop as [[-> ->]|[-> ->]]; reflexivity. }
    pose proof (keepalives_branch E (Some client) endpt xpath iter flag w) as Hb.
    unfold enables_then_sets in *. rewrite Hbody. exact Hb.
Qed.

Lemma keepalives_enabled_then_set_witness :
  enables_then_sets (with_changes keepalive_changes quiet) None "ep1" tcp_params_xpath 0
    (np2srv_endpt_tcp_params_change (with_changes keepalive_changes quiet) tcp_params_xpath
       iter0 keepalives_deleted_change)
    world0.
Proof.
  apply (keepalives_enabled_then_set (with_changes keepalive_changes quiet) tcp_params_xpath
           iter0 keepalives_deleted_change world0 0).
  - reflexivity.
  - right. split; reflexivity.
  - reflexivity.
Defined.

(* ------------------------------------------------------------------ *)
(** ** Authentication methods: the mask after a scan *)

Lemma live_auth_methods_app (endpt : string) (before : Z) (l1 l2 : list (nc_call * Z)) :
  live_auth_methods endpt before (l1 ++ l2) =
  live_auth_methods endpt (live_auth_methods endpt before l1) l2.
Proof. unfold live_auth_methods. apply fold_left_app. Qed.

Lemma auth_methods_loop (E : environment) (iter : sr_change_iter_t) (endpt : string)
    (init : Z) (changes : list sr_change) :
  (forall log, e_nc E log (nc_server_ssh_endpt_get_auth_methods endpt) =
               live_auth_methods endpt init log) ->
  (forall log auth, e_nc E log (nc_server_ssh_endpt_set_auth_methods endpt auth) = 0) ->
  forallb (of_endpoint endpt) changes = true ->
  forall w,
    exists w',
      while_changes (np2srv_endpt_ssh_auth_methods_change E iter) changes w = Done Next w' /\
      w_iters w' = w_iters w /\
      live_auth_methods endpt init (w_calls w') =
      update_auth_methods (flag_events changes) (live_auth_methods endpt init (w_calls w)).
Proof.
  intros Hget Hset. induction changes as [|c rest IH]; intros Hof w.
  - exists w. repeat split.
  - cbn [forallb] in Hof. apply andb_true_iff in Hof as [Hc Hrest].
    unfold of_endpoint in Hc.
    destruct (resolve_key 5 (ch_node c)) as [e|] eqn:He; [|discriminate].
    apply String.eqb_eq in Hc. subst e.
    cbn [while_changes]. rewrite bind_run.
    unfold np2srv_endpt_ssh_auth_methods_change at 1.
    rewrite bind_run, resolve_run, He, bind_run, nc_run, Hget. cbv zeta.
    rewrite bind_run, nc_run, Hset, check_rc_run. cbn [nonzero Z.eqb negb].
    match goal with
    | |- context [while_changes _ rest ?w1] =>
        destruct (IH Hrest w1) as (w' & Hrun & Hi & Hlive)
    end.
    exists w'. split; [exact Hrun|]. split; [exact Hi|].
    rewrite Hlive. wsimpl. rewrite !live_auth_methods_app.
    unfold flag_events, update_auth_methods. cbn [map fold_left fst snd].
    f_equal. unfold live_auth_methods at 1 2. cbn [fold_left fst snd].
    unfold streq. rewrite String.eqb_refl. reflexivity.
Qed.

(** X14: on a live server that stores the mask it is given for the endpoint
    and answers with the mask it holds, [np2srv_endpt_ssh_auth_methods_cb]
    on changes of that endpoint leaves the server with the mask that
    [np2srv_ssh_update_auth_method] gives when it is applied to the changes
    in event order, starting from the mask the server held; the callback
    returns [SR_ERR_OK] when the iterator ends exhausted, and the iterator is
    freed. *)
Theorem auth_methods_reconciled (E : environment) (xpath : string) (w : world)
    (endpt : string) (init : Z) :
  e_alloc E (w_allocs w) = true ->
  cs_open (e_changes E (xpath ++ "/*")%string) = SR_ERR_OK ->
  ~ In (w_next_iter w) (w_iters w) ->
  forallb (of_endpoint endpt) (cs_changes (e_changes E (xpath ++ "/*")%string)) = true ->
  (forall log, e_nc E log (nc_server_ssh_endpt_get_auth_methods endpt) =
               live_auth_methods endpt init log) ->
  (forall log auth, e_nc E log (nc_server_ssh_endpt_set_auth_methods endpt auth) = 0) ->
  exists w',
    np2srv_endpt_ssh_auth_methods_cb E xpath w =
    Done (if sr_error_eq_dec (cs_end (e_changes E (xpath ++ "/*")%string)) SR_ERR_NOT_FOUND
          then SR_ERR_OK else cs_end (e_changes E (xpath ++ "/*")%string)) w' /\
    w_iters w' = w_iters w /\
    live_auth_methods endpt init (w_calls w') =
    update_auth_methods (flag_events (cs_changes (e_changes E (xpath ++ "/*")%string)))
      (live_auth_methods endpt init (w_calls w)).
Proof.
  intros Ha Hopen Hfresh Hof Hget Hset.
  unfold np2srv_endpt_ssh_auth_methods_cb, scan_children.
  rewrite bind_run, asprintf_run, Ha, bind_run.
  unfold sr_get_changes_iter. rewrite Hopen.
  destruct (sr_error_eq_dec SR_ERR_OK SR_ERR_OK) as [_|Hne]; [|contradiction].
  destruct (sr_error_eq_dec SR_ERR_OK SR_ERR_OK) as [_|Hne]; [|contradiction].
  unfold scan_changes. rewrite bind_run. cbn [it_changes it_end it_id].
  match goal with
  | |- context [while_changes (np2srv_endpt_ssh_auth_methods_change E ?it) _ ?w1] =>
      destruct (auth_methods_loop E it endpt init _ Hget Hset Hof w1)
        as (w' & Hrun & Hi & Hlive)
  end.
  rewrite Hrun, bind_run. cbn [sr_free_change_iter it_id].
  eexists. split.
  { destruct (sr_error_eq_dec (cs_end (e_changes E (xpath ++ "/*")%string)) SR_ERR_NOT_FOUND);
      reflexivity. }
  wsimpl. split.
  - rewrite Hi. wsimpl. apply remove_fresh_snoc. exact Hfresh.
  - rewrite Hlive. reflexivity.
Qed.

Lemma auth_methods_reconciled_witness :
  exists w',
    np2srv_endpt_ssh_auth_methods_cb (storing_server 0 (with_changes three_methods quiet))
      auth_methods_xpath world0 = Done SR_ERR_OK w' /\
    w_iters w' = [] /\
    live_auth_methods "ep1" 0 (w_calls w') = 5.
Proof.
  apply (auth_methods_reconciled (storing_server 0 (with_changes three_methods quiet))
           auth_methods_xpath world0 "ep1" 0).
  - reflexivity.
  - reflexivity.
  - intros H. exact H.
  - reflexivity.
  - intros log. reflexivity.
  - intros log auth. reflexivity.
Defined.

(* ------------------------------------------------------------------ *)
(** ** Change-set scanner: a scan that cannot start *)

Lemma scan_subtree_closed (E : environment) (xpath : string)
    (body : sr_change_iter_t -> sr_change -> M flow) (w : world) :
  cs_open (e_changes E xpath) <> SR_ERR_OK ->
  returns_untouched (scan_subtree E xpath body) w (cs_open (e_changes E xpath)).
Proof.
  intros Ho. unfold returns_untouched, scan_subtree. rewrite bind_run.
  unfold sr_get_changes_iter.
  destruct (sr_error_eq_dec (cs_open (e_changes E xpath)) SR_ERR_OK) as [Hk|_];
    [contradiction|].
  destruct (sr_error_eq_dec (cs_open (e_changes E xpath)) SR_ERR_OK) as [Hk|_];
    [contradiction|].
  exists w. repeat split.
Qed.

Lemma scan_children_closed (E : environment) (xpath : string)
    (body : sr_change_iter_t -> sr_change -> M flow) (w : world) :
  (e_alloc E (w_allocs w) = false ->
   returns_untouched (scan_children E xpath body) w SR_ERR_NOMEM) /\
  (e_alloc E (w_allocs w) = true ->
   cs_open (e_changes E (xpath ++ "/*")%string) <> SR_ERR_OK ->
   returns_untouched (scan_children E xpath body) w
     (cs_open (e_changes E (xpath ++ "/*")%string))).
Proof.
  unfold returns_untouched, scan_children. split.
  - intros Ha. rewrite bind_run, asprintf_run, Ha. eexists. repeat split.
  - intros Ha Ho. rewrite bind_run, asprintf_run, Ha, bind_run.
    unfold sr_get_changes_iter.
    destruct (sr_error_eq_dec (cs_open (e_changes E (xpath ++ "/*")%string)) SR_ERR_OK)
      as [Hk|_]; [contradiction|].
    destruct (sr_error_eq_dec (cs_open (e_changes E (xpath ++ "/*")%string)) SR_ERR_OK)
      as [Hk|_]; [contradiction|].
    eexists. repeat split.
Qed.

(** X15: a callback whose scan cannot start changes nothing.  When
    [sr_get_changes_iter] fails, each of the fourteen change callbacks and
    the two nested scans returns the code of that failure, with no call made
    to the live server and no iterator left open, whatever the changes are;
    the seven callbacks that scan the children of their subtree return
    [SR_ERR_NOMEM], in the same way, when the path of the scan cannot be
    allocated. *)
Theorem scan_cannot_start (E : environment) (xpath : string) (w : world) :
  (cs_open (e_changes E xpath) <> SR_ERR_OK ->
   returns_untouched (np2srv_idle_timeout_cb E xpath) w (cs_open (e_changes E xpath)) /\
   returns_untouched (np2srv_endpt_ssh_cb E xpath) w (cs_open (e_changes E xpath)) /\
   returns_untouched (np2srv_endpt_ssh_hostkey_cb E xpath) w (cs_open (e_changes E xpath)) /\
   returns_untouched (np2srv_ch_client_cb E xpath) w (cs_open (e_changes E xpath)) /\
   returns_untouched (np2srv_ch_client_endpt_ssh_cb E xpath) w (cs_open (e_changes E xpath)) /\
   returns_untouched (np2srv_ch_endpt_ssh_hostkey_cb E xpath) w
     (cs_open (e_changes E xpath)) /\
   (forall client,
       returns_untouched (np2srv_ch_periodic_connection_params E client xpath) w
         (cs_open (e_changes E xpath))) /\
   (forall client_name endpt,
       returns_untouched (np2srv_tcp_keepalives E client_name endpt xpath) w
         (cs_open (e_changes E xpath)))) /\
  (e_alloc E (w_allocs w) = false ->
   returns_untouched (np2srv_endpt_tcp_params_cb E xpath) w SR_ERR_NOMEM /\
   returns_untouched (np2srv_endpt_ssh_auth_methods_cb E xpath) w SR_ERR_NOMEM /\
   returns_untouched (np2srv_endpt_ssh_keepalives_cb E xpath) w SR_ERR_NOMEM /\
   returns_untouched (np2srv_ch_client_endpt_tcp_params_cb E xpath) w SR_ERR_NOMEM /\
   returns_untouched (np2srv_ch_endpt_ssh_auth_methods_cb E xpath) w SR_ERR_NOMEM /\
   returns_untouched (np2srv_ch_endpt_ssh_keepalives_cb E xpath) w SR_ERR_NOMEM /\
   returns_untouched (np2srv_ch_connection_type_cb E xpath) w SR_ERR_NOMEM /\
   returns_untouched (np2srv_ch_reconnect_strategy_cb E xpath) w SR_ERR_NOMEM) /\
  (e_alloc E (w_allocs w) = true ->
   cs_open (e_changes E (xpath ++ "/*")%string) <> SR_ERR_OK ->
   returns_untouched (np2srv_endpt_tcp_params_cb E xpath) w
     (cs_open (e_changes E (xpath ++ "/*")%string)) /\
   returns_untouched (np2srv_endpt_ssh_auth_methods_cb E xpath) w
     (cs_open (e_changes E (xpath ++ "/*")%string)) /\
   returns_untouched (np2srv_endpt_ssh_keepalives_cb E xpath) w
     (cs_open (e_changes E (xpath ++ "/*")%string)) /\
   returns_untouched (np2srv_ch_client_endpt_tcp_params_cb E xpath) w
     (cs_open (e_changes E (xpath ++ "/*")%string)) /\
   returns_untouched (np2srv_ch_endpt_ssh_auth_methods_cb E xpath) w
     (cs_open (e_changes E (xpath ++ "/*")%string)) /\
   returns_untouched (np2srv_ch_endpt_ssh_keepalives_cb E xpath) w
     (cs_open (e_changes E (xpath ++ "/*")%string)) /\
   returns_untouched (np2srv_ch_connection_type_cb E xpath) w
     (cs_open (e_changes E (xpath ++ "/*")%string)) /\
   returns_untouched (np2srv_ch_reconnect_strategy_cb E xpath) w
     (cs_open (e_changes E (xpath ++ "/*")%string))).
Proof.
  split; [|split].
  - intros Ho. repeat split; try (intros client); try (apply scan_subtree_closed; exact Ho).
    intros endpt. unfold returns_untouched, np2srv_tcp_keepalives. rewrite bind_run.
    unfold sr_get_changes_iter.
    destruct (sr_error_eq_dec (cs_open (e_changes E xpath)) SR_ERR_OK) as [Hk|_];
      [contradiction|].
    destruct (sr_error_eq_dec (cs_open (e_changes E xpath)) SR_ERR_OK) as [Hk|_];
      [contradiction|].
    exists w. repeat split.
  - intros Ha. repeat split; apply scan_children_closed; exact Ha.
  - intros Ha Ho. repeat split; apply scan_children_closed; assumption.
Qed.

Lemma scan_cannot_start_witness :
  returns_untouched
    (np2srv_endpt_ssh_hostkey_cb (closed_changes SR_ERR_UNSUPPORTED quiet) hostkey_xpath_listen)
    world0 SR_ERR_UNSUPPORTED.
Proof.
  apply (proj1 (scan_cannot_start (closed_changes SR_ERR_UNSUPPORTED quiet)
                  hostkey_xpath_listen world0)).
  discriminate.
Defined.

(* ------------------------------------------------------------------ *)
(** ** Authorized-key enumerator: allocations of one account *)

(** X16: one turn of the [getpwent] loop on an account without key file.
    The turn fails with [SR_ERR_INTERNAL] exactly when the [user] entry or
    the path of the key file cannot be allocated; in the second case the
    entry created for the account stays in the tree.  The result of creating
    the [name] leaf is not read: when it fails the loop goes on with an entry
    that has no name. *)
Theorem user_entry_allocations (E : environment) (pwd : passwd) (rest : list passwd)
    (w : world) :
  e_fopen E (authorized_keys_path pwd) = inl ENOENT ->
  (e_alloc E (w_allocs w) = false ->
   exists w', users_loop E (pwd :: rest) w = Done SR_ERR_INTERNAL w' /\
              w_users w' = w_users w) /\
  (e_alloc E (w_allocs w) = true -> e_alloc E (2 + w_allocs w) = false ->
   exists w', users_loop E (pwd :: rest) w = Done SR_ERR_INTERNAL w' /\
              w_users w' =
              w_users w ++ [{| u_name := if e_alloc E (1 + w_allocs w)
                                         then Some (pw_name pwd) else None;
                               u_keys := [] |}]) /\
  (e_alloc E (w_allocs w) = true -> e_alloc E (2 + w_allocs w) = true ->
   exists w', users_loop E (pwd :: rest) w = users_loop E rest w' /\
              w_allocs w' = (3 + w_allocs w)%nat /\
              w_users w' =
              w_users w ++ [{| u_name := if e_alloc E (1 + w_allocs w)
                                         then Some (pw_name pwd) else None;
                               u_keys := [] |}]).
Proof.
  intros Hf. cbn [users_loop]. unfold lyd_new_user, lyd_new_leaf_user.
  rewrite !bind_run, alloc_run.
  split; [|split].
  - intros H0. rewrite H0. unfold ret. cbn [negb]. eexists. split; reflexivity.
  - intros H0 H2. rewrite H0. cbn [negb]. rewrite !bind_run, alloc_run. wsimpl.
    change (S (w_allocs w)) with (1 + w_allocs w)%nat.
    destruct (e_alloc E (1 + w_allocs w)); unfold ret;
      rewrite bind_run, asprintf_run; wsimpl;
      change (S (1 + w_allocs w)) with (2 + w_allocs w)%nat; rewrite H2;
      eexists; (split; [reflexivity|]); wsimpl; rewrite ?update_last_app; reflexivity.
  - intros H0 H2. rewrite H0. cbn [negb]. rewrite !bind_run, alloc_run. wsimpl.
    change (S (w_allocs w)) with (1 + w_allocs w)%nat.
    unfold authorized_keys_path in Hf.
    destruct (e_alloc E (1 + w_allocs w)); unfold ret;
      rewrite bind_run, asprintf_run; wsimpl;
      change (S (1 + w_allocs w)) with (2 + w_allocs w)%nat; rewrite H2, Hf;
      cbn [Z.eqb ENOENT negb Pos.eqb];
      eexists; (split; [reflexivity|]); wsimpl; rewrite ?update_last_app;
      split; reflexivity.
Qed.

Lemma user_entry_allocations_witness :
  exists w',
    users_loop (failing_alloc 1 (with_accounts [bob] (inl ENOENT) quiet)) [bob] world0 =
    users_loop (failing_alloc 1 (with_accounts [bob] (inl ENOENT) quiet)) [] w' /\
    w_allocs w' = 3%nat /\
    w_users w' = [{| u_name := None; u_keys := [] |}].
Proof.
  apply (user_entry_allocations (failing_alloc 1 (with_accounts [bob] (inl ENOENT) quiet))
           bob [] world0).
  - reflexivity.
  - reflexivity.
  - reflexivity.
Defined.

Lemma live_ch_auth_methods_app (client endpt : string) (before : Z)
    (l1 l2 : list (nc_call * Z)) :
  live_ch_auth_methods client endpt before (l1 ++ l2) =
  live_ch_auth_methods client endpt (live_ch_auth_methods client endpt before l1) l2.
Proof. unfold live_ch_auth_methods. apply fold_left_app. Qed.

Lemma ch_auth_methods_loop (E : environment) (iter : sr_change_iter_t) (client endpt : string)
    (init : Z) (changes : list sr_change) :
  (forall log, e_nc E log (nc_server_ssh_ch_client_endpt_get_auth_methods client endpt) =
               live_ch_auth_methods client endpt init log) ->
  (forall log auth,
      e_nc E log (nc_server_ssh_ch_client_endpt_set_auth_methods client endpt auth) = 0) ->
  forallb (of_ch_endpoint client endpt) changes = true ->
  forall w,
    exists w',
      while_changes (np2srv_ch_endpt_ssh_auth_methods_change E iter) changes w = Done Next w' /\
      w_iters w' = w_iters w /\
      live_ch_auth_methods client endpt init (w_calls w') =
      update_auth_methods (flag_events changes)
        (live_ch_auth_methods client endpt init (w_calls w)).
Proof.
  intros Hget Hset. induction changes as [|c rest IH]; intros Hof w.
  - exists w. repeat split.
  - cbn [forallb] in Hof. apply andb_true_iff in Hof as [Hc Hrest].
    unfold of_ch_endpoint in Hc.
    destruct (resolve_key 5 (ch_node c)) as [e|] eqn:He; [|discriminate].
    destruct (resolve_key 7 (ch_node c)) as [cl|] eqn:Hcl; [|discriminate].
    apply andb_true_iff in Hc as [Hc1 Hc2].
    apply String.eqb_eq in Hc1, Hc2. subst e cl.
    cbn [while_changes]. rewrite bind_run.
    unfold np2srv_ch_endpt_ssh_auth_methods_change at 1.
    rewrite bind_run, resolve_run, He, bind_run, resolve_run, Hcl, bind_run, nc_run, Hget.
    cbv zeta.
    rewrite bind_run, nc_run, Hset, check_rc_run. cbn [nonzero Z.eqb negb].
    match goal with
    | |- context [while_changes _ rest ?w1] =>
        destruct (IH Hrest w1) as (w' & Hrun & Hi & Hlive)
    end.
    exists w'. split; [exact Hrun|]. split; [exact Hi|].
    rewrite Hlive. wsimpl. rewrite !live_ch_auth_methods_app.
    unfold flag_events, update_auth_methods. cbn [map fold_left fst snd].
    f_equal. unfold live_ch_auth_methods at 1 2. cbn [fold_left fst snd].
    unfold streq. rewrite !String.eqb_refl. reflexivity.
Qed.

(** X17: on a live server that stores the mask it is given for an endpoint
    of a call-home client and answers with the mask it holds,
    [np2srv_ch_endpt_ssh_auth_methods_cb] on changes of that endpoint leaves
    the server with the mask that [np2srv_ssh_update_auth_method] gives when
    it is applied to the changes in event order, starting from the mask the
    server held; the callback returns [SR_ERR_OK] when the iterator ends
    exhausted, and the iterator is freed. *)
Theorem ch_auth_methods_reconciled (E : environment) (xpath : string) (w : world)
    (client endpt : string) (init : Z) :
  e_alloc E (w_allocs w) = true ->
  cs_open (e_changes E (xpath ++ "/*")%string) = SR_ERR_OK ->
  ~ In (w_next_iter w) (w_iters w) ->
  forallb (of_ch_endpoint client endpt)
    (cs_changes (e_changes E (xpath ++ "/*")%string)) = true ->
  (forall log, e_nc E log (nc_server_ssh_ch_client_endpt_get_auth_methods client endpt) =
               live_ch_auth_methods client endpt init log) ->
  (forall log auth,
      e_nc E log (nc_server_ssh_ch_client_endpt_set_auth_methods client endpt auth) = 0) ->
  exists w',
    np2srv_ch_endpt_ssh_auth_methods_cb E xpath w =
    Done (if sr_error_eq_dec (cs_end (e_changes E (xpath ++ "/*")%string)) SR_ERR_NOT_FOUND
          then SR_ERR_OK else cs_end (e_changes E (xpath ++ "/*")%string)) w' /\
    w_iters w' = w_iters w /\
    live_ch_auth_methods client endpt init (w_calls w') =
    update_auth_methods (flag_events (cs_changes (e_changes E (xpath ++ "/*")%string)))
      (live_ch_auth_methods client endpt init (w_calls w)).
Proof.
  intros Ha Hopen Hfresh Hof Hget Hset.
  unfold np2srv_ch_endpt_ssh_auth_methods_cb, scan_children.
  rewrite bind_run, asprintf_run, Ha, bind_run.
  unfold sr_get_changes_iter. rewrite Hopen.
  destruct (sr_error_eq_dec SR_ERR_OK SR_ERR_OK) as [_|Hne]; [|contradiction].
  destruct (sr_error_eq_dec SR_ERR_OK SR_ERR_OK) as [_|Hne]; [|contradiction].
  unfold scan_changes. rewrite bind_run. cbn [it_changes it_end it_id].
  match goal with
  | |- context [while_changes (np2srv_ch_endpt_ssh_auth_methods_change E ?it) _ ?w1] =>
      destruct (ch_auth_methods_loop E it client endpt init _ Hget Hset Hof w1)
        as (w' & Hrun & Hi & Hlive)
  end.
  rewrite Hrun, bind_run. cbn [sr_free_change_iter it_id].
  eexists. split.
  { destruct (sr_error_eq_dec (cs_end (e_changes E (xpath ++ "/*")%string)) SR_ERR_NOT_FOUND);
      reflexivity. }
  wsimpl. split.
  - rewrite Hi. wsimpl. apply remove_fresh_snoc. exact Hfresh.
  - rewrite Hlive. reflexivity.
Qed.

Lemma ch_auth_methods_reconciled_witness :
  exists w',
    np2srv_ch_endpt_ssh_auth_methods_cb (storing_ch_server 3 (with_changes two_ch_methods quiet))
      auth_methods_xpath world0 = Done SR_ERR_OK w' /\
    w_iters w' = [] /\
    live_ch_auth_methods "cl1" "ep1" 3 (w_calls w') = 6.
Proof.
  apply (ch_auth_methods_reconciled (storing_ch_server 3 (with_changes two_ch_methods quiet))
           auth_methods_xpath world0 "cl1" "ep1" 3).
  - reflexivity.
  - reflexivity.
  - intros H. exact H.
  - reflexivity.
  - intros log. reflexivity.
  - intros log auth. reflexivity.
Defined.

(* ------------------------------------------------------------------ *)
(** ** Authorized-key enumerator: lines that give no key *)

(** The search gives up on a line without key type. *)
Lemma find_algorithm_gives_up (fields : list string) (tail : string) (w : world) :
  forallb (fun f => is_field f && negb (is_key_type f)) fields = true ->
  is_field tail = true -> is_key_type tail = false ->
  forall fuel, (String.length (options fields ++ tail) < fuel)%nat ->
    find_algorithm fuel (options fields ++ tail) w = Done None w.
Proof.
  intros Hf Ht Hk. induction fields as [|f rest IH]; intros fuel Hl.
  - destruct fuel as [|fuel]; [lia|]. cbn [options append find_algorithm].
    unfold is_key_type in Hk.
    destruct (prefix "ssh-dss" tail), (prefix "ssh-rsa" tail), (prefix "ecdsa" tail);
      try discriminate Hk.
    cbn [negb andb]. unfold is_field in Ht.
    destruct (strchr tail space); [discriminate | reflexivity].
  - cbn [forallb] in Hf. apply andb_true_iff in Hf as [Hf Hrest].
    apply andb_true_iff in Hf as [Hfield Hno]. apply negb_true_iff in Hno.
    destruct fuel as [|fuel]; [lia|].
    cbn [options] in *. rewrite append_append in *.
    cbn [append] in *.
    assert (Hk' : is_key_type (f ++ String space (options rest ++ tail)) = false).
    { rewrite is_key_type_field. exact Hno. }
    cbn [find_algorithm].
    unfold is_key_type in Hk'.
    destruct (prefix "ssh-dss" (f ++ String space (options rest ++ tail))),
             (prefix "ssh-rsa" (f ++ String space (options rest ++ tail))),
             (prefix "ecdsa" (f ++ String space (options rest ++ tail)));
      try discriminate Hk'.
    cbn [negb andb]. rewrite (strchr_field _ _ Hfield). cbn [incr].
    apply (IH Hrest). rewrite length_field in Hl. cbn [String.length] in Hl. lia.
Qed.

(** X18: a line gives no key, and no error, when no field that begins with
    [ssh-dss], [ssh-rsa] or [ecdsa] is followed by a space: a line of fields
    of which none begins with a key type, as the line of a key of another
    type is, and a line whose last field begins with a key type and has
    nothing after it.  The turn changes nothing and the counter stays. *)
Theorem line_without_key_skipped (E : environment) (fields : list string) (tail : string)
    (idx : Z) (w : world) :
  forallb (fun f => is_field f && negb (is_key_type f)) fields = true ->
  is_field tail = true ->
  authorized_keys_line E (options fields ++ tail) idx w = Done (0, idx) w.
Proof.
  intros Hf Ht. unfold authorized_keys_line.
  destruct (options fields ++ tail)%string as [|c tl] eqn:Hline; [reflexivity|].
  destruct (Ascii.eqb c hash); [reflexivity|].
  rewrite <- Hline. rewrite bind_run.
  destruct (is_key_type tail) eqn:Hk.
  - rewrite (find_algorithm_options fields tail w Hf Hk) by lia.
    unfold is_field in Ht. destruct (strchr tail space); [discriminate | reflexivity].
  - rewrite (find_algorithm_gives_up fields tail w Hf Ht Hk) by lia. reflexivity.
Qed.

Lemma line_without_key_skipped_witness :
  authorized_keys_line quiet
    (options ["ssh-ed25519"; "AAAAC3Nz"] ++ "alice@host" ++ String newline EmptyString)
    3 alice_entry =
  Done (0, 3) alice_entry.
Proof.
  apply (line_without_key_skipped quiet ["ssh-ed25519"; "AAAAC3Nz"]
           ("alice@host" ++ String newline EmptyString) 3 alice_entry); reflexivity.
Defined.

(* ------------------------------------------------------------------ *)
(** ** Connection type: the parameters of a periodic connection *)

(** X19: on a Modified [periodic] node [np2srv_ch_connection_type_cb] scans
    the parameters below it for the client found two levels up.  When the
    path of that scan cannot be allocated the turn makes the callback return
    [SR_ERR_NOMEM] with no call made.  Otherwise the calls of the turn are
    the mutations of the parameter changes, in event order and up to the
    first that fails, and the turn goes on exactly when the nested scan
    returned [SR_ERR_OK]; it makes the callback return the code of the nested
    scan otherwise. *)
Theorem periodic_modified_scans (E : environment) (xpath : string) (iter : sr_change_iter_t)
    (c : sr_change) (w : world) (client : string) :
  ch_op c = SR_OP_MODIFIED ->
  schema_name (ch_node c) = "periodic" ->
  resolve_key 2 (ch_node c) = Some client ->
  (e_alloc E (w_allocs w) = false ->
   exists w',
     np2srv_ch_connection_type_change E xpath iter c w = Done (Return SR_ERR_NOMEM) w' /\
     w_calls w' = w_calls w) /\
  (e_alloc E (w_allocs w) = true ->
   cs_open (e_changes E (xpath ++ "/periodic/*")%string) = SR_ERR_OK ->
   cs_end (e_changes E (xpath ++ "/periodic/*")%string) <> SR_ERR_OK ->
   exists rc w',
     np2srv_ch_connection_type_change E xpath iter c w =
     Done (if sr_error_eq_dec rc SR_ERR_OK then Next else Return rc) w' /\
     applied_in_order (periodic_call E client)
       (cs_changes (e_changes E (xpath ++ "/periodic/*")%string))
       (cs_end (e_changes E (xpath ++ "/periodic/*")%string)) w (Done rc w')).
Proof.
  intros Hop Hname Hc. unfold np2srv_ch_connection_type_change.
  rewrite bind_run, resolve_run, Hc, Hop, Hname. streq_eval. cbn [negb].
  rewrite bind_run, asprintf_run.
  split.
  - intros Ha. rewrite Ha. unfold ret. eexists. split; reflexivity.
  - intros Ha Hopen Hend. rewrite Ha. cbv beta iota. rewrite bind_run.
    destruct (subtree_applied_in_order E (xpath ++ "/periodic/*")%string
                (set_allocs w (S (w_allocs w))) Hopen Hend) as (_ & _ & _ & Hp).
    specialize (Hp client).
    destruct Hp as (rc & w' & n & log & Hrun & Hlog & Hrest).
    rewrite Hrun. exists rc, w'. split.
    + destruct (sr_error_eq_dec rc SR_ERR_OK); reflexivity.
    + exists rc, w', n, log. split; [reflexivity|]. split; [exact Hlog | exact Hrest].
Qed.

Lemma periodic_modified_scans_witness :
  exists rc w',
    np2srv_ch_connection_type_change (with_changes periodic_changes quiet) conn_type_xpath
      iter0 (conn_type_change SR_OP_MODIFIED "periodic") world0 =
    Done (if sr_error_eq_dec rc SR_ERR_OK then Next else Return rc) w' /\
    applied_in_order (periodic_call (with_changes periodic_changes quiet) "cl1")
      periodic_changes SR_ERR_NOT_FOUND world0 (Done rc w').
Proof.
  apply (periodic_modified_scans (with_changes periodic_changes quiet) conn_type_xpath iter0
           (conn_type_change SR_OP_MODIFIED "periodic") world0 "cl1").
  - reflexivity.
  - reflexivity.
  - reflexivity.
  - reflexivity.
  - reflexivity.
  - discriminate.
Defined.

(* ------------------------------------------------------------------ *)
(** ** Authorized-key enumerator: a key file that cannot be read to its end *)


